(** * Fee lifecycle engine of the school-management backend

    A shallow embedding of the fee subsystem
    ([src/models/Fee.js], [src/models/FeeFrequency.js],
    [src/controllers/feeController.js],
    [src/controllers/feeFrequencyController.js]) and the properties of it
    that the specification states.

    Conventions of the embedding:
    - a JavaScript [Number] holding money, a day of month or a count is a
      whole number of [Z].  The code computes with doubles: on whole
      numbers of magnitude up to [2^53 - 1] their sums, differences and
      comparisons are those of [Z], and a statement that adds amounts in
      more than one order carries that bound ([safeLedger]); what
      rounding does to amounts with a fraction is shown on the doubles
      themselves ([Double]);
    - a [Date] is a local civil instant (year, month index, day, millisecond
      of the day) on a time line without zone changes; [new Date()] is the
      [now] argument of the operation, read once per request;
    - a MongoDB collection is a finite map from [_id] to document, an
      [ObjectId] is its 96-bit value as an [N];
    - a controller returns the new database and the HTTP response. *)

From Stdlib Require Import ZArith Lia Bool List String Ascii Floats.
From stdpp Require Import base gmap strings pretty list fin_maps.

Local Open Scope Z_scope.

(* ===================================================================== *)
(** * JavaScript dates *)
(* ===================================================================== *)

Module JSDate.

Record t := mk {
  getFullYear : Z;   (* calendar year *)
  getMonth    : Z;   (* month index, 0 = January .. 11 = December *)
  getDate     : Z;   (* day of the month, from 1 *)
  msOfDay     : Z    (* milliseconds since local midnight *)
}.

Definition msPerDay : Z := 86400000.

Definition isLeapYear (y : Z) : bool :=
  ((y mod 4 =? 0) && negb (y mod 100 =? 0)) || (y mod 400 =? 0).

Definition daysInMonth (y m : Z) : Z :=
  if m =? 1 then (if isLeapYear y then 29 else 28)
  else if (m =? 3) || (m =? 5) || (m =? 8) || (m =? 10) then 30
  else 31.

(** [a < b] on dates compares the instants. *)
Definition ltb (a b : t) : bool :=
  (getFullYear a <? getFullYear b)
  || ((getFullYear a =? getFullYear b)
      && ((getMonth a <? getMonth b)
          || ((getMonth a =? getMonth b)
              && ((getDate a <? getDate b)
                  || ((getDate a =? getDate b) && (msOfDay a <? msOfDay b)))))).

Definition prevMonth (y m : Z) : Z * Z :=
  if m =? 0 then (y - 1, 11) else (y, m - 1).

Definition nextMonth (y m : Z) : Z * Z :=
  if m =? 11 then (y + 1, 0) else (y, m + 1).

(** A day number outside the month is carried into the neighbouring
    months, as [MakeDay] does by adding [day - 1] days to the first of
    the month. *)
Fixpoint carryDays (fuel : nat) (y m d : Z) : Z * Z * Z :=
  match fuel with
  | O => (y, m, d)
  | S fuel' =>
      if d <? 1 then
        let '(y', m') := prevMonth y m in
        carryDays fuel' y' m' (d + daysInMonth y' m')
      else if daysInMonth y m <? d then
        let '(y', m') := nextMonth y m in
        carryDays fuel' y' m' (d - daysInMonth y m)
      else (y, m, d)
  end.

(** [new Date(year, monthIndex, day)]: local midnight of that day.  A
    year from 0 to 99 stands for 1900 + year; a month index outside
    0..11 moves the year; a day outside the month is carried. *)
Definition make (year monthIndex day : Z) : t :=
  let yr := if (0 <=? year) && (year <=? 99) then 1900 + year else year in
  let ym := yr + monthIndex / 12 in
  let mn := monthIndex mod 12 in
  let '(y, m, d) := carryDays (S (Z.to_nat (Z.abs day))) ym mn day in
  mk y m d 0.

(** A reading of the system clock: a date that exists, at or after the
    epoch year. *)
Definition wf (x : t) : Prop :=
  1970 <= getFullYear x /\
  0 <= getMonth x <= 11 /\
  1 <= getDate x <= daysInMonth (getFullYear x) (getMonth x) /\
  0 <= msOfDay x < msPerDay.

End JSDate.

(* ===================================================================== *)
(** * Due-date calculator ([calculateDueDate], feeController.js) *)
(* ===================================================================== *)

(** The values that reach the [frequency] parameter: a string, an
    [ObjectId] (what a [FeeStructure] document stores), or [undefined]. *)
Inductive JsValue :=
| JsString (s : string)
| JsObjectId (id : N)
| JsUndefined.

(** [switch (frequency) { case '<code>': ... }] compares with [===]: only a
    string equal to the label selects the case. *)
Definition caseLabel (v : JsValue) (label : string) : bool :=
  match v with
  | JsString s => String.eqb s label
  | _ => false
  end.

Definition calculateDueDate (frequency : JsValue) (dueDateDay : Z)
    (currentDate : JSDate.t) : JSDate.t :=
  let currentYear := JSDate.getFullYear currentDate in
  let currentMonth := JSDate.getMonth currentDate in
  if caseLabel frequency "one-time" then
    let dueDate := JSDate.make currentYear currentMonth dueDateDay in
    if JSDate.ltb dueDate currentDate
    then JSDate.make currentYear (currentMonth + 1) dueDateDay
    else dueDate
  else if caseLabel frequency "monthly" then
    let dueDate := JSDate.make currentYear currentMonth dueDateDay in
    if JSDate.ltb dueDate currentDate
    then JSDate.make currentYear (currentMonth + 1) dueDateDay
    else dueDate
  else if caseLabel frequency "quarterly" then
    let quarterStartMonth := (currentMonth / 3) * 3 in
    let dueDate := JSDate.make currentYear quarterStartMonth dueDateDay in
    if JSDate.ltb dueDate currentDate
    then JSDate.make currentYear (quarterStartMonth + 3) dueDateDay
    else dueDate
  else if caseLabel frequency "half-yearly" then
    let halfYearMonth := if currentMonth <? 6 then 0 else 6 in
    let dueDate := JSDate.make currentYear halfYearMonth dueDateDay in
    if JSDate.ltb dueDate currentDate
    then JSDate.make currentYear (halfYearMonth + 6) dueDateDay
    else dueDate
  else if caseLabel frequency "yearly" then
    let dueDate := JSDate.make currentYear 3 dueDateDay in
    if JSDate.ltb dueDate currentDate
    then JSDate.make (currentYear + 1) 3 dueDateDay
    else dueDate
  else
    JSDate.make currentYear (currentMonth + 1) dueDateDay.

(** ** The table of section 4.1, as the specification words it *)

Module DueDateTable.

(** A calendar day at midnight, with the day of month taken as given. *)
Definition onDay (ym : Z * Z) (dayOfMonth : Z) : JSDate.t :=
  JSDate.mk (fst ym) (snd ym) dayOfMonth 0.

(** [k] months after month [m] of year [y]. *)
Definition monthsLater (k : Z) (ym : Z * Z) : Z * Z :=
  (fst ym + (snd ym + k) / 12, (snd ym + k) mod 12).

(** The anchor month of a known code and the length of its roll. *)
Definition rule (code : string) (ref : JSDate.t) : option ((Z * Z) * Z) :=
  let y := JSDate.getFullYear ref in
  let m := JSDate.getMonth ref in
  if String.eqb code "one-time" then Some ((y, m), 1)
  else if String.eqb code "monthly" then Some ((y, m), 1)
  else if String.eqb code "quarterly" then Some ((y, 3 * (m / 3)), 3)
  else if String.eqb code "half-yearly" then
    Some ((y, if m <? 6 then 0 else 6), 6)
  else if String.eqb code "yearly" then Some ((y, 3), 12)
  else None.

(** The months the table can answer with. *)
Definition targets (code : string) (ref : JSDate.t) : list (Z * Z) :=
  match rule code ref with
  | Some (anchor, roll) => [anchor; monthsLater roll anchor]
  | None =>
      [monthsLater 1 (JSDate.getFullYear ref, JSDate.getMonth ref)]
  end.

Definition computeDueDate (code : string) (dayOfMonth : Z)
    (ref : JSDate.t) : JSDate.t :=
  match rule code ref with
  | Some (anchor, roll) =>
      if JSDate.ltb (onDay anchor dayOfMonth) ref
      then onDay (monthsLater roll anchor) dayOfMonth
      else onDay anchor dayOfMonth
  | None =>
      onDay (monthsLater 1 (JSDate.getFullYear ref, JSDate.getMonth ref))
        dayOfMonth
  end.

(** The day of month exists in every month the table can answer with. *)
Definition dayExists (code : string) (dayOfMonth : Z) (ref : JSDate.t)
  : bool :=
  forallb (fun ym => (1 <=? dayOfMonth)
                     && (dayOfMonth <=? JSDate.daysInMonth (fst ym) (snd ym)))
          (targets code ref).

End DueDateTable.

(* ===================================================================== *)
(** * Numbers as text *)
(* ===================================================================== *)

(** [Number.prototype.toString] of an integer: decimal digits, a leading
    minus sign for a negative number. *)
Definition toString (n : Z) : string := pretty n.

Fixpoint repeatChar (n : nat) (c : ascii) : string :=
  match n with
  | O => EmptyString
  | S n' => String c (repeatChar n' c)
  end.

(** [s.padStart(targetLength, c)] for a one-character pad string: the
    string is returned as it is when it is long enough. *)
Definition padStart (s : string) (targetLength : nat) (c : ascii) : string :=
  (repeatChar (targetLength - String.length s)%nat c ++ s)%string.

Definition hexDigit (n : N) : ascii :=
  match n with
  | 0 => "0" | 1 => "1" | 2 => "2" | 3 => "3" | 4 => "4" | 5 => "5"
  | 6 => "6" | 7 => "7" | 8 => "8" | 9 => "9" | 10 => "a" | 11 => "b"
  | 12 => "c" | 13 => "d" | 14 => "e" | _ => "f"
  end%char%N.

Fixpoint hexOf (digits : nat) (n : N) : string :=
  match digits with
  | O => EmptyString
  | S d => (hexOf d (n / 16)%N ++ String (hexDigit (n mod 16)%N) EmptyString)%string
  end.

(** [ObjectId.prototype.toString]: 24 hexadecimal digits. *)
Definition objectIdToString (id : N) : string := hexOf 24 id.

(* ===================================================================== *)
(** * Collections *)
(* ===================================================================== *)

(** [Model.find(filter)]: the matching documents with their ids. *)
Definition find {A} (P : N * A -> Prop) `{!forall x, Decision (P x)}
    (m : gmap N A) : list (N * A) :=
  map_to_list (filter P m).

(** [Model.findOne(filter)]. *)
Definition findOne {A} (P : N * A -> Prop) `{!forall x, Decision (P x)}
    (m : gmap N A) : option (N * A) :=
  head (find P m).

(** [Model.countDocuments(filter)]. *)
Definition countDocuments {A} (P : N * A -> Prop) `{!forall x, Decision (P x)}
    (m : gmap N A) : nat :=
  size (filter P m).

(** The [_id] the driver gives a new document of a collection. *)
Definition newObjectId {A} (m : gmap N A) : N := fresh (dom m).

(* ===================================================================== *)
(** * Data model ([src/config/constants.js], [src/models/*.js]) *)
(* ===================================================================== *)

Inductive FEE_STATUS := PAID | PENDING | PARTIALLY_PAID | OVERDUE | CANCELLED.

Global Instance FEE_STATUS_eq_dec : EqDecision FEE_STATUS.
Proof. solve_decision. Defined.

Inductive PaymentMethod := cash | cheque | online | bank_transfer | card.

Inductive PaymentStatus :=
| st_completed | st_pending | st_failed | st_refunded.

Module FeeFrequency.
Record t := mk {
  tenant : N;
  name : string;
  code : string;
  monthsInterval : Z;
  isSystem : bool;
  displayOrder : Z;
  isActive : bool
}.

(** [getDefaultFrequencies], with the tenant added as
    [initializeDefaultFrequencies] does. *)
Definition getDefaultFrequencies (tenantId : N) : list t :=
  [ mk tenantId "One Time" "one-time" 0 true 1 true;
    mk tenantId "Monthly" "monthly" 1 true 2 true;
    mk tenantId "Quarterly" "quarterly" 3 true 3 true;
    mk tenantId "Half Yearly" "half-yearly" 6 true 4 true;
    mk tenantId "Yearly" "yearly" 12 true 5 true ].
End FeeFrequency.

Module FeeStructure.
Record t := mk {
  tenant : N;
  name : string;
  category : option N;       (* ObjectId, ref FeeCategory *)
  classes : list N;          (* ObjectId, ref Class *)
  amount : Z;
  frequency : option N;      (* ObjectId, ref FeeFrequency *)
  academicYear : string;
  dueDate : Z;               (* day of month, default 10 *)
  isActive : bool
}.
End FeeStructure.

Module Discount.
Record t := mk { amount : Z; reason : option string }.
End Discount.

Module FeeAssignment.
Record t := mk {
  tenant : N;
  student : N;
  feeStructure : N;
  academicYear : string;
  totalAmount : Z;
  discount : Discount.t;
  finalAmount : Z;
  dueDate : JSDate.t;
  status : FEE_STATUS;
  paidAmount : option Z;     (* a number, or [None] for a stored null *)
  paidDate : option JSDate.t;
  paymentId : option N;
  cancelledAt : option JSDate.t;
  cancelledBy : option N;
  cancellationReason : option string
}.

Definition setStatus (s : FEE_STATUS) (a : t) : t :=
  mk (tenant a) (student a) (feeStructure a) (academicYear a)
     (totalAmount a) (discount a) (finalAmount a) (dueDate a) s
     (paidAmount a) (paidDate a) (paymentId a)
     (cancelledAt a) (cancelledBy a) (cancellationReason a).

Definition setFinalAmount (x : Z) (a : t) : t :=
  mk (tenant a) (student a) (feeStructure a) (academicYear a)
     (totalAmount a) (discount a) x (dueDate a) (status a)
     (paidAmount a) (paidDate a) (paymentId a)
     (cancelledAt a) (cancelledBy a) (cancellationReason a).

(** The three assignments of [recordFeePayment] to the loaded document. *)
Definition setPayment (paid : Z) (on : JSDate.t) (payment : N) (a : t) : t :=
  mk (tenant a) (student a) (feeStructure a) (academicYear a)
     (totalAmount a) (discount a) (finalAmount a) (dueDate a) (status a)
     (Some paid) (Some on) (Some payment)
     (cancelledAt a) (cancelledBy a) (cancellationReason a).

(** The value a stored [paidAmount] has in arithmetic and comparisons
    (a null counts as 0). *)
Definition paidNumber (a : t) : Z := default 0 (paidAmount a).

(** [feeAssignmentSchema.pre('save')]. *)
Definition preSave (isNew : bool) (now : JSDate.t) (a : t) : t :=
  let a1 :=
    if isNew
    then setFinalAmount (totalAmount a - Discount.amount (discount a)) a
    else a in
  if finalAmount a1 <=? paidNumber a1 then setStatus PAID a1
  else if 0 <? paidNumber a1 then setStatus PARTIALLY_PAID a1
  else if JSDate.ltb (dueDate a1) now then setStatus OVERDUE a1
  else a1.

(** [calculatePendingAmount]. *)
Definition calculatePendingAmount (a : t) : Z :=
  let finalAmount := finalAmount a in
  let paidAmount := match paidAmount a with Some n => n | None => 0 end in
  Z.max (finalAmount - paidAmount) 0.

(** [updateStatus]; [today] is the [new Date()] it reads. *)
Definition updateStatus (today : JSDate.t) (a : t) : t :=
  let paid := match paidAmount a with Some n => n | None => 0 end in
  if finalAmount a <=? paid then setStatus PAID a
  else if 0 <? paid then
    if JSDate.ltb (dueDate a) today
    then setStatus OVERDUE a
    else setStatus PARTIALLY_PAID a
  else
    if JSDate.ltb (dueDate a) today
    then setStatus OVERDUE a
    else setStatus PENDING a.
End FeeAssignment.

Module FeePayment.
Record t := mk {
  tenant : N;
  student : N;
  feeAssignment : N;
  amount : Z;
  paymentDate : JSDate.t;
  paymentMethod : PaymentMethod;
  transactionId : option string;
  receiptNumber : option string;
  collectedBy : N;
  remarks : option string;
  status : PaymentStatus
}.

Definition setReceiptNumber (r : string) (p : t) : t :=
  mk (tenant p) (student p) (feeAssignment p) (amount p) (paymentDate p)
     (paymentMethod p) (transactionId p) (Some r) (collectedBy p)
     (remarks p) (status p).

(** [`RCP${year}${(count + 1).toString().padStart(6, '0')}`]. *)
Definition receipt (year : Z) (count : nat) : string :=
  ("RCP" ++ toString year
         ++ padStart (toString (Z.of_nat count + 1)) 6 "0")%string.

(** [!this.receiptNumber]. *)
Definition noReceiptNumber (p : t) : bool :=
  match receiptNumber p with
  | None => true
  | Some r => String.eqb r ""
  end.

(** [feePaymentSchema.pre('save')], over the collection it counts. *)
Definition preSave (isNew : bool) (now : JSDate.t) (payments : gmap N t)
    (p : t) : t :=
  if isNew && noReceiptNumber p then
    let count :=
      countDocuments (fun x => tenant (snd x) = tenant p) payments in
    let year := JSDate.getFullYear now in
    setReceiptNumber (receipt year count) p
  else p.

(** The unique indexes of the schema: [receiptNumber: { unique: true }]
    and [{ tenant: 1, receiptNumber: 1 }, { unique: true }]. *)
Definition uniqueIndexesAllow (payments : gmap N t) (p : t) : bool :=
  (countDocuments
     (fun x => receiptNumber (snd x) = receiptNumber p) payments =? 0)%nat
  && (countDocuments
        (fun x => tenant (snd x) = tenant p
                  /\ receiptNumber (snd x) = receiptNumber p) payments
      =? 0)%nat.
End FeePayment.

Module Student.
Record t := mk {
  tenant : N;
  firstName : string;
  lastName : string;
  class : option N;
  isActive : bool
}.
End Student.

Module Class.
Record t := mk { tenant : N; name : string; section : string }.

(** The virtual [displayName]. *)
Definition displayName (c : t) : string :=
  (name c ++ " - " ++ section c)%string.
End Class.

(** ** The database: one finite map per collection, keyed by [_id] *)

Record Db := mkDb {
  feeFrequencies : gmap N FeeFrequency.t;
  feeStructures : gmap N FeeStructure.t;
  feeAssignments : gmap N FeeAssignment.t;
  feePayments : gmap N FeePayment.t;
  students : gmap N Student.t;
  classRooms : gmap N Class.t
}.

Definition withAssignments (m : gmap N FeeAssignment.t) (db : Db) : Db :=
  mkDb (feeFrequencies db) (feeStructures db) m (feePayments db)
       (students db) (classRooms db).

Definition withPayments (m : gmap N FeePayment.t) (db : Db) : Db :=
  mkDb (feeFrequencies db) (feeStructures db) (feeAssignments db) m
       (students db) (classRooms db).

Definition withFrequencies (m : gmap N FeeFrequency.t) (db : Db) : Db :=
  mkDb m (feeStructures db) (feeAssignments db) (feePayments db)
       (students db) (classRooms db).

(* ===================================================================== *)
(** * Persistence of assignments and payments *)
(* ===================================================================== *)

(** [FeeAssignment.create(doc)]: the pre-save hook of a new document, then
    the insert under a new [_id]. *)
Definition createFeeAssignment (now : JSDate.t) (doc : FeeAssignment.t)
    (db : Db) : Db * (N * FeeAssignment.t) :=
  let id := newObjectId (feeAssignments db) in
  let saved := FeeAssignment.preSave true now doc in
  (withAssignments (<[id := saved]> (feeAssignments db)) db, (id, saved)).

(** [assignment.save()] of a loaded document: the pre-save hook, then the
    write under its [_id]. *)
Definition saveFeeAssignment (now : JSDate.t) (id : N) (a : FeeAssignment.t)
    (db : Db) : Db * FeeAssignment.t :=
  let saved := FeeAssignment.preSave false now a in
  (withAssignments (<[id := saved]> (feeAssignments db)) db, saved).

(** [FeePayment.create(doc)]: the pre-save hook, then the insert, which
    the unique indexes can refuse with a duplicate-key error. *)
Definition createFeePayment (now : JSDate.t) (doc : FeePayment.t) (db : Db)
    : option (Db * (N * FeePayment.t)) :=
  let saved := FeePayment.preSave true now (feePayments db) doc in
  if FeePayment.uniqueIndexesAllow (feePayments db) saved then
    let id := newObjectId (feePayments db) in
    Some (withPayments (<[id := saved]> (feePayments db)) db, (id, saved))
  else None.

(* ===================================================================== *)
(** * Fee controller ([src/controllers/feeController.js]) *)
(* ===================================================================== *)

Inductive Response (A : Type) :=
| Success (status : Z) (data : A)
| Failure (status : Z) (message : string).
Arguments Success {A} status data.
Arguments Failure {A} status message.

(** [req.user]: the caller and the tenant the caller belongs to. *)
Record User := mkUser { userId : N; userTenant : N }.

(** The [frequency] a fee structure hands to [calculateDueDate]. *)
Definition frequencyValue (fs : FeeStructure.t) : JsValue :=
  match FeeStructure.frequency fs with
  | Some id => JsObjectId id
  | None => JsUndefined
  end.

(** The filter of the existence check of both assignment paths. *)
Definition sameAssignment (tenantId studentId feeStructureId : N)
    (academicYear : string) (x : N * FeeAssignment.t) : Prop :=
  FeeAssignment.tenant (snd x) = tenantId
  /\ FeeAssignment.student (snd x) = studentId
  /\ FeeAssignment.feeStructure (snd x) = feeStructureId
  /\ FeeAssignment.academicYear (snd x) = academicYear.

Global Instance sameAssignment_dec t s f y x :
  Decision (sameAssignment t s f y x).
Proof. unfold sameAssignment. apply _. Defined.

Module AssignFeeBody.
Record t := mk {
  studentId : N;
  feeStructureId : N;
  discount : option Discount.t
}.
End AssignFeeBody.

Definition assignFeeToStudent (user : User) (body : AssignFeeBody.t)
    (now : JSDate.t) (db : Db) : Db * Response (N * FeeAssignment.t) :=
  let studentId := AssignFeeBody.studentId body in
  let feeStructureId := AssignFeeBody.feeStructureId body in
  let discount := AssignFeeBody.discount body in
  match feeStructures db !! feeStructureId with
  | Some feeStructure =>
      if decide (FeeStructure.tenant feeStructure = userTenant user) then
        match findOne (sameAssignment (userTenant user) studentId
                         feeStructureId
                         (FeeStructure.academicYear feeStructure))
                (feeAssignments db) with
        | Some _ => (db, Failure 400 "Fee already assigned to this student")
        | None =>
            let dueDate :=
              calculateDueDate (frequencyValue feeStructure)
                (FeeStructure.dueDate feeStructure) now in
            let discountAmount :=
              match discount with
              | Some d => Discount.amount d
              | None => 0
              end in
            let '(db', created) :=
              createFeeAssignment now
                (FeeAssignment.mk (userTenant user) studentId feeStructureId
                   (FeeStructure.academicYear feeStructure)
                   (FeeStructure.amount feeStructure)
                   (default (Discount.mk 0 None) discount)
                   (FeeStructure.amount feeStructure - discountAmount)
                   dueDate PENDING (Some 0) None None None None None)
                db in
            (db', Success 201 created)
        end
      else (db, Failure 404 "Fee structure not found")
  | None => (db, Failure 404 "Fee structure not found")
  end.

(** One turn of the loop of [autoAssignClassFees]. *)
Definition autoAssignOne (studentId tenantId : N) (now : JSDate.t)
    (acc : Db * list (N * FeeAssignment.t)) (fs : N * FeeStructure.t)
    : Db * list (N * FeeAssignment.t) :=
  let '(db, assignments) := acc in
  let '(fsId, feeStructure) := fs in
  match findOne (sameAssignment tenantId studentId fsId
                   (FeeStructure.academicYear feeStructure))
          (feeAssignments db) with
  | Some _ => (db, assignments)
  | None =>
      let day := FeeStructure.dueDate feeStructure in
      let dueDate :=
        calculateDueDate (frequencyValue feeStructure)
          (if day =? 0 then 10 else day) now in
      let '(db', created) :=
        createFeeAssignment now
          (FeeAssignment.mk tenantId studentId fsId
             (FeeStructure.academicYear feeStructure)
             (FeeStructure.amount feeStructure)
             (Discount.mk 0 None)
             (FeeStructure.amount feeStructure)
             dueDate PENDING (Some 0) None None None None None)
          db in
      (db', assignments ++ [created])
  end.

(** The active fee structures of the tenant bound to the class. *)
Definition classFeeStructures (tenantId classId : N) (db : Db)
    : list (N * FeeStructure.t) :=
  find (fun x => FeeStructure.tenant (snd x) = tenantId
                 /\ classId ∈ FeeStructure.classes (snd x)
                 /\ FeeStructure.isActive (snd x) = true)
       (feeStructures db).

Definition autoAssignClassFees (studentId classId tenantId : N)
    (now : JSDate.t) (db : Db) : Db * list (N * FeeAssignment.t) :=
  fold_left (autoAssignOne studentId tenantId now)
            (classFeeStructures tenantId classId db) (db, []).

Module PaymentBody.
Record t := mk {
  studentId : N;
  feeAssignmentId : N;
  amount : Z;
  paymentMethod : PaymentMethod;
  transactionId : option string;
  remarks : option string
}.
End PaymentBody.

(** [FeeAssignment.findOne({ _id, tenant, student })]. *)
Definition findAssignmentOf (user : User) (body : PaymentBody.t) (db : Db)
    : option FeeAssignment.t :=
  match feeAssignments db !! PaymentBody.feeAssignmentId body with
  | Some a =>
      if decide (FeeAssignment.tenant a = userTenant user
                 /\ FeeAssignment.student a = PaymentBody.studentId body)
      then Some a else None
  | None => None
  end.

Definition rupee : string :=
  String (ascii_of_nat 226) (String (ascii_of_nat 130)
    (String (ascii_of_nat 185) EmptyString)).

Definition exceedsRemaining (remainingAmount : Z) : string :=
  ("Payment amount cannot exceed remaining amount of " ++ rupee
     ++ toString remainingAmount)%string.

Definition recordFeePayment (user : User) (body : PaymentBody.t)
    (now : JSDate.t) (db : Db) : Db * Response (N * FeePayment.t) :=
  let amount := PaymentBody.amount body in
  match findAssignmentOf user body db with
  | None => (db, Failure 404 "Fee assignment not found")
  | Some feeAssignment =>
      let remainingAmount :=
        FeeAssignment.finalAmount feeAssignment
        - FeeAssignment.paidNumber feeAssignment in
      if remainingAmount <? amount then
        (db, Failure 400 (exceedsRemaining remainingAmount))
      else
        match createFeePayment now
                (FeePayment.mk (userTenant user) (PaymentBody.studentId body)
                   (PaymentBody.feeAssignmentId body) amount now
                   (PaymentBody.paymentMethod body)
                   (PaymentBody.transactionId body) None (userId user)
                   (PaymentBody.remarks body) st_completed)
                db with
        | None => (db, Failure 400 "Error recording payment")
        | Some (db1, payment) =>
            let paid :=
              FeeAssignment.setPayment
                (FeeAssignment.paidNumber feeAssignment + amount) now
                (fst payment) feeAssignment in
            let updated := FeeAssignment.updateStatus now paid in
            let '(db2, _) :=
              saveFeeAssignment now (PaymentBody.feeAssignmentId body)
                updated db1 in
            (db2, Success 201 payment)
        end
  end.

(** ** School-level summary ([getSchoolFeeSummary]) *)

Module Summary.

Record Bucket := mkBucket {
  expected : Z;
  collected : Z;
  pending : Z;
  overdue : Z
}.

(** A class entry while the loop runs: [studentCount] is a [Set]. *)
Record ClassBucket := mkClassBucket {
  totals : Bucket;
  studentCount : gset N
}.

Record t := mk {
  totalStudents : nat;
  totalAssignments : nat;
  totalExpected : Z;
  totalCollected : Z;
  totalPending : Z;
  totalOverdue : Z;
  classWiseSummary : gmap string ClassBucket;
  categoryWiseSummary : gmap string Bucket
}.

Definition emptyBucket : Bucket := mkBucket 0 0 0 0.

Definition addAmounts (finalAmount paidAmount : Z) (b : Bucket) : Bucket :=
  mkBucket (expected b + finalAmount) (collected b + paidAmount)
           (pending b) (overdue b).

Definition addPending (x : Z) (b : Bucket) : Bucket :=
  mkBucket (expected b) (collected b) (pending b + x) (overdue b).

Definition addOverdue (x : Z) (b : Bucket) : Bucket :=
  mkBucket (expected b) (collected b) (pending b) (overdue b + x).

(** A class entry once the sets are replaced by their sizes. *)
Definition closeClass (c : ClassBucket) : Bucket * nat :=
  (totals c, size (studentCount c)).

End Summary.

(** An assignment with [student] and [feeStructure] populated: a reference
    that no longer resolves is [None]. *)
Record Populated := mkPopulated {
  assignmentId : N;
  assignment : FeeAssignment.t;
  populatedStudent : option Student.t;
  populatedFeeStructure : option FeeStructure.t
}.

Definition populate (db : Db) (x : N * FeeAssignment.t) : Populated :=
  mkPopulated (fst x) (snd x)
    (students db !! FeeAssignment.student (snd x))
    (feeStructures db !! FeeAssignment.feeStructure (snd x)).

(** The base query: the tenant, and the academic year when one is asked. *)
Definition summaryQuery (tenantId : N) (academicYear : option string)
    (x : N * FeeAssignment.t) : Prop :=
  FeeAssignment.tenant (snd x) = tenantId
  /\ match academicYear with
     | Some y => FeeAssignment.academicYear (snd x) = y
     | None => True
     end.

Global Instance summaryQuery_dec t y x : Decision (summaryQuery t y x).
Proof. unfold summaryQuery. destruct y; apply _. Defined.

(** [validAssignments]: the assignments whose student still resolves. *)
Definition validAssignments (tenantId : N) (academicYear : option string)
    (db : Db) : list Populated :=
  List.filter (fun a => bool_decide (is_Some (populatedStudent a)))
    (List.map (populate db)
       (find (summaryQuery tenantId academicYear) (feeAssignments db))).

(** [classMap]: the display name of every class of the tenant. *)
Definition classMap (tenantId : N) (db : Db) : gmap N string :=
  Class.displayName <$>
    filter (fun x => Class.tenant (snd x) = tenantId) (classRooms db).

(** The body of the loop over [validAssignments]. *)
Definition summarize (now : JSDate.t) (names : gmap N string)
    (summary : Summary.t) (a : Populated) : Summary.t :=
  let assignment := FeeAssignment.updateStatus now (assignment a) in
  let pending := FeeAssignment.calculatePendingAmount assignment in
  let className :=
    match populatedStudent a with
    | Some st =>
        match Student.class st with
        | Some c => default "Unknown Class" (names !! c)
        | None => "Unknown Class"
        end
    | None => "Unknown Class"
    end in
  let category :=
    match populatedFeeStructure a with
    | Some fs =>
        match FeeStructure.category fs with
        | Some c => objectIdToString c
        | None => "other"
        end
    | None => "other"
    end in
  let finalAmount := FeeAssignment.finalAmount assignment in
  let paidAmount := FeeAssignment.paidNumber assignment in
  let classEntry :=
    default (Summary.mkClassBucket Summary.emptyBucket ∅)
            (Summary.classWiseSummary summary !! className) in
  let categoryEntry :=
    default Summary.emptyBucket
            (Summary.categoryWiseSummary summary !! category) in
  let classTotals :=
    Summary.addAmounts finalAmount paidAmount (Summary.totals classEntry) in
  let classStudents :=
    {[ FeeAssignment.student assignment ]} ∪ Summary.studentCount classEntry in
  let categoryTotals :=
    Summary.addAmounts finalAmount paidAmount categoryEntry in
  let isOverdue :=
    bool_decide (FeeAssignment.status assignment = OVERDUE) in
  let route (b : Summary.Bucket) : Summary.Bucket :=
    if 0 <? pending then
      if isOverdue then Summary.addOverdue pending b
      else Summary.addPending pending b
    else b in
  Summary.mk
    (Summary.totalStudents summary)
    (Summary.totalAssignments summary)
    (Summary.totalExpected summary + finalAmount)
    (Summary.totalCollected summary + paidAmount)
    (if (0 <? pending) && negb isOverdue
     then Summary.totalPending summary + pending
     else Summary.totalPending summary)
    (if (0 <? pending) && isOverdue
     then Summary.totalOverdue summary + pending
     else Summary.totalOverdue summary)
    (<[className := Summary.mkClassBucket (route classTotals) classStudents]>
       (Summary.classWiseSummary summary))
    (<[category := route categoryTotals]>
       (Summary.categoryWiseSummary summary)).

(** [getSchoolFeeSummary], up to the totals and the two breakdowns (the
    recent payments and the collection rate are computed after them and
    are left out). *)
Definition getSchoolFeeSummary (user : User) (academicYear : option string)
    (now : JSDate.t) (db : Db) : Response Summary.t :=
  let tenantId := userTenant user in
  let valid := validAssignments tenantId academicYear db in
  let students : gset N :=
    list_to_set
      (List.map (fun a => FeeAssignment.student (assignment a)) valid) in
  let start :=
    Summary.mk (size students) (length valid) 0 0 0 0 ∅ ∅ in
  Success 200 (fold_left (summarize now (classMap tenantId db)) valid start).

(* ===================================================================== *)
(** * Fee frequencies ([FeeFrequency.js], [feeFrequencyController.js]) *)
(* ===================================================================== *)

(** The answer of [canDelete]. *)
Record CanDelete := mkCanDelete {
  canDelete : bool;
  reason : option string
}.

Definition inUseReason (count : nat) : string :=
  ("This frequency is being used by " ++ toString (Z.of_nat count)
     ++ " fee structure(s)")%string.

(** [feeFrequencySchema.methods.canDelete].  The filter
    [{ tenant, frequency: this.code }] is cast to the schema of
    [FeeStructure], whose [frequency] is an [ObjectId]: [castObjectId] is
    the cast of the library, which fails on a string that is not an
    [ObjectId]; the method then throws ([None]). *)
Definition FeeFrequency_canDelete (castObjectId : string -> option N)
    (db : Db) (this : FeeFrequency.t) : option CanDelete :=
  if FeeFrequency.isSystem this then
    Some (mkCanDelete false (Some "System frequencies cannot be deleted"))
  else
    match castObjectId (FeeFrequency.code this) with
    | None => None
    | Some oid =>
        let count :=
          countDocuments
            (fun x => FeeStructure.tenant (snd x) = FeeFrequency.tenant this
                      /\ FeeStructure.frequency (snd x) = Some oid)
            (feeStructures db) in
        if (0 <? count)%nat
        then Some (mkCanDelete false (Some (inUseReason count)))
        else Some (mkCanDelete true None)
    end.

Definition deleteFeeFrequency (castObjectId : string -> option N)
    (user : User) (id : N) (db : Db) : Db * Response unit :=
  match feeFrequencies db !! id with
  | Some frequency =>
      if decide (FeeFrequency.tenant frequency = userTenant user) then
        match FeeFrequency_canDelete castObjectId db frequency with
        | None => (db, Failure 400 "Error deleting frequency")
        | Some answer =>
            if canDelete answer then
              (withFrequencies (delete id (feeFrequencies db)) db,
               Success 200 tt)
            else (db, Failure 400 (default "" (reason answer)))
        end
      else (db, Failure 404 "Frequency not found")
  | None => (db, Failure 404 "Frequency not found")
  end.

(** A cast that accepts the 24-digit hexadecimal form of an [ObjectId]
    and nothing else. *)
Definition hexValue (c : ascii) : option N :=
  let n := N_of_ascii c in
  if (48 <=? n)%N && (n <=? 57)%N then Some (n - 48)%N
  else if (97 <=? n)%N && (n <=? 102)%N then Some (n - 87)%N
  else if (65 <=? n)%N && (n <=? 70)%N then Some (n - 55)%N
  else None.

Fixpoint hexParse (acc : N) (s : string) : option N :=
  match s with
  | EmptyString => Some acc
  | String c s' =>
      match hexValue c with
      | Some d => hexParse (16 * acc + d)%N s'
      | None => None
      end
  end.

Definition castObjectIdHex (s : string) : option N :=
  if (String.length s =? 24)%nat then hexParse 0 s else None.

(* ===================================================================== *)
(** * Sequential execution *)
(* ===================================================================== *)

(** The requests that write assignments and payments. *)
Inductive Op :=
| OpAssignFee (user : User) (body : AssignFeeBody.t) (now : JSDate.t)
| OpAutoAssign (studentId classId tenantId : N) (now : JSDate.t)
| OpRecordPayment (user : User) (body : PaymentBody.t) (now : JSDate.t).

Definition opTime (op : Op) : JSDate.t :=
  match op with
  | OpAssignFee _ _ now => now
  | OpAutoAssign _ _ _ now => now
  | OpRecordPayment _ _ now => now
  end.

Definition step (db : Db) (op : Op) : Db :=
  match op with
  | OpAssignFee user body now => fst (assignFeeToStudent user body now db)
  | OpAutoAssign s c t now => fst (autoAssignClassFees s c t now db)
  | OpRecordPayment user body now => fst (recordFeePayment user body now db)
  end.

(** The requests of [ops] served one after the other. *)
Definition run (ops : list Op) (db : Db) : Db := fold_left step ops db.

(* ===================================================================== *)
(** * The status table of section 4.2, as the specification words it *)
(* ===================================================================== *)

Module StatusTable.

(** [a >= b] on dates. *)
Definition geb (a b : JSDate.t) : bool := negb (JSDate.ltb a b).

(** The rows in the order of the table; the first row that applies
    gives the status, and no row applies to a negative [paidAmount]. *)
Definition derive (paidAmount finalAmount : Z) (dueDate today : JSDate.t)
  : option FEE_STATUS :=
  if finalAmount <=? paidAmount then Some PAID
  else if (0 <? paidAmount) && (paidAmount <? finalAmount)
          && JSDate.ltb dueDate today then Some OVERDUE
  else if (0 <? paidAmount) && (paidAmount <? finalAmount)
          && geb dueDate today then Some PARTIALLY_PAID
  else if (paidAmount =? 0) && JSDate.ltb dueDate today then Some OVERDUE
  else if (paidAmount =? 0) && geb dueDate today then Some PENDING
  else None.

End StatusTable.

(* ===================================================================== *)
(** * One assignment per tuple *)
(* ===================================================================== *)

(** No two stored assignments agree on (tenant, student, feeStructure,
    academicYear). *)
Definition uniqueAssignments (m : gmap N FeeAssignment.t) : Prop :=
  forall i j a b, m !! i = Some a -> m !! j = Some b ->
    sameAssignment (FeeAssignment.tenant a) (FeeAssignment.student a)
      (FeeAssignment.feeStructure a) (FeeAssignment.academicYear a) (j, b) ->
    i = j.

(** The assignments of a tuple that are not cancelled. *)
Definition activeAssignments (tenantId studentId feeStructureId : N)
    (academicYear : string) (db : Db) : nat :=
  countDocuments
    (fun x => sameAssignment tenantId studentId feeStructureId academicYear x
              /\ FeeAssignment.status (snd x) <> CANCELLED)
    (feeAssignments db).

(** The student holds an assignment of the structure for its year. *)
Definition covered (tenantId studentId : N) (db : Db)
    (fs : N * FeeStructure.t) : Prop :=
  exists i a, feeAssignments db !! i = Some a
    /\ sameAssignment tenantId studentId (fst fs)
         (FeeStructure.academicYear (snd fs)) (i, a).

(** Every stored assignment of [db] is stored in [db'] as it is. *)
Definition keeps (db db' : Db) : Prop :=
  forall i a, feeAssignments db !! i = Some a ->
              feeAssignments db' !! i = Some a.

(* ===================================================================== *)
(** * Receipt numbers in use *)
(* ===================================================================== *)

(** The receipt number the pre-save hook gives the next payment of a
    tenant. *)
Definition nextReceipt (tenantId : N) (now : JSDate.t) (db : Db) : string :=
  FeePayment.receipt (JSDate.getFullYear now)
    (countDocuments (fun x => FeePayment.tenant (snd x) = tenantId)
       (feePayments db)).

(** No stored payment carries that number: the unique indexes accept the
    insert. *)
Definition receiptUnused (tenantId : N) (now : JSDate.t) (db : Db) : Prop :=
  forall id p, feePayments db !! id = Some p ->
    FeePayment.receiptNumber p <> Some (nextReceipt tenantId now db).

(** The payment document [recordFeePayment] hands to [FeePayment.create]. *)
Definition paymentDraft (user : User) (body : PaymentBody.t) (now : JSDate.t)
  : FeePayment.t :=
  FeePayment.mk (userTenant user) (PaymentBody.studentId body)
    (PaymentBody.feeAssignmentId body) (PaymentBody.amount body) now
    (PaymentBody.paymentMethod body) (PaymentBody.transactionId body) None
    (userId user) (PaymentBody.remarks body) st_completed.

(** A year written with four digits. *)
Definition fourDigitYear (now : JSDate.t) : Prop :=
  1000 <= JSDate.getFullYear now <= 9999.

(** The payments of a tenant stored so far. *)
Definition paymentsOf (tenantId : N) (m : gmap N FeePayment.t) : nat :=
  countDocuments (fun x => FeePayment.tenant (snd x) = tenantId) m.

(** The stored payments were numbered one after the other: each carries
    the receipt number of a four-digit year and of a count below the
    number of payments of its tenant, and no two payments of a tenant
    carry the same number. *)
Definition sequentialReceipts (m : gmap N FeePayment.t) : Prop :=
  (forall id p, m !! id = Some p ->
     exists y n, 1000 <= y <= 9999
       /\ (n < paymentsOf (FeePayment.tenant p) m)%nat
       /\ FeePayment.receiptNumber p = Some (FeePayment.receipt y n))
  /\ (forall i j p q, m !! i = Some p -> m !! j = Some q ->
        FeePayment.tenant p = FeePayment.tenant q ->
        FeePayment.receiptNumber p = FeePayment.receiptNumber q -> i = j).

(** A string without its leading zeros. *)
Fixpoint dropZeros (s : string) : string :=
  match s with
  | String c s' => if Ascii.eqb c "0" then dropZeros s' else s
  | EmptyString => s
  end.

(* ===================================================================== *)
(** * A school used in the examples *)
(* ===================================================================== *)

Module Scenario.

Definition admin : User := mkUser 9 1.

Definition frequencies : gmap N FeeFrequency.t :=
  list_to_map
    (zip [11; 12; 13; 14; 15]%N (FeeFrequency.getDefaultFrequencies 1)).

(** Tuition of 5000, monthly, due on the 10th, bound to class 5. *)
Definition tuition : FeeStructure.t :=
  FeeStructure.mk 1 "Tuition" None [5%N] 5000 (Some 12%N) "2024-2025" 10
    true.

(** An annual fee: its frequency is the system row 'yearly'. *)
Definition annual : FeeStructure.t :=
  FeeStructure.mk 1 "Annual" None [] 1200 (Some 15%N) "2024-2025" 10 true.

Definition school : Db :=
  mkDb frequencies {[ 100%N := tuition; 101%N := annual ]} ∅ ∅
    {[ 50%N := Student.mk 1 "S" "T" (Some 5%N) true ]}
    {[ 5%N := Class.mk 1 "10" "A" ]}.

(** 5 January 2024, 09:00. *)
Definition jan5 : JSDate.t := JSDate.mk 2024 0 5 32400000.
(** 20 February 2024, 09:00. *)
Definition feb20 : JSDate.t := JSDate.mk 2024 1 20 32400000.
(** 15 June 2024, 09:00. *)
Definition jun15 : JSDate.t := JSDate.mk 2024 5 15 32400000.

(** Tuition assigned to student 50 on 5 January: assignment 0, final
    amount 5000, due 10 February, pending. *)
Definition assigned : Db :=
  fst (assignFeeToStudent admin (AssignFeeBody.mk 50 100 None) jan5 school).

(** The assignment as stored. *)
Definition assignment0 : FeeAssignment.t :=
  FeeAssignment.mk 1 50 100 "2024-2025" 5000 (Discount.mk 0 None) 5000
    (JSDate.mk 2024 1 10 0) PENDING (Some 0) None None None None None.

Definition pay (amount : Z) : PaymentBody.t :=
  PaymentBody.mk 50 0 amount cash None None.

(** An unpaid assignment of 1000, cancelled on 1 February when the class
    of the student was deleted. *)
Definition cancelled0 : FeeAssignment.t :=
  FeeAssignment.mk 1 50 100 "2024-2025" 1000 (Discount.mk 0 None) 1000
    (JSDate.mk 2024 0 10 0) CANCELLED (Some 0) None None
    (Some (JSDate.mk 2024 1 1 0)) (Some 9%N)
    (Some "Class 10 - A was deleted").

(** The school with that one assignment. *)
Definition afterClassDeletion : Db :=
  withAssignments {[ 0%N := cancelled0 ]} school.

(** Two custom frequencies of the tenant, and a fee structure that refers
    to each. *)
Definition biMonthly : FeeFrequency.t :=
  FeeFrequency.mk 1 "Bi-Monthly" "bi-monthly" 2 false 999 true.

Definition hexCoded : FeeFrequency.t :=
  FeeFrequency.mk 1 "Abcdef" "abcdefabcdefabcdefabcdef" 2 false 999 true.

Definition withCustomFrequencies : Db :=
  mkDb (<[ 20%N := biMonthly ]> (<[ 21%N := hexCoded ]> frequencies))
    {[ 100%N := FeeStructure.mk 1 "Bus" None [5%N] 300 (Some 20%N)
                  "2024-2025" 10 true;
       101%N := FeeStructure.mk 1 "Lab" None [5%N] 200 (Some 21%N)
                  "2024-2025" 10 true ]}
    ∅ ∅ ∅ ∅.

(** A second school, tenant 2, whose student 60 holds assignment 1. *)
Definition otherAdmin : User := mkUser 8 2.

Definition twoSchools : Db :=
  withAssignments
    {[ 0%N := assignment0;
       1%N := FeeAssignment.mk 2 60 200 "2024-2025" 800 (Discount.mk 0 None)
                800 (JSDate.mk 2024 1 10 0) PENDING (Some 0) None None
                None None None ]}
    school.

(** The stored assignment 0 of a database. *)
Definition stored (db : Db) : option FeeAssignment.t :=
  feeAssignments db !! 0%N.

End Scenario.

(* ===================================================================== *)
(** * Further operations of the fee files *)
(* ===================================================================== *)

(** The virtual [paymentsPerYear] of a fee frequency. *)
Definition paymentsPerYear (f : FeeFrequency.t) : Z :=
  if FeeFrequency.monthsInterval f =? 0 then 1
  else 12 / FeeFrequency.monthsInterval f.

(** The position of a month on the time line. *)
Definition monthNumber (d : JSDate.t) : Z :=
  12 * JSDate.getFullYear d + JSDate.getMonth d.

(** The sum of the payments recorded for an assignment. *)
Definition paidInto (id : N) (m : gmap N FeePayment.t) : Z :=
  map_fold (fun _ p acc =>
              if decide (FeePayment.feeAssignment p = id)
              then acc + FeePayment.amount p else acc) 0 m.

(** The books agree: the paid amount of every assignment is the sum of
    the payments recorded for it, and every payment belongs to a stored
    assignment. *)
Definition paymentsReconciled (db : Db) : Prop :=
  (forall id a, feeAssignments db !! id = Some a ->
     FeeAssignment.paidNumber a = paidInto id (feePayments db))
  /\ (forall pid p, feePayments db !! pid = Some p ->
        is_Some (feeAssignments db !! FeePayment.feeAssignment p)).

(** ** Fees of one student ([getStudentFees]) *)

Module StudentFees.
Record Summary := mkSummary {
  totalAmount : Z;
  paidAmount : Z;
  pendingAmount : Z;
  overdueAmount : Z
}.
End StudentFees.

(** The filter [{ tenant, student }]. *)
Definition assignmentOfStudent (tenantId studentId : N)
    (x : N * FeeAssignment.t) : Prop :=
  FeeAssignment.tenant (snd x) = tenantId
  /\ FeeAssignment.student (snd x) = studentId.

Global Instance assignmentOfStudent_dec t s x :
  Decision (assignmentOfStudent t s x).
Proof. unfold assignmentOfStudent. apply _. Defined.

(** One turn of the first loop: [updateStatus()], then [save()], which
    runs the pre-save hook on the loaded document and writes it. *)
Definition refreshStatus (now : JSDate.t)
    (acc : Db * list (N * FeeAssignment.t)) (x : N * FeeAssignment.t)
    : Db * list (N * FeeAssignment.t) :=
  let '(db, docs) := acc in
  let '(db', saved) :=
    saveFeeAssignment now (fst x)
      (FeeAssignment.updateStatus now (snd x)) db in
  (db', docs ++ [(fst x, saved)]).

(** The body of the [forEach] that sums the loaded documents. *)
Definition addToSummary (summary : StudentFees.Summary)
    (x : N * FeeAssignment.t) : StudentFees.Summary :=
  let assignment := snd x in
  let pending := FeeAssignment.calculatePendingAmount assignment in
  let isOverdue :=
    bool_decide (FeeAssignment.status assignment = OVERDUE) in
  StudentFees.mkSummary
    (StudentFees.totalAmount summary + FeeAssignment.finalAmount assignment)
    (StudentFees.paidAmount summary + FeeAssignment.paidNumber assignment)
    (if (0 <? pending) && negb isOverdue
     then StudentFees.pendingAmount summary + pending
     else StudentFees.pendingAmount summary)
    (if (0 <? pending) && isOverdue
     then StudentFees.overdueAmount summary + pending
     else StudentFees.overdueAmount summary).

(** [getStudentFees]; [studentId] is the route parameter once cast to an
    [ObjectId]. *)
Definition getStudentFees (user : User) (studentId : N) (now : JSDate.t)
    (db : Db)
    : Db * Response (list (N * FeeAssignment.t) * StudentFees.Summary) :=
  let feeAssignments :=
    find (assignmentOfStudent (userTenant user) studentId)
         (feeAssignments db) in
  let '(db', docs) := fold_left (refreshStatus now) feeAssignments (db, []) in
  (db', Success 200
          (docs,
           fold_left addToSummary docs (StudentFees.mkSummary 0 0 0 0))).

(** The status the two derivations, one after the other, leave: the one
    of the pre-save hook wherever it writes one. *)
Definition storedStatus (now : JSDate.t) (a : FeeAssignment.t)
    : FEE_STATUS :=
  if FeeAssignment.finalAmount a <=? FeeAssignment.paidNumber a then PAID
  else if 0 <? FeeAssignment.paidNumber a then PARTIALLY_PAID
  else if JSDate.ltb (FeeAssignment.dueDate a) now then OVERDUE
  else PENDING.

(** A loaded document once [getStudentFees] has saved it. *)
Definition refreshed (now : JSDate.t) (x : N * FeeAssignment.t)
    : N * FeeAssignment.t :=
  (fst x, FeeAssignment.setStatus (storedStatus now (snd x)) (snd x)).

(** Sum of a quantity over a list of documents. *)
Definition sumOver {A} (f : A -> Z) (l : list A) : Z :=
  foldr (fun x acc => f x + acc) 0 l.

(** ** Class-level summary ([getClassLevelSummary]) *)

Module ClassSummary.

(** An entry of [studentSummaries] (the roll number is copied beside the
    name). *)
Record StudentBucket := mkStudentBucket {
  name : string;
  amounts : Summary.Bucket
}.

Record t := mk {
  className : string;
  totalStudents : nat;
  totalAssignments : nat;
  totalExpected : Z;
  totalCollected : Z;
  totalPending : Z;
  totalOverdue : Z;
  students : list (N * StudentBucket);
  categoryWiseSummary : gmap string Summary.Bucket
}.

(** [studentSummaries[k]] created when missing, then updated; the keys
    keep the order in which they were added. *)
Fixpoint upsert (k : N) (init : StudentBucket)
    (f : StudentBucket -> StudentBucket) (l : list (N * StudentBucket))
    : list (N * StudentBucket) :=
  match l with
  | [] => [(k, f init)]
  | (k', v) :: l' =>
      if decide (k = k') then (k', f v) :: l'
      else (k', v) :: upsert k init f l'
  end.

Definition onAmounts (f : Summary.Bucket -> Summary.Bucket)
    (b : StudentBucket) : StudentBucket :=
  mkStudentBucket (name b) (f (amounts b)).

End ClassSummary.

(** The students of the class: [{ class, tenant, isActive: true }]. *)
Definition classStudents (tenantId classId : N) (db : Db)
    : list (N * Student.t) :=
  find (fun x => Student.class (snd x) = Some classId
                 /\ Student.tenant (snd x) = tenantId
                 /\ Student.isActive (snd x) = true)
       (students db).

(** The base query and [student: { $in: studentIds }]. *)
Definition classQuery (tenantId : N) (academicYear : option string)
    (studentIds : list N) (x : N * FeeAssignment.t) : Prop :=
  summaryQuery tenantId academicYear x
  /\ FeeAssignment.student (snd x) ∈ studentIds.

Global Instance classQuery_dec t y l x : Decision (classQuery t y l x).
Proof. unfold classQuery. apply _. Defined.

(** [validAssignments] of the class, each with its populated student. *)
Definition validClassAssignments (tenantId : N)
    (academicYear : option string) (classId : N) (db : Db)
    : list (Populated * Student.t) :=
  omap (fun a => st ← populatedStudent a; Some (a, st))
    (List.map (populate db)
       (find (classQuery tenantId academicYear
                (List.map fst (classStudents tenantId classId db)))
             (feeAssignments db))).

(** The key [summary.categoryWiseSummary[category]] of a populated fee
    structure. *)
Definition categoryKey (fs : FeeStructure.t) : string :=
  match FeeStructure.category fs with
  | Some c => objectIdToString c
  | None => "undefined"
  end.

(** The body of the loop of [getClassLevelSummary]. *)
Definition classStep (now : JSDate.t) (summary : ClassSummary.t)
    (x : Populated * Student.t) : ClassSummary.t :=
  let assignment := FeeAssignment.updateStatus now (assignment (fst x)) in
  let student := snd x in
  let studentId := FeeAssignment.student assignment in
  let studentName :=
    (Student.firstName student ++ " " ++ Student.lastName student)%string in
  let finalAmount := FeeAssignment.finalAmount assignment in
  let paidAmount := FeeAssignment.paidNumber assignment in
  let pending := finalAmount - paidAmount in
  let status := FeeAssignment.status assignment in
  let route (b : Summary.Bucket) : Summary.Bucket :=
    if bool_decide (status = PENDING \/ status = PARTIALLY_PAID)
    then Summary.addPending pending b
    else if bool_decide (status = OVERDUE)
    then Summary.addOverdue pending b
    else b in
  ClassSummary.mk
    (ClassSummary.className summary)
    (ClassSummary.totalStudents summary)
    (ClassSummary.totalAssignments summary)
    (ClassSummary.totalExpected summary + finalAmount)
    (ClassSummary.totalCollected summary + paidAmount)
    (if bool_decide (status = PENDING \/ status = PARTIALLY_PAID)
     then ClassSummary.totalPending summary + pending
     else ClassSummary.totalPending summary)
    (if bool_decide (status = PENDING \/ status = PARTIALLY_PAID)
     then ClassSummary.totalOverdue summary
     else if bool_decide (status = OVERDUE)
     then ClassSummary.totalOverdue summary + pending
     else ClassSummary.totalOverdue summary)
    (ClassSummary.upsert studentId
       (ClassSummary.mkStudentBucket studentName Summary.emptyBucket)
       (ClassSummary.onAmounts
          (fun b => route (Summary.addAmounts finalAmount paidAmount b)))
       (ClassSummary.students summary))
    (match populatedFeeStructure (fst x) with
     | Some fs =>
         let category := categoryKey fs in
         <[category :=
             route (Summary.addAmounts finalAmount paidAmount
                      (default Summary.emptyBucket
                         (ClassSummary.categoryWiseSummary summary
                            !! category)))]>
           (ClassSummary.categoryWiseSummary summary)
     | None => ClassSummary.categoryWiseSummary summary
     end).

(** [getClassLevelSummary], up to the totals and the two breakdowns (the
    collection rate is computed after them and is left out); [classId] is
    the route parameter once cast to an [ObjectId]. *)
Definition getClassLevelSummary (tenantId : N)
    (academicYear : option string) (classId : N) (now : JSDate.t)
    (db : Db) : ClassSummary.t :=
  let students := classStudents tenantId classId db in
  let valid := validClassAssignments tenantId academicYear classId db in
  let className :=
    match classRooms db !! classId with
    | Some c => Class.displayName c
    | None => "Unknown Class"
    end in
  fold_left (classStep now) valid
    (ClassSummary.mk className (length students) (length valid)
       0 0 0 0 [] ∅).

(** [getClassFeeSummary]. *)
Definition getClassFeeSummary (user : User) (academicYear : option string)
    (classId : N) (now : JSDate.t) (db : Db) : Response ClassSummary.t :=
  Success 200
    (getClassLevelSummary (userTenant user) academicYear classId now db).

(** ** Reading the summaries *)

Definition addBuckets (a b : Summary.Bucket) : Summary.Bucket :=
  Summary.mkBucket
    (Summary.expected a + Summary.expected b)
    (Summary.collected a + Summary.collected b)
    (Summary.pending a + Summary.pending b)
    (Summary.overdue a + Summary.overdue b).

(** The sum of the entries of a breakdown. *)
Definition sumBuckets {K} `{Countable K} (m : gmap K Summary.Bucket)
    : Summary.Bucket :=
  map_fold (fun _ b acc => addBuckets b acc) Summary.emptyBucket m.

(** The four totals of a school-level and of a class-level summary. *)
Definition schoolTotals (s : Summary.t) : Summary.Bucket :=
  Summary.mkBucket (Summary.totalExpected s) (Summary.totalCollected s)
    (Summary.totalPending s) (Summary.totalOverdue s).

Definition classTotals (s : ClassSummary.t) : Summary.Bucket :=
  Summary.mkBucket (ClassSummary.totalExpected s)
    (ClassSummary.totalCollected s) (ClassSummary.totalPending s)
    (ClassSummary.totalOverdue s).

(** ** Fee structures ([deleteFeeStructure], [getFeeStructures]) *)

Definition withStructures (m : gmap N FeeStructure.t) (db : Db) : Db :=
  mkDb (feeFrequencies db) m (feeAssignments db) (feePayments db)
       (students db) (classRooms db).

(** The update [{ isActive: false }]. *)
Definition deactivate (fs : FeeStructure.t) : FeeStructure.t :=
  FeeStructure.mk (FeeStructure.tenant fs) (FeeStructure.name fs)
    (FeeStructure.category fs) (FeeStructure.classes fs)
    (FeeStructure.amount fs) (FeeStructure.frequency fs)
    (FeeStructure.academicYear fs) (FeeStructure.dueDate fs) false.

(** [deleteFeeStructure]; [id] is the route parameter once cast to an
    [ObjectId]. *)
Definition deleteFeeStructure (user : User) (id : N) (db : Db)
    : Db * Response unit :=
  match feeStructures db !! id with
  | Some feeStructure =>
      if decide (FeeStructure.tenant feeStructure = userTenant user) then
        (withStructures (<[id := deactivate feeStructure]> (feeStructures db))
           db,
         Success 200 tt)
      else (db, Failure 404 "Fee structure not found")
  | None => (db, Failure 404 "Fee structure not found")
  end.


(** ** Fee frequencies: the default rows and the list
    ([initializeDefaultFrequencies], [getFeeFrequencies]) *)

(** The pattern [/^[a-z-]+$/] of [code]. *)
Definition codeChar (c : ascii) : bool :=
  let n := N_of_ascii c in
  ((97 <=? n)%N && (n <=? 122)%N) || (n =? 45)%N.

Fixpoint allCodeChars (s : string) : bool :=
  match s with
  | EmptyString => true
  | String c s' => codeChar c && allCodeChars s'
  end.

Definition matchesCodePattern (s : string) : bool :=
  negb (String.eqb s EmptyString) && allCodeChars s.

(** Two frequencies that the unique indexes [{ tenant, code }] and
    [{ tenant, name }] do not admit together. *)
Definition clash (a b : FeeFrequency.t) : Prop :=
  FeeFrequency.tenant a = FeeFrequency.tenant b
  /\ (FeeFrequency.code a = FeeFrequency.code b
      \/ FeeFrequency.name a = FeeFrequency.name b).

Global Instance clash_dec a b : Decision (clash a b).
Proof. unfold clash. apply _. Defined.

Definition frequencyIndexesAllow (m : gmap N FeeFrequency.t)
    (f : FeeFrequency.t) : bool :=
  bool_decide (countDocuments (fun x => clash (snd x) f) m = 0%nat).

(** [FeeFrequency.create(doc)] of a document that carries its code and
    is in its stored form (name and code trimmed, the code in lower case
    and matching the pattern, the interval not negative), as the default
    rows are: the setters, the validators and the pre-save hook leave it
    as it is, and the insert is subject to the unique indexes. *)
Definition createFeeFrequencyDoc (m : gmap N FeeFrequency.t)
    (doc : FeeFrequency.t)
    : option (gmap N FeeFrequency.t * (N * FeeFrequency.t)) :=
  if frequencyIndexesAllow m doc
  then Some (<[newObjectId m := doc]> m, (newObjectId m, doc))
  else None.

(** [FeeFrequency.create(docs, { session })] as a library serves it that
    saves the documents one after the other: the first refused insert
    fails the call.  A library that refuses several documents together
    with a session fails the call whatever the documents are, and the
    request is then answered as in the [None] case; what is stated about
    a 201 below is stated under the condition that the answer is 201. *)
Fixpoint createFeeFrequencies (docs : list FeeFrequency.t)
    (m : gmap N FeeFrequency.t)
    : option (gmap N FeeFrequency.t * list (N * FeeFrequency.t)) :=
  match docs with
  | [] => Some (m, [])
  | doc :: rest =>
      match createFeeFrequencyDoc m doc with
      | None => None
      | Some (m1, created) =>
          match createFeeFrequencies rest m1 with
          | None => None
          | Some (m2, others) => Some (m2, created :: others)
          end
      end
  end.

(** [initializeDefaultFrequencies]: the inserts run in a transaction,
    which is committed when all succeeded and aborted otherwise. *)
Definition initializeDefaultFrequencies (user : User) (db : Db)
    : Db * Response (list (N * FeeFrequency.t)) :=
  let tenantId := userTenant user in
  let existingCount :=
    countDocuments
      (fun x => FeeFrequency.tenant (snd x) = tenantId
                /\ FeeFrequency.isSystem (snd x) = true)
      (feeFrequencies db) in
  if (0 <? existingCount)%nat then
    (db, Failure 400 "Default frequencies already initialized")
  else
    match createFeeFrequencies (FeeFrequency.getDefaultFrequencies tenantId)
            (feeFrequencies db) with
    | Some (m, created) => (withFrequencies m db, Success 201 created)
    | None => (db, Failure 400 "Error initializing frequencies")
    end.

(** The filter of [getFeeFrequencies]: [active] and [type] are the query
    parameters, [None] when absent. *)
Definition frequencyQuery (tenantId : N) (active type : option string)
    (x : N * FeeFrequency.t) : Prop :=
  FeeFrequency.tenant (snd x) = tenantId
  /\ match active with
     | Some a => FeeFrequency.isActive (snd x) = String.eqb a "true"
     | None => True
     end
  /\ match type with
     | Some t =>
         if String.eqb t "system" then FeeFrequency.isSystem (snd x) = true
         else if String.eqb t "custom"
         then FeeFrequency.isSystem (snd x) = false
         else True
     | None => True
     end.

Global Instance frequencyQuery_dec t a ty x :
  Decision (frequencyQuery t a ty x).
Proof.
  unfold frequencyQuery. destruct a, ty; repeat destruct (String.eqb _ _);
    apply _.
Defined.

(** [.sort({ displayOrder: 1, name: 1 })]: by display order, then by
    name. *)
Definition frequencyLeb (a b : N * FeeFrequency.t) : bool :=
  (FeeFrequency.displayOrder (snd a) <? FeeFrequency.displayOrder (snd b))
  || ((FeeFrequency.displayOrder (snd a)
       =? FeeFrequency.displayOrder (snd b))
      && String.leb (FeeFrequency.name (snd a)) (FeeFrequency.name (snd b))).

Fixpoint insertSorted (x : N * FeeFrequency.t)
    (l : list (N * FeeFrequency.t)) : list (N * FeeFrequency.t) :=
  match l with
  | [] => [x]
  | y :: l' => if frequencyLeb x y then x :: l else y :: insertSorted x l'
  end.

Definition sortFrequencies (l : list (N * FeeFrequency.t))
    : list (N * FeeFrequency.t) :=
  foldr insertSorted [] l.

(** The usage count of one frequency:
    [FeeStructure.countDocuments({ tenant, frequency: frequency.code })],
    whose filter is cast to the schema of [FeeStructure] as in
    [canDelete]; [None] when the cast throws. *)
Definition usageCount (castObjectId : string -> option N) (tenantId : N)
    (db : Db) (frequency : N * FeeFrequency.t)
    : option (N * FeeFrequency.t * nat) :=
  match castObjectId (FeeFrequency.code (snd frequency)) with
  | None => None
  | Some oid =>
      Some (frequency,
            countDocuments
              (fun x => FeeStructure.tenant (snd x) = tenantId
                        /\ FeeStructure.frequency (snd x) = Some oid)
              (feeStructures db))
  end.

(** [getFeeFrequencies]: one rejected count rejects [Promise.all]. *)
Definition getFeeFrequencies (castObjectId : string -> option N)
    (user : User) (active type : option string) (db : Db)
    : Response (list (N * FeeFrequency.t * nat)) :=
  let frequencies :=
    sortFrequencies
      (find (frequencyQuery (userTenant user) active type)
            (feeFrequencies db)) in
  match mapM (usageCount castObjectId (userTenant user) db) frequencies with
  | Some frequenciesWithUsage => Success 200 frequenciesWithUsage
  | None => Failure 400 "Error fetching frequencies"
  end.

(** The frequency requests served one after the other. *)
Inductive FrequencyOp :=
| OpInitializeDefaults (user : User)
| OpDeleteFrequency (castObjectId : string -> option N) (user : User)
    (id : N).

Definition frequencyStep (db : Db) (op : FrequencyOp) : Db :=
  match op with
  | OpInitializeDefaults user => fst (initializeDefaultFrequencies user db)
  | OpDeleteFrequency castObjectId user id =>
      fst (deleteFeeFrequency castObjectId user id db)
  end.

(** Documents that the unique indexes admit together. *)
Fixpoint noClashWithin (docs : list FeeFrequency.t) : Prop :=
  match docs with
  | [] => True
  | doc :: rest => Forall (fun d => ~ clash doc d) rest /\ noClashWithin rest
  end.

(** ** The list of payments ([getPayments]) *)

Module Payments.
Record t := mk {
  count : nat;
  totalAmount : Z;
  data : list (N * FeePayment.t)
}.
End Payments.

(** The filter of [getPayments]: [studentId], [startDate] and [endDate]
    are the query parameters once cast and parsed, [None] when absent. *)
Definition paymentQuery (tenantId : N) (studentId : option N)
    (startDate endDate : option JSDate.t) (x : N * FeePayment.t) : Prop :=
  FeePayment.tenant (snd x) = tenantId
  /\ match studentId with
     | Some s => FeePayment.student (snd x) = s
     | None => True
     end
  /\ match startDate with
     | Some d => JSDate.ltb (FeePayment.paymentDate (snd x)) d = false
     | None => True
     end
  /\ match endDate with
     | Some d => JSDate.ltb d (FeePayment.paymentDate (snd x)) = false
     | None => True
     end.

Global Instance paymentQuery_dec t s a b x :
  Decision (paymentQuery t s a b x).
Proof. unfold paymentQuery. destruct s, a, b; apply _. Defined.

(** [.sort('-paymentDate')]: the latest payment first. *)
Fixpoint insertByDate (x : N * FeePayment.t) (l : list (N * FeePayment.t))
    : list (N * FeePayment.t) :=
  match l with
  | [] => [x]
  | y :: l' =>
      if JSDate.ltb (FeePayment.paymentDate (snd x))
                    (FeePayment.paymentDate (snd y))
      then y :: insertByDate x l'
      else x :: l
  end.

Definition sortByDateDesc (l : list (N * FeePayment.t))
    : list (N * FeePayment.t) :=
  foldr insertByDate [] l.

Definition getPayments (user : User) (studentId : option N)
    (startDate endDate : option JSDate.t) (db : Db) : Response Payments.t :=
  let payments :=
    sortByDateDesc
      (find (paymentQuery (userTenant user) studentId startDate endDate)
            (feePayments db)) in
  let totalAmount :=
    fold_left (fun sum payment => sum + FeePayment.amount (snd payment))
      payments 0 in
  Success 200 (Payments.mk (length payments) totalAmount payments).

(** The payments and the assignments of every student carry the same
    paid total. *)
Definition studentBooksAgree (db : Db) : Prop :=
  forall tenantId studentId,
    sumOver (fun x => FeePayment.amount (snd x))
      (find (fun x => FeePayment.tenant (snd x) = tenantId
                      /\ FeePayment.student (snd x) = studentId)
            (feePayments db))
    = sumOver (fun x => FeeAssignment.paidNumber (snd x))
        (find (assignmentOfStudent tenantId studentId) (feeAssignments db)).

(** ** Student-level summary ([getStudentLevelSummary]) *)

Module StudentSummary.

(** A row of [feeDetails]; [category] and [frequency] are the ids kept
    by the fee structure, [None] standing for the fallbacks 'other' and
    'one-time'; [overdueAmount] is set on overdue rows only. *)
Record FeeDetail := mkFeeDetail {
  assignmentId : N;
  feeName : string;
  category : option N;
  frequency : option N;
  totalAmount : Z;
  discount : Z;
  paidAmount : Z;
  pendingAmount : Z;
  dueDate : JSDate.t;
  status : FEE_STATUS;
  overdueAmount : option Z
}.

Record t := mk {
  studentName : string;
  className : string;
  totalExpected : Z;
  totalCollected : Z;
  totalPending : Z;
  totalOverdue : Z;
  feeDetails : list FeeDetail
}.

(** The three answers: the two messages, or the summary. *)
Inductive Answer :=
| NoAssignments            (* 'No fee assignments found for this student' *)
| StudentNotFound          (* 'Student not found' *)
| Summary (summary : t).

End StudentSummary.

(** The base query and [student: studentId]. *)
Definition studentQuery (tenantId : N) (academicYear : option string)
    (studentId : N) (x : N * FeeAssignment.t) : Prop :=
  summaryQuery tenantId academicYear x
  /\ FeeAssignment.student (snd x) = studentId.

Global Instance studentQuery_dec t y s x : Decision (studentQuery t y s x).
Proof. unfold studentQuery. apply _. Defined.

(** The body of the loop of [getStudentLevelSummary]. *)
Definition studentStep (now : JSDate.t) (summary : StudentSummary.t)
    (a : Populated) : StudentSummary.t :=
  let assignment := FeeAssignment.updateStatus now (assignment a) in
  let paid := FeeAssignment.paidNumber assignment in
  let pending := Z.max (FeeAssignment.finalAmount assignment - paid) 0 in
  let status := FeeAssignment.status assignment in
  let isPending :=
    bool_decide (status = PENDING \/ status = PARTIALLY_PAID) in
  let isOverdue := bool_decide (status = OVERDUE) in
  let feeDetail :=
    StudentSummary.mkFeeDetail
      (assignmentId a)
      (match populatedFeeStructure a with
       | Some fs =>
           if String.eqb (FeeStructure.name fs) EmptyString
           then "Unknown Fee" else FeeStructure.name fs
       | None => "Unknown Fee"
       end)
      (fs ← populatedFeeStructure a; FeeStructure.category fs)
      (fs ← populatedFeeStructure a; FeeStructure.frequency fs)
      (FeeAssignment.finalAmount assignment)
      (Discount.amount (FeeAssignment.discount assignment))
      paid pending
      (FeeAssignment.dueDate assignment)
      status
      (if isPending then None else if isOverdue then Some pending else None)
  in
  StudentSummary.mk
    (StudentSummary.studentName summary)
    (StudentSummary.className summary)
    (StudentSummary.totalExpected summary
     + FeeAssignment.finalAmount assignment)
    (StudentSummary.totalCollected summary + paid)
    (if isPending then StudentSummary.totalPending summary + pending
     else StudentSummary.totalPending summary)
    (if isPending then StudentSummary.totalOverdue summary
     else if isOverdue then StudentSummary.totalOverdue summary + pending
     else StudentSummary.totalOverdue summary)
    (StudentSummary.feeDetails summary ++ [feeDetail]).

(** [getStudentLevelSummary], up to the totals and the rows (the roll
    number, the payment history and the percentage are left out);
    [studentId] is the route parameter once cast to an [ObjectId]. *)
Definition getStudentLevelSummary (tenantId : N)
    (academicYear : option string) (studentId : N) (now : JSDate.t)
    (db : Db) : StudentSummary.Answer :=
  let assignments :=
    List.map (populate db)
      (find (studentQuery tenantId academicYear studentId)
            (feeAssignments db)) in
  match assignments with
  | [] => StudentSummary.NoAssignments
  | first :: _ =>
      match populatedStudent first with
      | None => StudentSummary.StudentNotFound
      | Some student =>
          let className :=
            match Student.class student with
            | Some c =>
                match classRooms db !! c with
                | Some classInfo => Class.displayName classInfo
                | None => "Unknown Class"
                end
            | None => "Unknown Class"
            end in
          StudentSummary.Summary
            (fold_left (studentStep now) assignments
               (StudentSummary.mk
                  (Student.firstName student ++ " "
                     ++ Student.lastName student)%string
                  className 0 0 0 0 []))
      end
  end.

(** [getStudentFeeSummary]. *)
Definition getStudentFeeSummary (user : User) (academicYear : option string)
    (studentId : N) (now : JSDate.t) (db : Db)
    : Response StudentSummary.Answer :=
  Success 200
    (getStudentLevelSummary (userTenant user) academicYear studentId now db).

(** ** Amounts as doubles *)

Module Double.

(** The arithmetic of [recordFeePayment] (lines 232-262) on the numbers
    as the code holds them: the remaining amount, the guard and the
    increment of the paid amount; [None] when the request is refused. *)
Definition recordPayment (finalAmount paidAmount amount : float)
    : option float :=
  let remainingAmount := PrimFloat.sub finalAmount paidAmount in
  if PrimFloat.ltb remainingAmount amount then None
  else Some (PrimFloat.add paidAmount amount).

(** The accumulation [sum += amount] of the loops and of the [reduce] of
    the reports, from 0. *)
Definition total (amounts : list float) : float :=
  fold_left PrimFloat.add amounts 0%float.

End Double.

(** [Number.MAX_SAFE_INTEGER]. *)
Definition MAX_SAFE_INTEGER : Z := 2 ^ 53 - 1.

(** The sum of the absolute values of the amounts the database holds: of
    every assignment its total, discount, final and paid amount, and the
    amount of every payment. *)
Definition ledger (db : Db) : Z :=
  map_fold (fun _ a acc =>
              acc + (Z.abs (FeeAssignment.totalAmount a)
                     + Z.abs (Discount.amount (FeeAssignment.discount a))
                     + Z.abs (FeeAssignment.finalAmount a)
                     + Z.abs (FeeAssignment.paidNumber a)))
           0 (feeAssignments db)
  + map_fold (fun _ p acc => acc + Z.abs (FeePayment.amount p))
             0 (feePayments db).

(** The amounts of the database are whole numbers that can be added in
    any order and grouping without rounding: no sum of them, of their
    differences or of part of them leaves the range in which doubles are
    exact. *)
Definition safeLedger (db : Db) : Prop := ledger db <= MAX_SAFE_INTEGER.

(** The amount a request carries is a whole number in that range. *)
Definition safeRequest (op : Op) : Prop :=
  match op with
  | OpRecordPayment _ body _ =>
      Z.abs (PaymentBody.amount body) <= MAX_SAFE_INTEGER
  | OpAssignFee _ body _ =>
      match AssignFeeBody.discount body with
      | Some discount => Z.abs (Discount.amount discount) <= MAX_SAFE_INTEGER
      | None => True
      end
  | OpAutoAssign _ _ _ _ => True
  end.

(** A run on whole amounts: every request of it is safe, and so is the
    database before the run, between any two of its requests and after
    it. *)
Fixpoint safeRun (ops : list Op) (db : Db) : Prop :=
  safeLedger db
  /\ match ops with
     | [] => True
     | op :: ops' => safeRequest op /\ safeRun ops' (step db op)
     end.

(* ===================================================================== *)
(** * The receipt number of section 4.3, as the specification words it *)
(* ===================================================================== *)

Module ReceiptFormat.

(** The character of a decimal digit. *)
Definition digit (d : N) : ascii := ascii_of_N (48 + d).

(** The last [width] decimal digits of [n], leading zeros included. *)
Fixpoint fixedWidth (width : nat) (n : N) : string :=
  match width with
  | O => EmptyString
  | S w => (fixedWidth w (n / 10) ++ String (digit (n mod 10)) EmptyString)%string
  end.

(** The number of decimal digits of [n], none for 0; [fuel] is a bound on
    it. *)
Fixpoint countDigits (fuel : nat) (n : N) : nat :=
  match fuel with
  | O => O
  | S f => if (n =? 0)%N then O else S (countDigits f (n / 10))
  end.

Definition numDigits (n : N) : nat := countDigits (N.size_nat n) n.

(** [zeroPad(n, width)]: the decimal digits of [n], with zeros in front
    up to [width] digits. *)
Definition zeroPad (n : N) (width : nat) : string :=
  fixedWidth (Nat.max width (numDigits n)) n.

(** A year in decimal digits. *)
Definition year (y : Z) : string :=
  match y with
  | Zneg p => ("-" ++ zeroPad (Npos p) 1)%string
  | _ => zeroPad (Z.to_N y) 1
  end.

(** ["RCP" + currentYear + zeroPad(priorPaymentCountForTenant + 1, 6)]. *)
Definition receiptNumber (currentYear : Z) (priorPaymentCount : nat) : string :=
  ("RCP" ++ year currentYear
         ++ zeroPad (N.of_nat priorPaymentCount + 1) 6)%string.

End ReceiptFormat.

(** No two stored payments carry the same receipt number. *)
Definition distinctReceipts (m : gmap N FeePayment.t) : Prop :=
  forall i j p q, m !! i = Some p -> m !! j = Some q ->
    FeePayment.receiptNumber p = FeePayment.receiptNumber q -> i = j.

(* ===================================================================== *)
(** * Properties *)
(* ===================================================================== *)

Section DueDateFacts.
Import JSDate.

Lemma carryDays_in_range fuel y m d :
  1 <= d <= daysInMonth y m -> carryDays (S fuel) y m d = (y, m, d).
Proof.
  intros [Hlo Hhi]. simpl.
  destruct (Z.ltb_spec d 1); [lia|].
  destruct (Z.ltb_spec (daysInMonth y m) d); [lia|]. reflexivity.
Qed.

(** A day that exists in the month the month index normalises to is
    not carried. *)
Lemma make_exists y m d :
  100 <= y ->
  1 <= d <= daysInMonth (y + m / 12) (m mod 12) ->
  make y m d = mk (y + m / 12) (m mod 12) d 0.
Proof.
  intros Hy Hd. unfold make.
  replace ((0 <=? y) && (y <=? 99))%bool with false
    by (symmetry; apply andb_false_iff; right; apply Z.leb_gt; lia).
  rewrite carryDays_in_range by assumption. reflexivity.
Qed.

Lemma make_anchor y m d :
  100 <= y -> 0 <= m <= 11 -> 1 <= d <= daysInMonth y m ->
  make y m d = mk y m d 0.
Proof.
  intros Hy Hm Hd.
  rewrite make_exists; rewrite ?(Z.div_small m 12), ?(Z.mod_small m 12),
    ?Z.add_0_r by lia; auto.
Qed.

Lemma daysInMonth_bounds y m : 28 <= daysInMonth y m <= 31.
Proof.
  unfold daysInMonth.
  repeat match goal with
  | |- context [if ?b then _ else _] => destruct b
  end; lia.
Qed.

(** The carry reaches a day of the month before the fuel runs out. *)
Lemma carryDays_reaches fuel : forall y m d,
  0 <= m <= 11 ->
  (d < 1 -> - d < Z.of_nat fuel) ->
  (daysInMonth y m < d -> d - 28 < Z.of_nat fuel) ->
  0 <= snd (fst (carryDays fuel y m d)) <= 11
  /\ 1 <= snd (carryDays fuel y m d)
       <= daysInMonth (fst (fst (carryDays fuel y m d)))
            (snd (fst (carryDays fuel y m d))).
Proof.
  induction fuel as [|fuel IH]; intros y m d Hm Hlow Hhigh.
  - cbn [carryDays fst snd]. pose proof (daysInMonth_bounds y m).
    cbn in Hlow, Hhigh. lia.
  - cbn [carryDays].
    destruct (Z.ltb_spec d 1) as [Hd|Hd].
    + unfold prevMonth. destruct (Z.eqb_spec m 0) as [->|Hm0].
      * pose proof (daysInMonth_bounds (y - 1) 11). apply IH; lia.
      * pose proof (daysInMonth_bounds y (m - 1)). apply IH; lia.
    + destruct (Z.ltb_spec (daysInMonth y m) d) as [Hd'|Hd'].
      * pose proof (daysInMonth_bounds y m).
        unfold nextMonth. destruct (Z.eqb_spec m 11) as [->|Hm11].
        -- pose proof (daysInMonth_bounds (y + 1) 0). apply IH; lia.
        -- pose proof (daysInMonth_bounds y (m + 1)). apply IH; lia.
      * cbn [fst snd]. lia.
Qed.

(** [new Date(year, monthIndex, day)] is a day that exists, whatever the
    month index and the day number are. *)
Lemma make_is_a_date year monthIndex day :
  0 <= getMonth (make year monthIndex day) <= 11
  /\ 1 <= getDate (make year monthIndex day)
       <= daysInMonth (getFullYear (make year monthIndex day))
            (getMonth (make year monthIndex day))
  /\ msOfDay (make year monthIndex day) = 0.
Proof.
  unfold make.
  set (yr := if (0 <=? year) && (year <=? 99) then 1900 + year else year).
  pose proof (carryDays_reaches (S (Z.to_nat (Z.abs day)))
                (yr + monthIndex / 12) (monthIndex mod 12) day) as Hcarry.
  destruct (carryDays _ _ _ _) as [[y m] d]. cbn [fst snd] in *.
  cbn [getMonth getDate getFullYear msOfDay].
  assert (Hmod : 0 <= monthIndex mod 12 <= 11)
    by (pose proof (Z.mod_pos_bound monthIndex 12); lia).
  pose proof (daysInMonth_bounds (yr + monthIndex / 12) (monthIndex mod 12))
    as Hdim.
  destruct Hcarry as [Hmonth Hday]; [exact Hmod | lia | lia |].
  repeat split; tauto.
Qed.

Lemma dayExists_bounds d ym :
  ((1 <=? d) && (d <=? daysInMonth (fst ym) (snd ym)))%bool = true ->
  1 <= d <= daysInMonth (fst ym) (snd ym).
Proof. rewrite andb_true_iff, !Z.leb_le. tauto. Qed.

(** The shape shared by the five known codes: an anchor month of the
    current year, tested against the clock, and a roll of [k] months. *)
Lemma anchored_case y a k d now :
  100 <= y -> 0 <= a <= 11 ->
  1 <= d <= daysInMonth y a ->
  1 <= d <= daysInMonth (y + (a + k) / 12) ((a + k) mod 12) ->
  (if ltb (make y a d) now then make y (a + k) d else make y a d)
  = (if ltb (DueDateTable.onDay (y, a) d) now
     then DueDateTable.onDay (DueDateTable.monthsLater k (y, a)) d
     else DueDateTable.onDay (y, a) d).
Proof.
  intros Hy Ha Hd Hd'.
  rewrite (make_anchor y a d), (make_exists y (a + k) d) by assumption.
  reflexivity.
Qed.

End DueDateFacts.

(** Where the code follows the table.  For a reading [now] of the clock
    and a day of month that exists in the months the table of section 4.1
    can answer with (every day from 1 to 28 does), [calculateDueDate]
    returns the date of the table: that day in the current month for 'one-time' and 'monthly',
    in the first month of the quarter for 'quarterly', in January or July
    for 'half-yearly', in April for 'yearly', moved on by 1, 1, 3, 6 and
    12 months when its midnight is before [now]; and that day of the next
    month for any other code.  The function is total: no code raises an
    error. *)
Theorem calculateDueDate_follows_table code dayOfMonth now :
  JSDate.wf now ->
  DueDateTable.dayExists code dayOfMonth now = true ->
  calculateDueDate (JsString code) dayOfMonth now
  = DueDateTable.computeDueDate code dayOfMonth now.
Proof.
  intros (Hy & Hm & _ & _) Hex.
  unfold DueDateTable.dayExists, DueDateTable.targets in Hex.
  unfold calculateDueDate, DueDateTable.computeDueDate, caseLabel.
  unfold DueDateTable.rule in *.
  set (y := JSDate.getFullYear now) in *.
  set (m := JSDate.getMonth now) in *.
  repeat match goal with
  | |- context [String.eqb code ?l] => destruct (String.eqb code l)
  end;
  cbn [forallb] in Hex; rewrite ?andb_true_r in Hex;
  try (apply andb_true_iff in Hex as [H1 H2]);
  try apply dayExists_bounds in H1; try apply dayExists_bounds in H2;
  try apply dayExists_bounds in Hex;
  cbn [fst snd DueDateTable.monthsLater] in *.
  - apply anchored_case; auto; lia.
  - apply anchored_case; auto; lia.
  - rewrite (Z.mul_comm (m / 3) 3).
    assert (0 <= m / 3 <= 3).
    { split; [apply Z.div_pos; lia|].
      apply Z.lt_succ_r, Z.div_lt_upper_bound; lia. }
    apply anchored_case; auto; lia.
  - apply anchored_case; auto; try lia. destruct (m <? 6); lia.
  - replace ((3 + 12) / 12) with 1 in H2 by reflexivity.
    replace ((3 + 12) mod 12) with 3 in H2 by reflexivity.
    rewrite (make_anchor y 3 dayOfMonth) by (auto; lia).
    rewrite (make_anchor (y + 1) 3 dayOfMonth) by (auto; lia).
    reflexivity.
  - rewrite make_exists by (auto; lia). reflexivity.
Qed.

(** The two values of the specification's rollover example. *)
Example calculateDueDate_day_passed :
  calculateDueDate (JsString "monthly") 10 (JSDate.mk 2024 0 15 0)
  = JSDate.mk 2024 1 10 0.
Proof. reflexivity. Qed.

Example calculateDueDate_day_ahead :
  calculateDueDate (JsString "monthly") 10 (JSDate.mk 2024 0 5 0)
  = JSDate.mk 2024 0 10 0.
Proof. reflexivity. Qed.

(** The theorem at 'quarterly', day 10, on 15 December 2024 at 09:30: the
    anchor 10 October is past, the answer is 10 January 2025. *)
Lemma calculateDueDate_follows_table_witness :
  JSDate.wf (JSDate.mk 2024 11 15 34200000)
  /\ DueDateTable.dayExists "quarterly" 10 (JSDate.mk 2024 11 15 34200000)
     = true
  /\ calculateDueDate (JsString "quarterly") 10
       (JSDate.mk 2024 11 15 34200000)
     = DueDateTable.computeDueDate "quarterly" 10
         (JSDate.mk 2024 11 15 34200000).
Proof.
  assert (Hwf : JSDate.wf (JSDate.mk 2024 11 15 34200000)).
  { repeat split; vm_compute; congruence. }
  assert (Hex : DueDateTable.dayExists "quarterly" 10
                  (JSDate.mk 2024 11 15 34200000) = true) by reflexivity.
  exact (conj Hwf (conj Hex
           (calculateDueDate_follows_table "quarterly" 10
              (JSDate.mk 2024 11 15 34200000) Hwf Hex))).
Defined.

(** C7, on the code.  A day of month the target month does not have is
    carried into the month after it by [new Date(year, month, day)], and
    [calculateDueDate] returns that date.  'monthly' with day 31 on
    15 February 2024 is due on 2 March 2024, where the table asks for
    day 31 of the reference month.  On 31 January 2024 at noon, day 31
    being past, it is due on 2 March 2024 too: a day 2, in a month that
    is neither the reference month nor the next, so that February has no
    due date, against the comment of the 'monthly' case ('due date is
    the specified day of current/next month'). *)
Theorem calculateDueDate_day31_overflows :
  calculateDueDate (JsString "monthly") 31 (JSDate.mk 2024 1 15 43200000)
  = JSDate.mk 2024 2 2 0
  /\ DueDateTable.computeDueDate "monthly" 31 (JSDate.mk 2024 1 15 43200000)
     = JSDate.mk 2024 1 31 0
  /\ calculateDueDate (JsString "monthly") 31 (JSDate.mk 2024 1 15 43200000)
     <> DueDateTable.computeDueDate "monthly" 31
          (JSDate.mk 2024 1 15 43200000)
  /\ calculateDueDate (JsString "monthly") 31 (JSDate.mk 2024 0 31 43200000)
     = JSDate.mk 2024 2 2 0
  /\ DueDateTable.computeDueDate "monthly" 31 (JSDate.mk 2024 0 31 43200000)
     = JSDate.mk 2024 1 31 0.
Proof.
  repeat split; try reflexivity. vm_compute. discriminate.
Qed.

(* --------------------------------------------------------------------- *)
(** ** Status derivation *)
(* --------------------------------------------------------------------- *)

Lemma status_setStatus s a :
  FeeAssignment.status (FeeAssignment.setStatus s a) = s.
Proof. reflexivity. Qed.

(** C3.  For an assignment that is not cancelled, the status left in
    memory by [updateStatus] is the one the table of section 4.2 gives
    for its paid amount (0 when the stored value is not a number), final
    amount and due date on the day of the call. *)
Theorem updateStatus_follows_table (a : FeeAssignment.t) (today : JSDate.t)
    (s : FEE_STATUS) :
  FeeAssignment.status a <> CANCELLED ->
  StatusTable.derive (default 0 (FeeAssignment.paidAmount a))
    (FeeAssignment.finalAmount a) (FeeAssignment.dueDate a) today = Some s ->
  FeeAssignment.status (FeeAssignment.updateStatus today a) = s.
Proof.
  intros _. unfold StatusTable.derive, StatusTable.geb,
    FeeAssignment.updateStatus.
  destruct (FeeAssignment.paidAmount a) as [paid|]; cbn [default id];
    destruct (JSDate.ltb (FeeAssignment.dueDate a) today);
    repeat match goal with
    | |- context [Z.leb ?x ?y] => destruct (Z.leb_spec x y)
    | |- context [Z.ltb ?x ?y] => destruct (Z.ltb_spec x y)
    | |- context [Z.eqb ?x ?y] => destruct (Z.eqb_spec x y)
    end; cbn; rewrite ?status_setStatus; unfold id in *;
    try congruence; try lia.
Qed.

(** The table has a row for every paid amount that is not negative. *)
Lemma status_table_covers paid final due today :
  0 <= paid -> is_Some (StatusTable.derive paid final due today).
Proof.
  intros Hpaid. unfold StatusTable.derive, StatusTable.geb.
  destruct (JSDate.ltb due today);
    repeat match goal with
    | |- context [Z.leb ?x ?y] => destruct (Z.leb_spec x y)
    | |- context [Z.ltb ?x ?y] => destruct (Z.ltb_spec x y)
    | |- context [Z.eqb ?x ?y] => destruct (Z.eqb_spec x y)
    end; cbn; eauto; lia.
Qed.

(** The theorem on a part-paid assignment whose due date is past. *)
Lemma updateStatus_follows_table_witness :
  FeeAssignment.status
    (FeeAssignment.updateStatus (JSDate.mk 2024 2 5 0)
       (FeeAssignment.mk 1 50 100 "2024-2025" 5000 (Discount.mk 0 None) 5000
          (JSDate.mk 2024 1 10 0) PENDING (Some 2000) None None
          None None None))
  = OVERDUE.
Proof.
  apply updateStatus_follows_table.
  - simpl. discriminate.
  - reflexivity.
Defined.

(* --------------------------------------------------------------------- *)
(** ** Queries on a collection *)
(* --------------------------------------------------------------------- *)

Section CollectionFacts.
Context {A : Type} (P : N * A -> Prop) `{!forall x, Decision (P x)}.
Implicit Types (m : gmap N A) (i : N) (x : A).

Lemma newObjectId_fresh m : m !! newObjectId m = None.
Proof. apply not_elem_of_dom, is_fresh. Qed.

Lemma findOne_None m :
  findOne P m = None <-> forall i x, m !! i = Some x -> ~ P (i, x).
Proof.
  unfold findOne, find. rewrite head_None, map_to_list_empty_iff.
  rewrite map_empty_filter. unfold map_Forall. reflexivity.
Qed.

Lemma findOne_Some m p :
  findOne P m = Some p -> m !! fst p = Some (snd p) /\ P p.
Proof.
  unfold findOne, find. intros Hhead.
  apply head_Some_elem_of in Hhead. destruct p as [i x].
  apply elem_of_map_to_list, map_lookup_filter_Some in Hhead. exact Hhead.
Qed.

Lemma findOne_found m i x :
  m !! i = Some x -> P (i, x) -> is_Some (findOne P m).
Proof.
  intros Hi HP. destruct (findOne P m) eqn:E; [eauto|].
  exfalso. eapply findOne_None; eauto.
Qed.

Lemma countDocuments_zero m :
  countDocuments P m = 0%nat <-> forall i x, m !! i = Some x -> ~ P (i, x).
Proof.
  unfold countDocuments. rewrite map_size_empty_iff, map_empty_filter.
  unfold map_Forall. reflexivity.
Qed.

Lemma countDocuments_insert_match m i x :
  m !! i = None -> P (i, x) ->
  countDocuments P (<[i := x]> m) = S (countDocuments P m).
Proof.
  intros Hi HP. unfold countDocuments.
  rewrite map_filter_insert_True by assumption.
  apply map_size_insert_None, map_lookup_filter_None. auto.
Qed.

Lemma countDocuments_insert_other m i x :
  m !! i = None -> ~ P (i, x) ->
  countDocuments P (<[i := x]> m) = countDocuments P m.
Proof.
  intros Hi HP. unfold countDocuments.
  rewrite map_filter_insert_not' by (auto; intros y Hy; congruence).
  reflexivity.
Qed.

End CollectionFacts.

(* --------------------------------------------------------------------- *)
(** ** Recording a payment *)
(* --------------------------------------------------------------------- *)

(** The hooks change the status only (and the final amount of a new
    document). *)
Ltac status_only :=
  intros; unfold FeeAssignment.preSave, FeeAssignment.updateStatus;
  repeat match goal with
  | |- context [if ?b then _ else _] => destruct b
  | |- context [match ?o with Some _ => _ | None => _ end] => destruct o
  end; reflexivity.

Lemma preSave_paidAmount now a :
  FeeAssignment.paidAmount (FeeAssignment.preSave false now a)
  = FeeAssignment.paidAmount a.
Proof. status_only. Qed.

Lemma preSave_finalAmount now a :
  FeeAssignment.finalAmount (FeeAssignment.preSave false now a)
  = FeeAssignment.finalAmount a.
Proof. status_only. Qed.

Lemma preSave_paidDate now a :
  FeeAssignment.paidDate (FeeAssignment.preSave false now a)
  = FeeAssignment.paidDate a.
Proof. status_only. Qed.

Lemma preSave_paymentId now a :
  FeeAssignment.paymentId (FeeAssignment.preSave false now a)
  = FeeAssignment.paymentId a.
Proof. status_only. Qed.

Lemma updateStatus_paidAmount now a :
  FeeAssignment.paidAmount (FeeAssignment.updateStatus now a)
  = FeeAssignment.paidAmount a.
Proof. status_only. Qed.

Lemma updateStatus_finalAmount now a :
  FeeAssignment.finalAmount (FeeAssignment.updateStatus now a)
  = FeeAssignment.finalAmount a.
Proof. status_only. Qed.

Lemma updateStatus_paidDate now a :
  FeeAssignment.paidDate (FeeAssignment.updateStatus now a)
  = FeeAssignment.paidDate a.
Proof. status_only. Qed.

Lemma updateStatus_paymentId now a :
  FeeAssignment.paymentId (FeeAssignment.updateStatus now a)
  = FeeAssignment.paymentId a.
Proof. status_only. Qed.

Lemma preSave_draft user body now db :
  FeePayment.preSave true now (feePayments db) (paymentDraft user body now)
  = FeePayment.setReceiptNumber (nextReceipt (userTenant user) now db)
      (paymentDraft user body now).
Proof. reflexivity. Qed.

Lemma uniqueIndexesAllow_unused user body now db :
  receiptUnused (userTenant user) now db ->
  FeePayment.uniqueIndexesAllow (feePayments db)
    (FeePayment.preSave true now (feePayments db)
       (paymentDraft user body now)) = true.
Proof.
  intros Hun. rewrite preSave_draft. unfold FeePayment.uniqueIndexesAllow.
  apply andb_true_iff; split; apply Nat.eqb_eq, countDocuments_zero;
    intros i p Hp; cbn; specialize (Hun i p Hp); tauto.
Qed.

Lemma createFeePayment_unused user body now db :
  receiptUnused (userTenant user) now db ->
  createFeePayment now (paymentDraft user body now) db
  = Some (withPayments
            (<[newObjectId (feePayments db) :=
                 FeePayment.setReceiptNumber
                   (nextReceipt (userTenant user) now db)
                   (paymentDraft user body now)]> (feePayments db)) db,
          (newObjectId (feePayments db),
           FeePayment.setReceiptNumber (nextReceipt (userTenant user) now db)
             (paymentDraft user body now))).
Proof.
  intros Hun. unfold createFeePayment.
  rewrite uniqueIndexesAllow_unused by assumption.
  rewrite preSave_draft. reflexivity.
Qed.

Lemma findAssignmentOf_lookup user body db a :
  findAssignmentOf user body db = Some a ->
  feeAssignments db !! PaymentBody.feeAssignmentId body = Some a.
Proof.
  unfold findAssignmentOf.
  destruct (feeAssignments db !! _) as [a0|]; [|discriminate].
  destruct (decide _); congruence.
Qed.

(** The guard of [recordFeePayment] on whole amounts.  For an assignment
    found for the request, with [remaining = finalAmount - paidAmount] at
    the time of the call: an amount above [remaining] is answered with the
    validation failure and the database is left as it was (no payment,
    the assignment untouched); an amount of at most [remaining], whose
    receipt number the indexes accept, is recorded as a new payment, and
    the assignment is saved with [paidAmount] raised by the amount, the
    date and the payment id.  The comparison of [paidAmount] with
    [finalAmount] is the one of whole numbers. *)
Theorem recordFeePayment_amount_guard user body now db a :
  findAssignmentOf user body db = Some a ->
  let remaining := FeeAssignment.finalAmount a - FeeAssignment.paidNumber a in
  let amount := PaymentBody.amount body in
  (remaining < amount ->
     recordFeePayment user body now db
     = (db, Failure 400 (exceedsRemaining remaining)))
  /\ (amount <= remaining -> receiptUnused (userTenant user) now db ->
      exists pid p a',
        snd (recordFeePayment user body now db) = Success 201 (pid, p)
        /\ feePayments db !! pid = None
        /\ feePayments (fst (recordFeePayment user body now db))
           = <[pid := p]> (feePayments db)
        /\ FeePayment.amount p = amount
        /\ FeePayment.feeAssignment p = PaymentBody.feeAssignmentId body
        /\ feeAssignments (fst (recordFeePayment user body now db))
           = <[PaymentBody.feeAssignmentId body := a']> (feeAssignments db)
        /\ FeeAssignment.paidAmount a'
           = Some (FeeAssignment.paidNumber a + amount)
        /\ FeeAssignment.paidDate a' = Some now
        /\ FeeAssignment.paymentId a' = Some pid
        /\ FeeAssignment.finalAmount a' = FeeAssignment.finalAmount a
        /\ FeeAssignment.paidNumber a' <= FeeAssignment.finalAmount a')
  /\ (forall a',
        feeAssignments (fst (recordFeePayment user body now db))
          !! PaymentBody.feeAssignmentId body = Some a' ->
        FeeAssignment.paidNumber a <= FeeAssignment.finalAmount a ->
        FeeAssignment.paidNumber a' <= FeeAssignment.finalAmount a').
Proof.
  intros Hfind remaining amount.
  assert (Hrec : recordFeePayment user body now db
    = if remaining <? amount
      then (db, Failure 400 (exceedsRemaining remaining))
      else match createFeePayment now (paymentDraft user body now) db with
           | None => (db, Failure 400 "Error recording payment")
           | Some (db1, payment) =>
               (fst (saveFeeAssignment now (PaymentBody.feeAssignmentId body)
                       (FeeAssignment.updateStatus now
                          (FeeAssignment.setPayment
                             (FeeAssignment.paidNumber a + amount) now
                             (fst payment) a)) db1),
                Success 201 payment)
           end).
  { unfold recordFeePayment. rewrite Hfind. reflexivity. }
  assert (Hbound : forall pid,
    FeeAssignment.paidNumber
      (FeeAssignment.preSave false now
         (FeeAssignment.updateStatus now
            (FeeAssignment.setPayment (FeeAssignment.paidNumber a + amount)
               now pid a)))
    = FeeAssignment.paidNumber a + amount
    /\ FeeAssignment.finalAmount
         (FeeAssignment.preSave false now
            (FeeAssignment.updateStatus now
               (FeeAssignment.setPayment (FeeAssignment.paidNumber a + amount)
                  now pid a)))
       = FeeAssignment.finalAmount a).
  { intros pid. unfold FeeAssignment.paidNumber at 1.
    rewrite preSave_paidAmount, updateStatus_paidAmount.
    rewrite preSave_finalAmount, updateStatus_finalAmount.
    split; reflexivity. }
  rewrite Hrec. clear Hrec. split; [|split].
  - intros Hgt.
    destruct (Z.ltb_spec remaining amount); [reflexivity | lia].
  - intros Hle Hun.
    destruct (Z.ltb_spec remaining amount); [lia|].
    rewrite createFeePayment_unused by assumption.
    cbn [saveFeeAssignment fst snd feePayments withPayments
         withAssignments feeAssignments].
    destruct (Hbound (newObjectId (feePayments db))) as [Hp Hf].
    eexists _, _, _. repeat split.
    + apply newObjectId_fresh.
    + rewrite preSave_paidAmount, updateStatus_paidAmount. reflexivity.
    + rewrite preSave_paidDate, updateStatus_paidDate. reflexivity.
    + rewrite preSave_paymentId, updateStatus_paymentId. reflexivity.
    + exact Hf.
    + rewrite Hp, Hf. unfold remaining, amount in *. lia.
  - intros a' Ha' Hbefore.
    apply findAssignmentOf_lookup in Hfind.
    destruct (Z.ltb_spec remaining amount) as [|Hle];
      [cbn [fst] in Ha'; congruence|].
    unfold createFeePayment in Ha'.
    destruct (FeePayment.uniqueIndexesAllow _ _);
      [|cbn [fst] in Ha'; congruence].
    cbn [saveFeeAssignment fst snd feePayments withPayments
         withAssignments feeAssignments] in Ha'.
    rewrite lookup_insert_eq in Ha'. injection Ha' as <-.
    destruct (Hbound (newObjectId (feePayments db))) as [Hp Hf].
    rewrite Hp, Hf. unfold remaining, amount in *. lia.
Qed.

(** The theorem on the assignment of the example school, 5000 remaining:
    a payment of 6000 is refused and nothing changes; a payment of 2000 is
    recorded and the paid amount becomes 2000. *)
Lemma recordFeePayment_amount_guard_witness :
  recordFeePayment Scenario.admin (Scenario.pay 6000) Scenario.jan5
    Scenario.assigned
  = (Scenario.assigned, Failure 400 (exceedsRemaining 5000))
  /\ exists pid p a',
       snd (recordFeePayment Scenario.admin (Scenario.pay 2000) Scenario.jan5
              Scenario.assigned) = Success 201 (pid, p)
       /\ feeAssignments
            (fst (recordFeePayment Scenario.admin (Scenario.pay 2000)
                    Scenario.jan5 Scenario.assigned))
          = <[0%N := a']> (feeAssignments Scenario.assigned)
       /\ FeeAssignment.paidAmount a' = Some 2000.
Proof.
  assert (Hfind : forall x,
    findAssignmentOf Scenario.admin (Scenario.pay x) Scenario.assigned
    = Some Scenario.assignment0) by (intros x; vm_compute; reflexivity).
  destruct (recordFeePayment_amount_guard Scenario.admin (Scenario.pay 6000)
              Scenario.jan5 Scenario.assigned Scenario.assignment0
              (Hfind 6000)) as (Hreject & _ & _).
  destruct (recordFeePayment_amount_guard Scenario.admin (Scenario.pay 2000)
              Scenario.jan5 Scenario.assigned Scenario.assignment0
              (Hfind 2000)) as (_ & Haccept & _).
  split.
  - apply Hreject. vm_compute. reflexivity.
  - destruct Haccept as (pid & p & a' & Hresp & _ & _ & _ & _ & Hdb & Hpaid & _).
    + vm_compute. congruence.
    + intros id p Hp. vm_compute in Hp. discriminate.
    + exists pid, p, a'. auto.
Defined.

(** The pre-save hook of an assignment knows no overdue part payment:
    whatever [updateStatus] derived, a part-paid assignment is stored as
    partially paid. *)
Lemma preSave_after_updateStatus_partial now a :
  0 < FeeAssignment.paidNumber a < FeeAssignment.finalAmount a ->
  FeeAssignment.status
    (FeeAssignment.preSave false now (FeeAssignment.updateStatus now a))
  = PARTIALLY_PAID.
Proof.
  intros [Hpos Hlt]. unfold FeeAssignment.preSave.
  unfold FeeAssignment.paidNumber in *.
  rewrite !updateStatus_finalAmount, !updateStatus_paidAmount.
  destruct (Z.leb_spec (FeeAssignment.finalAmount a)
              (default 0 (FeeAssignment.paidAmount a))); [lia|].
  destruct (Z.ltb_spec 0 (default 0 (FeeAssignment.paidAmount a))); [|lia].
  reflexivity.
Qed.

(** C2, on the code.  The assignment of 5000 is due on 10 February 2024.
    A payment of 2000 on 20 February leaves [paidAmount = 2000]; the call
    of [updateStatus] derives overdue, but the pre-save hook of [save]
    stores partially paid.  The payment of 3000 that follows leaves
    [paidAmount = 5000], status paid and nothing pending. *)
Theorem late_part_payment_is_stored_partially_paid :
  let db1 := fst (recordFeePayment Scenario.admin (Scenario.pay 2000)
                    Scenario.feb20 Scenario.assigned) in
  let db2 := fst (recordFeePayment Scenario.admin (Scenario.pay 3000)
                    Scenario.feb20 db1) in
  JSDate.ltb (FeeAssignment.dueDate Scenario.assignment0) Scenario.feb20
  = true
  /\ FeeAssignment.status
       (FeeAssignment.updateStatus Scenario.feb20
          (FeeAssignment.setPayment 2000 Scenario.feb20 0
             Scenario.assignment0)) = OVERDUE
  /\ FeeAssignment.paidAmount <$> Scenario.stored db1 = Some (Some 2000)
  /\ FeeAssignment.status <$> Scenario.stored db1 = Some PARTIALLY_PAID
  /\ FeeAssignment.paidAmount <$> Scenario.stored db2 = Some (Some 5000)
  /\ FeeAssignment.status <$> Scenario.stored db2 = Some PAID
  /\ FeeAssignment.calculatePendingAmount <$> Scenario.stored db2 = Some 0.
Proof. vm_compute. repeat split. Qed.

(** The part of C2 the code keeps: paid before the due date has passed,
    the same payment is stored as partially paid. *)
Example early_part_payment_is_stored_partially_paid :
  FeeAssignment.status <$>
    Scenario.stored
      (fst (recordFeePayment Scenario.admin (Scenario.pay 2000)
              Scenario.jan5 Scenario.assigned))
  = Some PARTIALLY_PAID.
Proof. vm_compute. reflexivity. Qed.

(* --------------------------------------------------------------------- *)
(** ** The due date of a new assignment *)
(* --------------------------------------------------------------------- *)

(** An [ObjectId] selects no case of the [switch]: the due date is the
    day of the next month, whatever frequency the id refers to. *)
Lemma calculateDueDate_ObjectId id dueDateDay now :
  calculateDueDate (JsObjectId id) dueDateDay now
  = JSDate.make (JSDate.getFullYear now) (JSDate.getMonth now + 1) dueDateDay.
Proof. reflexivity. Qed.

(** C6, on the code.  The structure 'Annual' of the example school refers
    to the system row 'yearly'.  Assigned on 15 June 2024 with due day 10,
    the table of section 4.1 asks for 10 April 2025; the assignment is
    created with 10 July 2024. *)
Theorem yearly_structure_is_due_next_month :
  FeeFrequency.code <$>
    (FeeStructure.frequency Scenario.annual
       ≫= fun id => feeFrequencies Scenario.school !! id) = Some "yearly"
  /\ DueDateTable.computeDueDate "yearly" 10 Scenario.jun15
     = JSDate.mk 2025 3 10 0
  /\ exists id a,
       snd (assignFeeToStudent Scenario.admin (AssignFeeBody.mk 50 101 None)
              Scenario.jun15 Scenario.school) = Success 201 (id, a)
       /\ FeeAssignment.dueDate a = JSDate.mk 2024 6 10 0.
Proof.
  split; [vm_compute; reflexivity|]. split; [vm_compute; reflexivity|].
  eexists _, _. split; vm_compute; reflexivity.
Qed.

(* --------------------------------------------------------------------- *)
(** ** Assignment of fees *)
(* --------------------------------------------------------------------- *)

Lemma sameAssignment_preSave t s f y isNew now i a :
  sameAssignment t s f y (i, FeeAssignment.preSave isNew now a)
  <-> sameAssignment t s f y (i, a).
Proof.
  unfold sameAssignment, FeeAssignment.preSave. cbn [snd].
  repeat match goal with
  | |- context [if ?b then _ else _] => destruct b
  end; reflexivity.
Qed.

Lemma sameAssignment_updateStatus t s f y now i a :
  sameAssignment t s f y (i, FeeAssignment.updateStatus now a)
  <-> sameAssignment t s f y (i, a).
Proof.
  unfold sameAssignment, FeeAssignment.updateStatus. cbn [snd].
  repeat match goal with
  | |- context [if ?b then _ else _] => destruct b
  end; reflexivity.
Qed.

Lemma sameAssignment_other_id t s f y i j a :
  sameAssignment t s f y (i, a) <-> sameAssignment t s f y (j, a).
Proof. reflexivity. Qed.

(** A document of the same tuple can replace a stored one. *)
Lemma uniqueAssignments_update m id a a' :
  uniqueAssignments m -> m !! id = Some a ->
  (forall t s f y, sameAssignment t s f y (id, a')
                   <-> sameAssignment t s f y (id, a)) ->
  uniqueAssignments (<[id := a']> m).
Proof.
  intros Hu Hid Hsame i j x z Hi Hj Hk.
  destruct (decide (i = id)) as [->|Hni], (decide (j = id)) as [->|Hnj];
    rewrite ?lookup_insert_eq in Hi; rewrite ?lookup_insert_eq in Hj;
    rewrite ?lookup_insert_ne in Hi by congruence;
    rewrite ?lookup_insert_ne in Hj by congruence;
    simplify_eq; auto.
  - apply (Hu id j a z Hid Hj).
    pose proof (proj1 (Hsame _ _ _ _)
                  (conj eq_refl (conj eq_refl (conj eq_refl eq_refl))))
      as (Ht & Hs & Hf & Hy).
    cbn [snd] in *. unfold sameAssignment in *. cbn [snd] in *.
    intuition congruence.
  - apply (Hu i id x a Hi Hid).
    apply (sameAssignment_other_id _ _ _ _ id id), Hsame. exact Hk.
  - eapply Hu; eauto.
Qed.

(** A document of a tuple that is not stored yet can be inserted. *)
Lemma uniqueAssignments_insert m id a :
  uniqueAssignments m -> m !! id = None ->
  findOne (sameAssignment (FeeAssignment.tenant a) (FeeAssignment.student a)
             (FeeAssignment.feeStructure a) (FeeAssignment.academicYear a))
    m = None ->
  uniqueAssignments (<[id := a]> m).
Proof.
  intros Hu Hid Hnone i j x z Hi Hj Hk.
  pose proof (proj1 (findOne_None _ m) Hnone) as Hno.
  destruct (decide (i = id)) as [->|Hni], (decide (j = id)) as [->|Hnj];
    rewrite ?lookup_insert_eq in Hi; rewrite ?lookup_insert_eq in Hj;
    rewrite ?lookup_insert_ne in Hi by congruence;
    rewrite ?lookup_insert_ne in Hj by congruence;
    simplify_eq; auto.
  - exfalso. exact (Hno j z Hj Hk).
  - exfalso. apply (Hno i x Hi).
    unfold sameAssignment in *. cbn [snd] in *. intuition congruence.
  - eapply Hu; eauto.
Qed.

Lemma createFeeAssignment_unique now doc db :
  uniqueAssignments (feeAssignments db) ->
  findOne (sameAssignment (FeeAssignment.tenant doc)
             (FeeAssignment.student doc) (FeeAssignment.feeStructure doc)
             (FeeAssignment.academicYear doc)) (feeAssignments db) = None ->
  uniqueAssignments (feeAssignments (fst (createFeeAssignment now doc db))).
Proof.
  intros Hu Hnone. cbn.
  apply uniqueAssignments_insert; auto using newObjectId_fresh.
  apply findOne_None. intros i x Hi Hk.
  apply (proj1 (findOne_None _ _) Hnone i x Hi).
  revert Hk. unfold sameAssignment, FeeAssignment.preSave. cbn [snd].
  repeat match goal with
  | |- context [if ?b then _ else _] => destruct b
  end; auto.
Qed.

Lemma assignFeeToStudent_unique user body now db :
  uniqueAssignments (feeAssignments db) ->
  uniqueAssignments (feeAssignments (fst (assignFeeToStudent user body now db))).
Proof.
  intros Hu. unfold assignFeeToStudent.
  destruct (feeStructures db !! _) as [fs|]; [|exact Hu].
  destruct (decide _); [|exact Hu].
  destruct (findOne _ _) eqn:Hfind; [exact Hu|].
  match goal with
  | |- context [createFeeAssignment ?n ?d ?b] =>
      pose proof (createFeeAssignment_unique n d b Hu Hfind) as Hc;
      destruct (createFeeAssignment n d b) as [db' created]
  end.
  exact Hc.
Qed.

Lemma autoAssignOne_unique s t now acc fs :
  uniqueAssignments (feeAssignments (fst acc)) ->
  uniqueAssignments (feeAssignments (fst (autoAssignOne s t now acc fs))).
Proof.
  intros Hu. unfold autoAssignOne. destruct acc as [db l], fs as [fsId fs].
  cbn [fst] in Hu.
  destruct (findOne _ _) eqn:Hfind; [exact Hu|].
  match goal with
  | |- context [createFeeAssignment ?n ?d ?b] =>
      pose proof (createFeeAssignment_unique n d b Hu Hfind) as Hc;
      destruct (createFeeAssignment n d b) as [db' created]
  end.
  exact Hc.
Qed.

Lemma autoAssignClassFees_unique s c t now db :
  uniqueAssignments (feeAssignments db) ->
  uniqueAssignments
    (feeAssignments (fst (autoAssignClassFees s c t now db))).
Proof.
  unfold autoAssignClassFees.
  generalize (classFeeStructures t c db).
  generalize (@nil (N * FeeAssignment.t)). intros acc l. revert db acc.
  induction l as [|fs l IH]; intros db acc Hu; [exact Hu|].
  cbn [fold_left].
  pose proof (autoAssignOne_unique s t now (db, acc) fs Hu) as Hstep.
  destruct (autoAssignOne s t now (db, acc) fs) as [db' acc'].
  apply IH. exact Hstep.
Qed.

Lemma recordFeePayment_unique user body now db :
  uniqueAssignments (feeAssignments db) ->
  uniqueAssignments (feeAssignments (fst (recordFeePayment user body now db))).
Proof.
  intros Hu. unfold recordFeePayment.
  destruct (findAssignmentOf user body db) as [a|] eqn:Hfind; [|exact Hu].
  destruct (_ <? _); [exact Hu|].
  unfold createFeePayment.
  destruct (FeePayment.uniqueIndexesAllow _ _); [|exact Hu].
  cbn. unfold findAssignmentOf in Hfind.
  destruct (feeAssignments db !! PaymentBody.feeAssignmentId body)
    as [a0|] eqn:Hid; [|discriminate].
  destruct (decide _); [|discriminate]. simplify_eq.
  eapply uniqueAssignments_update; eauto.
  intros t s f y.
  rewrite sameAssignment_preSave, sameAssignment_updateStatus. reflexivity.
Qed.

Lemma run_unique ops db :
  uniqueAssignments (feeAssignments db) ->
  uniqueAssignments (feeAssignments (run ops db)).
Proof.
  unfold run. revert db. induction ops as [|op ops IH]; intros db Hu;
    [exact Hu|].
  cbn [fold_left]. apply IH. destruct op; cbn [step].
  - apply assignFeeToStudent_unique, Hu.
  - apply autoAssignClassFees_unique, Hu.
  - apply recordFeePayment_unique, Hu.
Qed.

(** A map whose entries all sit under one key has at most one entry. *)
Lemma size_le_1 {A} (m : gmap N A) :
  (forall i j x y, m !! i = Some x -> m !! j = Some y -> i = j) ->
  (size m <= 1)%nat.
Proof.
  induction m as [|i x m Hi _] using map_ind; intros Hone.
  - rewrite map_size_empty. lia.
  - rewrite map_size_insert_None by assumption.
    destruct (decide (m = ∅)) as [->|Hne].
    + rewrite map_size_empty. lia.
    + apply map_choose in Hne as (j & y & Hj). exfalso.
      assert (i = j).
      { apply (Hone i j x y); [apply lookup_insert_eq|].
        rewrite lookup_insert_ne; [exact Hj|]. intros ->. congruence. }
      congruence.
Qed.

Lemma activeAssignments_le_1 t s f y db :
  uniqueAssignments (feeAssignments db) ->
  (activeAssignments t s f y db <= 1)%nat.
Proof.
  intros Hu. unfold activeAssignments, countDocuments.
  apply size_le_1. intros i j a b Hi Hj.
  apply map_lookup_filter_Some in Hi as [Hi [Hka _]].
  apply map_lookup_filter_Some in Hj as [Hj [Hkb _]].
  apply (Hu i j a b Hi Hj).
  unfold sameAssignment in *. cbn [snd] in *. intuition congruence.
Qed.

(** C4.  When an assignment of the (tenant, student, fee structure,
    academic year of the structure) exists, [assignFeeToStudent] answers
    that the fee is already assigned and leaves the database as it was.
    Hence, from a collection that holds no tuple twice, any sequence of
    [assignFeeToStudent], [autoAssignClassFees] and [recordFeePayment]
    requests served one after the other leaves at most one assignment
    that is not cancelled per tuple. *)
Theorem assignment_unique_per_tuple :
  (forall user body now db fs id a,
     feeStructures db !! AssignFeeBody.feeStructureId body = Some fs ->
     FeeStructure.tenant fs = userTenant user ->
     feeAssignments db !! id = Some a ->
     sameAssignment (userTenant user) (AssignFeeBody.studentId body)
       (AssignFeeBody.feeStructureId body) (FeeStructure.academicYear fs)
       (id, a) ->
     assignFeeToStudent user body now db
     = (db, Failure 400 "Fee already assigned to this student"))
  /\ (forall ops db,
        uniqueAssignments (feeAssignments db) ->
        forall t s f y, (activeAssignments t s f y (run ops db) <= 1)%nat).
Proof.
  split.
  - intros user body now db fs id a Hfs Ht Ha Hsame.
    unfold assignFeeToStudent. rewrite Hfs.
    destruct (decide _); [|contradiction].
    destruct (findOne_found _ _ id a Ha Hsame) as [found ->]. reflexivity.
  - intros ops db Hu t s f y.
    apply activeAssignments_le_1, run_unique, Hu.
Qed.

(** The theorem on the example school: the tuition is assigned to student
    50 already, a second request is refused; and after an assignment, an
    auto-assignment and one more assignment of the same fee the student
    holds at most one assignment of it. *)
Lemma assignment_unique_per_tuple_witness :
  assignFeeToStudent Scenario.admin (AssignFeeBody.mk 50 100 None)
    Scenario.feb20 Scenario.assigned
  = (Scenario.assigned, Failure 400 "Fee already assigned to this student")
  /\ (activeAssignments 1 50 100 "2024-2025"
        (run [OpAssignFee Scenario.admin (AssignFeeBody.mk 50 100 None)
                Scenario.jan5;
              OpAutoAssign 50 5 1 Scenario.feb20;
              OpAssignFee Scenario.admin (AssignFeeBody.mk 50 100 None)
                Scenario.jun15]
           Scenario.school) <= 1)%nat.
Proof.
  destruct assignment_unique_per_tuple as [Hconflict Hone]. split.
  - apply (Hconflict Scenario.admin (AssignFeeBody.mk 50 100 None)
             Scenario.feb20 Scenario.assigned Scenario.tuition 0%N
             Scenario.assignment0).
    + vm_compute. reflexivity.
    + reflexivity.
    + vm_compute. reflexivity.
    + repeat split.
  - apply Hone. intros i j a b Hi. vm_compute in Hi. discriminate.
Defined.

(* --------------------------------------------------------------------- *)
(** ** Auto-assignment runs once *)
(* --------------------------------------------------------------------- *)

Section AutoAssign.
Variables (studentId tenantId : N).
Local Abbreviation covered := (covered tenantId studentId).

Lemma covered_keeps db db' fs : keeps db db' -> covered db fs -> covered db' fs.
Proof. intros Hk (i & a & Hi & Hs). exists i, a. auto. Qed.

Lemma covered_findOne db fs :
  covered db fs <->
  is_Some (findOne (sameAssignment tenantId studentId (fst fs)
                      (FeeStructure.academicYear (snd fs)))
             (feeAssignments db)).
Proof.
  split.
  - intros (i & a & Hi & Hs). eapply findOne_found; eauto.
  - intros [[i a] Hf]. apply findOne_Some in Hf as [Hi Hs].
    exists i, a. auto.
Qed.

Lemma autoAssignOne_covers now db acc fs :
  keeps db (fst (autoAssignOne studentId tenantId now (db, acc) fs))
  /\ covered (fst (autoAssignOne studentId tenantId now (db, acc) fs)) fs
  /\ feeStructures
       (fst (autoAssignOne studentId tenantId now (db, acc) fs))
     = feeStructures db.
Proof.
  unfold autoAssignOne. destruct fs as [fsId fs].
  destruct (findOne _ _) as [found|] eqn:Hfind.
  - cbn [fst]. repeat split; [intros i a; auto|].
    apply covered_findOne. cbn [fst snd]. rewrite Hfind. eauto.
  - cbn [createFeeAssignment fst]. repeat split.
    + intros i a Hi. cbn.
      rewrite lookup_insert_ne; [exact Hi|].
      intros <-. rewrite newObjectId_fresh in Hi. discriminate.
    + eexists _, _. split; [apply lookup_insert_eq|].
      apply sameAssignment_preSave. repeat split.
Qed.

Lemma autoAssign_fold_covers now l db acc :
  let r := fold_left (autoAssignOne studentId tenantId now) l (db, acc) in
  keeps db (fst r)
  /\ (forall fs, In fs l -> covered (fst r) fs)
  /\ feeStructures (fst r) = feeStructures db.
Proof.
  revert db acc. induction l as [|fs l IH]; intros db acc; cbn [fold_left].
  - repeat split; [intros i a; auto | intros fs []].
  - destruct (autoAssignOne_covers now db acc fs) as (Hk & Hc & Hs).
    destruct (autoAssignOne studentId tenantId now (db, acc) fs)
      as [db1 acc1]. cbn [fst] in *.
    destruct (IH db1 acc1) as (Hk' & Hc' & Hs'). repeat split.
    + intros i a Hi. auto.
    + intros fs' [<-|Hin]; [|auto].
      eapply covered_keeps; eauto.
    + congruence.
Qed.

Lemma autoAssign_fold_nothing now l db acc :
  (forall fs, In fs l -> covered db fs) ->
  fold_left (autoAssignOne studentId tenantId now) l (db, acc) = (db, acc).
Proof.
  induction l as [|fs l IH]; intros Hall; cbn [fold_left]; [reflexivity|].
  assert (Hstep : autoAssignOne studentId tenantId now (db, acc) fs
                  = (db, acc)).
  { unfold autoAssignOne. destruct fs as [fsId fs].
    destruct (proj1 (covered_findOne db (fsId, fs))
                (Hall _ (or_introl eq_refl))) as [found Hf].
    cbn [fst snd] in Hf. rewrite Hf. reflexivity. }
  rewrite Hstep. apply IH. intros fs' Hin. apply Hall. right. exact Hin.
Qed.

End AutoAssign.

(** C5.  Run again for the same student, class and tenant, over the same
    fee structures, [autoAssignClassFees] creates no assignment and leaves
    the database of the first run as it is. *)
Theorem autoAssignClassFees_idempotent studentId classId tenantId now now' db :
  autoAssignClassFees studentId classId tenantId now'
    (fst (autoAssignClassFees studentId classId tenantId now db))
  = (fst (autoAssignClassFees studentId classId tenantId now db), []).
Proof.
  unfold autoAssignClassFees.
  destruct (autoAssign_fold_covers studentId tenantId now
              (classFeeStructures tenantId classId db) db [])
    as (_ & Hcov & Hsame).
  set (db1 := fst (fold_left (autoAssignOne studentId tenantId now)
                     (classFeeStructures tenantId classId db) (db, []))) in *.
  assert (Hl : classFeeStructures tenantId classId db1
               = classFeeStructures tenantId classId db).
  { unfold classFeeStructures. rewrite Hsame. reflexivity. }
  rewrite Hl. apply autoAssign_fold_nothing. exact Hcov.
Qed.

(** The first run on the example school assigns the tuition of class 5 to
    student 50. *)
Example autoAssignClassFees_first_run :
  List.map fst (snd (autoAssignClassFees 50 5 1 Scenario.jan5 Scenario.school))
  = [0%N].
Proof. vm_compute. reflexivity. Qed.

(* --------------------------------------------------------------------- *)
(** ** Receipt numbers *)
(* --------------------------------------------------------------------- *)

Lemma append_inj_length (a a' b b' : string) :
  String.length a = String.length a' ->
  (a ++ b)%string = (a' ++ b')%string -> a = a' /\ b = b'.
Proof.
  revert a'. induction a as [|c a IH]; intros [|c' a'] Hlen Heq;
    try discriminate.
  - auto.
  - cbn in Heq. injection Heq as -> Heq. injection Hlen as Hlen.
    destruct (IH a' Hlen Heq) as [-> ->]. auto.
Qed.

(** The decimal form of a positive number does not start with a zero. *)
Lemma pretty_N_go_head (x : N) : forall s,
  (0 < x)%N ->
  exists c rest, pretty_N_go x s = String c rest /\ c <> "0"%char.
Proof.
  induction (N.lt_wf_0 x) as [x _ IH]. intros s Hx.
  rewrite pretty_N_go_step by assumption.
  destruct (decide (x / 10 = 0)%N) as [Hz|Hnz].
  - rewrite Hz, pretty_N_go_0. eexists _, _. split; [reflexivity|].
    assert (x < 10)%N.
    { destruct (N.lt_ge_cases x 10) as [|Hge]; [assumption|].
      assert (1 <= x / 10)%N by (apply N.div_le_lower_bound; lia). lia. }
    rewrite N.mod_small by assumption.
    assert (x = 1 \/ x = 2 \/ x = 3 \/ x = 4 \/ x = 5 \/ x = 6
            \/ x = 7 \/ x = 8 \/ x = 9)%N as Hc by lia.
    intuition subst; discriminate.
  - apply IH; [apply N.div_lt; lia | apply N.neq_0_lt_0; exact Hnz].
Qed.

Lemma toString_head (n : Z) :
  0 < n -> exists c rest, toString n = String c rest /\ c <> "0"%char.
Proof.
  intros Hn. destruct n as [|p|p]; try lia.
  unfold toString, pretty, pretty_Z, pretty, pretty_positive, pretty, pretty_N.
  destruct (decide (N.pos p = 0%N)); [discriminate|].
  apply pretty_N_go_head. lia.
Qed.

Lemma dropZeros_pad k c rest :
  c <> "0"%char ->
  dropZeros (repeatChar k "0" ++ String c rest) = String c rest.
Proof.
  intros Hc. induction k as [|k IH].
  - change (dropZeros (String c rest) = String c rest). cbn [dropZeros].
    destruct (Ascii.eqb_spec c "0"); [contradiction|reflexivity].
  - change (dropZeros (String "0" (repeatChar k "0" ++ String c rest))
            = String c rest).
    exact IH.
Qed.

(** Padding with zeros keeps positive numbers apart. *)
Lemma padStart_inj (a b : Z) (k : nat) :
  0 < a -> 0 < b ->
  padStart (toString a) k "0" = padStart (toString b) k "0" -> a = b.
Proof.
  intros Ha Hb Heq.
  destruct (toString_head a Ha) as (ca & ra & Ea & Hca).
  destruct (toString_head b Hb) as (cb & rb & Eb & Hcb).
  unfold padStart in Heq. rewrite Ea, Eb in Heq.
  apply (f_equal dropZeros) in Heq.
  rewrite !dropZeros_pad in Heq by assumption.
  apply (inj pretty). unfold toString in *. congruence.
Qed.

Lemma toString_year_length (y : Z) :
  1000 <= y <= 9999 -> String.length (toString y) = 4%nat.
Proof.
  intros Hy. destruct y as [|p|p]; try lia.
  unfold toString, pretty, pretty_Z, pretty, pretty_positive, pretty, pretty_N.
  destruct (decide (N.pos p = 0%N)); [discriminate|].
  set (x := N.pos p). assert (Hx : (1000 <= x <= 9999)%N) by (unfold x; lia).
  clearbody x.
  assert (H1 : (100 <= x / 10 <= 999)%N).
  { split; [apply N.div_le_lower_bound; lia|].
    apply N.lt_succ_r, N.Div0.div_lt_upper_bound; lia. }
  assert (H2 : (10 <= x / 10 / 10 <= 99)%N).
  { split; [apply N.div_le_lower_bound; lia|].
    apply N.lt_succ_r, N.Div0.div_lt_upper_bound; lia. }
  assert (H3 : (1 <= x / 10 / 10 / 10 <= 9)%N).
  { split; [apply N.div_le_lower_bound; lia|].
    apply N.lt_succ_r, N.Div0.div_lt_upper_bound; lia. }
  assert (H4 : (x / 10 / 10 / 10 / 10 = 0)%N).
  { apply N.div_small. lia. }
  rewrite 4!pretty_N_go_step by lia.
  rewrite H4, pretty_N_go_0. reflexivity.
Qed.

(** Within four-digit years the receipt number determines the count. *)
Lemma receipt_inj y1 y2 n1 n2 :
  1000 <= y1 <= 9999 -> 1000 <= y2 <= 9999 ->
  FeePayment.receipt y1 n1 = FeePayment.receipt y2 n2 -> n1 = n2.
Proof.
  intros H1 H2 Heq. unfold FeePayment.receipt in Heq.
  apply append_inj_length in Heq as [_ Heq]; [|reflexivity].
  apply append_inj_length in Heq as [_ Heq];
    [|rewrite !toString_year_length by assumption; reflexivity].
  apply padStart_inj in Heq; lia.
Qed.

Lemma paymentsOf_insert_same m id p :
  m !! id = None ->
  paymentsOf (FeePayment.tenant p) (<[id := p]> m)
  = S (paymentsOf (FeePayment.tenant p) m).
Proof.
  intros Hid. unfold paymentsOf.
  apply (countDocuments_insert_match _ m id p Hid). reflexivity.
Qed.

Lemma paymentsOf_insert_le t m id p :
  m !! id = None -> (paymentsOf t m <= paymentsOf t (<[id := p]> m))%nat.
Proof.
  intros Hid. unfold paymentsOf.
  destruct (decide (FeePayment.tenant p = t)) as [Ht|Ht].
  - rewrite (countDocuments_insert_match _ m id p Hid) by exact Ht. lia.
  - rewrite (countDocuments_insert_other _ m id p Hid) by exact Ht. lia.
Qed.

(** The number the hook generates is carried by no payment of the tenant. *)
Lemma sequentialReceipts_next_unused m y id p :
  sequentialReceipts m -> 1000 <= y <= 9999 -> m !! id = Some p ->
  FeePayment.receiptNumber p
  <> Some (FeePayment.receipt y (paymentsOf (FeePayment.tenant p) m)).
Proof.
  intros [Hseq _] Hy Hp Heq.
  destruct (Hseq id p Hp) as (y' & n & Hy' & Hn & Hr).
  assert (Hrec : FeePayment.receipt y' n
                 = FeePayment.receipt y (paymentsOf (FeePayment.tenant p) m))
    by congruence.
  apply receipt_inj in Hrec; [lia | assumption | assumption].
Qed.

Lemma sequentialReceipts_insert m id p y :
  sequentialReceipts m -> m !! id = None -> 1000 <= y <= 9999 ->
  FeePayment.receiptNumber p
  = Some (FeePayment.receipt y (paymentsOf (FeePayment.tenant p) m)) ->
  sequentialReceipts (<[id := p]> m).
Proof.
  intros Hinv Hid Hy Hr. pose proof Hinv as [Hseq Hdis]. split.
  - intros i q Hq. destruct (decide (i = id)) as [->|Hne].
    + rewrite lookup_insert_eq in Hq. injection Hq as <-.
      exists y, (paymentsOf (FeePayment.tenant p) m).
      rewrite paymentsOf_insert_same by assumption. auto with lia.
    + rewrite lookup_insert_ne in Hq by congruence.
      destruct (Hseq i q Hq) as (y' & n & Hy' & Hn & Hr').
      exists y', n. repeat split; try assumption; try lia.
      pose proof (paymentsOf_insert_le (FeePayment.tenant q) m id p Hid).
      lia.
  - intros i j q1 q2 Hi Hj Ht Hsame.
    destruct (decide (i = id)) as [->|Hni], (decide (j = id)) as [->|Hnj];
      rewrite ?lookup_insert_eq in Hi; rewrite ?lookup_insert_eq in Hj;
      rewrite ?lookup_insert_ne in Hi by congruence;
      rewrite ?lookup_insert_ne in Hj by congruence;
      simplify_eq; auto.
    + exfalso. apply (sequentialReceipts_next_unused m y j q2 Hinv Hy Hj).
      rewrite <- Ht, <- Hsame. exact Hr.
    + exfalso. apply (sequentialReceipts_next_unused m y i q1 Hinv Hy Hi).
      rewrite Ht, Hsame. exact Hr.
    + eapply Hdis; eauto.
Qed.

(** While one tenant records payments, one after the other, the indexes
    accept every generated number. *)
Lemma receiptUnused_one_tenant t now db :
  sequentialReceipts (feePayments db) -> fourDigitYear now ->
  (forall id p, feePayments db !! id = Some p -> FeePayment.tenant p = t) ->
  receiptUnused t now db.
Proof.
  intros Hinv Hy Hone id p Hp. unfold nextReceipt.
  rewrite <- (Hone id p Hp).
  apply (sequentialReceipts_next_unused _ _ id p Hinv Hy Hp).
Qed.

(** What [recordFeePayment] does to the payments: nothing, with a
    failure; or one insert under a new id, of a payment of the caller's
    tenant carrying the generated number. *)
Lemma recordFeePayment_cases user body now db :
  (exists code msg,
     recordFeePayment user body now db = (db, Failure code msg))
  \/ (exists id p,
        snd (recordFeePayment user body now db) = Success 201 (id, p)
        /\ feePayments db !! id = None
        /\ feePayments (fst (recordFeePayment user body now db))
           = <[id := p]> (feePayments db)
        /\ FeePayment.tenant p = userTenant user
        /\ FeePayment.receiptNumber p
           = Some (FeePayment.receipt (JSDate.getFullYear now)
                     (paymentsOf (userTenant user) (feePayments db)))).
Proof.
  unfold recordFeePayment.
  destruct (findAssignmentOf user body db) as [a|]; [|left; eauto].
  destruct (_ <? _); [left; eauto|].
  unfold createFeePayment.
  destruct (FeePayment.uniqueIndexesAllow _ _); [|left; eauto].
  right. eexists _, _. cbn. repeat split. apply newObjectId_fresh.
Qed.

Lemma assignFeeToStudent_payments user body now db :
  feePayments (fst (assignFeeToStudent user body now db)) = feePayments db.
Proof.
  unfold assignFeeToStudent.
  destruct (feeStructures db !! _); [|reflexivity].
  destruct (decide _); [|reflexivity].
  destruct (findOne _ _); reflexivity.
Qed.

Lemma autoAssignClassFees_payments s c t now db :
  feePayments (fst (autoAssignClassFees s c t now db)) = feePayments db.
Proof.
  unfold autoAssignClassFees.
  generalize (classFeeStructures t c db).
  generalize (@nil (N * FeeAssignment.t)). intros acc l. revert db acc.
  induction l as [|fs l IH]; intros db acc; [reflexivity|].
  cbn [fold_left].
  assert (Hstep : feePayments (fst (autoAssignOne s t now (db, acc) fs))
                  = feePayments db).
  { unfold autoAssignOne. destruct fs as [fsId fs].
    destruct (findOne _ _); reflexivity. }
  destruct (autoAssignOne s t now (db, acc) fs) as [db' acc'].
  rewrite IH. exact Hstep.
Qed.

Lemma step_keeps_payment db op id p :
  feePayments db !! id = Some p -> feePayments (step db op) !! id = Some p.
Proof.
  intros Hp. destruct op as [user body now|s c t now|user body now];
    cbn [step].
  - rewrite assignFeeToStudent_payments. exact Hp.
  - rewrite autoAssignClassFees_payments. exact Hp.
  - destruct (recordFeePayment_cases user body now db)
      as [(code & msg & ->)|(i & q & _ & Hi & -> & _)]; [exact Hp|].
    rewrite lookup_insert_ne; [exact Hp|]. intros <-. congruence.
Qed.

Lemma run_keeps_payment ops db id p :
  feePayments db !! id = Some p -> feePayments (run ops db) !! id = Some p.
Proof.
  unfold run. revert db. induction ops as [|op ops IH]; intros db Hp;
    [exact Hp|].
  cbn [fold_left]. apply IH, step_keeps_payment, Hp.
Qed.

Lemma step_sequential db op :
  sequentialReceipts (feePayments db) -> fourDigitYear (opTime op) ->
  sequentialReceipts (feePayments (step db op)).
Proof.
  intros Hinv Hy. destruct op as [user body now|s c t now|user body now];
    cbn [step opTime] in *.
  - rewrite assignFeeToStudent_payments. exact Hinv.
  - rewrite autoAssignClassFees_payments. exact Hinv.
  - destruct (recordFeePayment_cases user body now db)
      as [(code & msg & ->)|(i & q & _ & Hi & -> & Ht & Hr)]; [exact Hinv|].
    eapply sequentialReceipts_insert; eauto. rewrite Ht. exact Hr.
Qed.

Lemma run_sequential ops db :
  sequentialReceipts (feePayments db) ->
  Forall (fun op => fourDigitYear (opTime op)) ops ->
  sequentialReceipts (feePayments (run ops db)).
Proof.
  unfold run. revert db. induction ops as [|op ops IH]; intros db Hinv Hall;
    [exact Hinv|].
  apply Forall_cons in Hall as [Hop Hall]. cbn [fold_left].
  apply IH; [apply step_sequential; assumption | exact Hall].
Qed.

(** Numbering in sequence.  Starting from payments numbered in sequence
    (none, for one), the requests are served one after the other in
    four-digit years and no payment is deleted.  Then every payment that [recordFeePayment]
    creates is stored, to the end, with the receipt number "RCP", the
    year of the request, and the count of the payments its tenant had
    before plus one, padded with zeros to six digits; the payments of one
    tenant carry pairwise distinct receipt numbers; and the number that
    would be generated next for a tenant is carried by none of its
    payments. *)
Theorem receipt_numbers_follow_the_count ops db :
  sequentialReceipts (feePayments db) ->
  Forall (fun op => fourDigitYear (opTime op)) ops ->
  (forall ops1 user body now ops2 id p,
     ops = ops1 ++ OpRecordPayment user body now :: ops2 ->
     snd (recordFeePayment user body now (run ops1 db)) = Success 201 (id, p) ->
     FeePayment.receiptNumber p
     = Some (FeePayment.receipt (JSDate.getFullYear now)
               (paymentsOf (userTenant user) (feePayments (run ops1 db))))
     /\ feePayments (run ops db) !! id = Some p)
  /\ (forall i j p q,
        feePayments (run ops db) !! i = Some p ->
        feePayments (run ops db) !! j = Some q ->
        FeePayment.tenant p = FeePayment.tenant q ->
        FeePayment.receiptNumber p = FeePayment.receiptNumber q -> i = j)
  /\ (forall now id p,
        fourDigitYear now ->
        feePayments (run ops db) !! id = Some p ->
        FeePayment.receiptNumber p
        <> Some (nextReceipt (FeePayment.tenant p) now (run ops db))).
Proof.
  intros Hinv Hall.
  pose proof (run_sequential ops db Hinv Hall) as Hend.
  split; [|split].
  - intros ops1 user body now ops2 id p Hops Hresp.
    destruct (recordFeePayment_cases user body now (run ops1 db))
      as [(code & msg & Hf)|(i & q & Hs & _ & Hm & _ & Hr)].
    { rewrite Hf in Hresp. discriminate. }
    rewrite Hs in Hresp. injection Hresp as <- <-.
    split; [exact Hr|].
    subst ops. unfold run. rewrite fold_left_app. cbn [fold_left].
    apply (run_keeps_payment ops2). cbn [step].
    fold (run ops1 db). rewrite Hm. apply lookup_insert_eq.
  - apply Hend.
  - intros now id p Hy Hp.
    apply (sequentialReceipts_next_unused _ _ id p Hend Hy Hp).
Qed.

(** The theorem on two payments of the example school: both requests are
    served in 2024, from a database without payments. *)
Lemma receipt_numbers_follow_the_count_witness :
  sequentialReceipts (feePayments Scenario.assigned)
  /\ Forall (fun op => fourDigitYear (opTime op))
       [OpRecordPayment Scenario.admin (Scenario.pay 2000) Scenario.jan5;
        OpRecordPayment Scenario.admin (Scenario.pay 3000) Scenario.feb20]
  /\ (forall i j p q,
        feePayments
          (run [OpRecordPayment Scenario.admin (Scenario.pay 2000)
                  Scenario.jan5;
                OpRecordPayment Scenario.admin (Scenario.pay 3000)
                  Scenario.feb20] Scenario.assigned) !! i = Some p ->
        feePayments
          (run [OpRecordPayment Scenario.admin (Scenario.pay 2000)
                  Scenario.jan5;
                OpRecordPayment Scenario.admin (Scenario.pay 3000)
                  Scenario.feb20] Scenario.assigned) !! j = Some q ->
        FeePayment.tenant p = FeePayment.tenant q ->
        FeePayment.receiptNumber p = FeePayment.receiptNumber q -> i = j).
Proof.
  assert (Hstart : sequentialReceipts (feePayments Scenario.assigned)).
  { split.
    - intros id p Hp. vm_compute in Hp. discriminate.
    - intros i j p q Hp. vm_compute in Hp. discriminate. }
  assert (Hyears : Forall (fun op => fourDigitYear (opTime op))
       [OpRecordPayment Scenario.admin (Scenario.pay 2000) Scenario.jan5;
        OpRecordPayment Scenario.admin (Scenario.pay 3000) Scenario.feb20]).
  { repeat constructor; vm_compute; congruence. }
  exact (conj Hstart (conj Hyears
           (proj1 (proj2 (receipt_numbers_follow_the_count _ _
                            Hstart Hyears))))).
Defined.

(** The two receipt numbers of that run. *)
Example receipt_numbers_of_two_payments :
  let db :=
    run [OpRecordPayment Scenario.admin (Scenario.pay 2000) Scenario.jan5;
         OpRecordPayment Scenario.admin (Scenario.pay 3000) Scenario.feb20]
      Scenario.assigned in
  FeePayment.receiptNumber <$> (feePayments db !! 0%N)
  = Some (Some "RCP2024000001")
  /\ FeePayment.receiptNumber <$> (feePayments db !! 1%N)
     = Some (Some "RCP2024000002").
Proof. vm_compute. split; reflexivity. Qed.

(** C1, on the code.  Two schools share the database.  Tenant 1 records
    its first payment of 2024 and is given "RCP2024000001".  Tenant 2
    then pays 800 on its assignment 1, of which 800 remain: the amount is
    not above the remaining amount, yet no payment is recorded.  The hook
    counts the payments of tenant 2 only and generates "RCP2024000001"
    again; the index [receiptNumber: { unique: true }] spans the tenants
    and refuses the insert; the request is answered 400 'Error recording
    payment' and the database is left as it was. *)
Theorem valid_payment_is_refused_across_tenants :
  let db1 :=
    fst (recordFeePayment Scenario.admin (Scenario.pay 2000) Scenario.jan5
           Scenario.twoSchools) in
  let body := PaymentBody.mk 60 1 800 cash None None in
  (exists a,
      findAssignmentOf Scenario.otherAdmin body db1 = Some a
      /\ FeeAssignment.finalAmount a - FeeAssignment.paidNumber a = 800
      /\ PaymentBody.amount body
         <= FeeAssignment.finalAmount a - FeeAssignment.paidNumber a)
  /\ FeePayment.receiptNumber <$> (feePayments db1 !! 0%N)
     = Some (Some "RCP2024000001")
  /\ paymentsOf 2 (feePayments db1) = 0%nat
  /\ nextReceipt 2 Scenario.jan5 db1 = "RCP2024000001"
  /\ recordFeePayment Scenario.otherAdmin body Scenario.jan5 db1
     = (db1, Failure 400 "Error recording payment").
Proof.
  cbv zeta. split.
  - eexists. split; [vm_compute; reflexivity|]. vm_compute.
    split; [reflexivity|discriminate].
  - vm_compute. repeat split.
Qed.

(** The bound of the guard on amounts with a fraction.  The guard and the
    increment round: on a final amount of 6551.53, payments of 1935.77
    and 4615.76 both pass the guard, and the paid amount ends above the
    final amount, at 6551.530000000001. *)
#[warnings="-inexact-float"]
Example part_payments_overshoot_in_doubles :
  let finalAmount := 6551.53%float in
  exists paid1 paid2,
    Double.recordPayment finalAmount 0%float 1935.77%float = Some paid1
    /\ Double.recordPayment finalAmount paid1 4615.76%float = Some paid2
    /\ PrimFloat.ltb finalAmount paid2 = true
    /\ paid2 = 0x1.99787ae147ae2p+12%float.
Proof.
  cbv zeta. eexists _, _.
  split; [vm_compute; reflexivity|].
  split; [vm_compute; reflexivity|].
  split; vm_compute; reflexivity.
Qed.

(* --------------------------------------------------------------------- *)
(** ** The format of the receipt number *)
(* --------------------------------------------------------------------- *)

Lemma string_app_assoc (a b c : string) :
  ((a ++ b) ++ c)%string = (a ++ (b ++ c))%string.
Proof.
  induction a as [|x a IH]; [reflexivity|].
  change (String x ((a ++ b) ++ c) = String x (a ++ (b ++ c)))%string.
  rewrite IH. reflexivity.
Qed.

Lemma string_app_nil_r (a : string) : (a ++ "")%string = a.
Proof.
  induction a as [|x a IH]; [reflexivity|].
  change (String x (a ++ "") = String x a)%string. rewrite IH. reflexivity.
Qed.

Lemma string_app_length (a b : string) :
  String.length (a ++ b) = (String.length a + String.length b)%nat.
Proof.
  induction a as [|x a IH]; [reflexivity|].
  change (S (String.length (a ++ b)) = S (String.length a + String.length b)).
  rewrite IH. reflexivity.
Qed.

Lemma repeatChar_snoc k c :
  (repeatChar k c ++ String c "")%string = String c (repeatChar k c).
Proof.
  induction k as [|k IH]; [reflexivity|].
  change (String c (repeatChar k c ++ String c "") = String c (String c (repeatChar k c)))%string.
  rewrite IH. reflexivity.
Qed.

Lemma digit_char d : (d < 10)%N -> ReceiptFormat.digit d = pretty_N_char d.
Proof.
  intros Hd.
  assert (d = 0 \/ d = 1 \/ d = 2 \/ d = 3 \/ d = 4 \/ d = 5 \/ d = 6
          \/ d = 7 \/ d = 8 \/ d = 9)%N as H by lia.
  repeat (destruct H as [->|H]; [reflexivity|]). subst. reflexivity.
Qed.

Lemma fixedWidth_length w : forall n,
  String.length (ReceiptFormat.fixedWidth w n) = w.
Proof.
  induction w as [|w IH]; intros n; [reflexivity|].
  cbn [ReceiptFormat.fixedWidth]. rewrite string_app_length, IH. cbn. lia.
Qed.

Lemma fixedWidth_zero w : ReceiptFormat.fixedWidth w 0 = repeatChar w "0".
Proof.
  induction w as [|w IH]; [reflexivity|].
  cbn [ReceiptFormat.fixedWidth]. change (0 / 10)%N with 0%N. rewrite IH.
  apply repeatChar_snoc.
Qed.

Lemma size_nat_bound n : (n < 2 ^ N.of_nat (N.size_nat n))%N.
Proof.
  destruct n as [|p]; [reflexivity|]. cbn [N.size_nat].
  induction p as [p IH|p IH|]; cbn [Pos.size_nat].
  - rewrite Nat2N.inj_succ, N.pow_succ_r'. lia.
  - rewrite Nat2N.inj_succ, N.pow_succ_r'. lia.
  - reflexivity.
Qed.

Lemma tenth_bound fuel n :
  (n < 2 ^ N.of_nat (S fuel))%N -> (n / 10 < 2 ^ N.of_nat fuel)%N.
Proof.
  rewrite Nat2N.inj_succ, N.pow_succ_r'. intros Hn.
  apply N.Div0.div_lt_upper_bound. lia.
Qed.

(** The decimal form of the code, digit by digit. *)
Lemma pretty_N_go_fixedWidth fuel : forall n s,
  (n < 2 ^ N.of_nat fuel)%N ->
  pretty_N_go n s
  = (ReceiptFormat.fixedWidth (ReceiptFormat.countDigits fuel n) n ++ s)%string.
Proof.
  induction fuel as [|fuel IH]; intros n s Hn.
  - assert (n = 0%N) as -> by (cbn in Hn; lia). reflexivity.
  - cbn [ReceiptFormat.countDigits]. destruct (N.eqb_spec n 0) as [->|Hne].
    + reflexivity.
    + rewrite pretty_N_go_step by lia.
      rewrite (IH _ _ (tenth_bound fuel n Hn)).
      cbn [ReceiptFormat.fixedWidth].
      rewrite string_app_assoc, digit_char by (apply N.mod_lt; lia).
      reflexivity.
Qed.

Lemma fixedWidth_pad fuel : forall n j,
  (n < 2 ^ N.of_nat fuel)%N ->
  ReceiptFormat.fixedWidth (j + ReceiptFormat.countDigits fuel n) n
  = (repeatChar j "0"
       ++ ReceiptFormat.fixedWidth (ReceiptFormat.countDigits fuel n) n)%string.
Proof.
  induction fuel as [|fuel IH]; intros n j Hn.
  - assert (n = 0%N) as -> by (cbn in Hn; lia). cbn [ReceiptFormat.countDigits].
    rewrite Nat.add_0_r, fixedWidth_zero, string_app_nil_r. reflexivity.
  - cbn [ReceiptFormat.countDigits]. destruct (N.eqb_spec n 0) as [->|Hne].
    + rewrite Nat.add_0_r, fixedWidth_zero, string_app_nil_r. reflexivity.
    + rewrite Nat.add_succ_r. cbn [ReceiptFormat.fixedWidth].
      rewrite (IH _ _ (tenth_bound fuel n Hn)), string_app_assoc.
      reflexivity.
Qed.

Lemma padStart_is_zeroPad (p : positive) (w : nat) :
  padStart (toString (Zpos p)) w "0" = ReceiptFormat.zeroPad (Npos p) w.
Proof.
  unfold toString, pretty, pretty_Z, pretty, pretty_positive, pretty, pretty_N.
  destruct (decide (N.pos p = 0%N)); [discriminate|].
  rewrite (pretty_N_go_fixedWidth _ _ _ (size_nat_bound (Npos p))).
  rewrite string_app_nil_r. unfold padStart, ReceiptFormat.zeroPad.
  rewrite fixedWidth_length. fold (ReceiptFormat.numDigits (Npos p)).
  rewrite <- (fixedWidth_pad _ _ _ (size_nat_bound (Npos p))).
  fold (ReceiptFormat.numDigits (Npos p)). f_equal. lia.
Qed.

Lemma toString_pos (p : positive) :
  toString (Zpos p)
  = ReceiptFormat.fixedWidth (ReceiptFormat.numDigits (Npos p)) (Npos p).
Proof.
  unfold toString, pretty, pretty_Z, pretty, pretty_positive, pretty, pretty_N.
  destruct (decide (N.pos p = 0%N)); [discriminate|].
  rewrite (pretty_N_go_fixedWidth _ _ _ (size_nat_bound (Npos p))).
  apply string_app_nil_r.
Qed.

Lemma numDigits_pos (p : positive) : (1 <= ReceiptFormat.numDigits (Npos p))%nat.
Proof.
  unfold ReceiptFormat.numDigits. cbn [N.size_nat].
  destruct p; cbn [Pos.size_nat ReceiptFormat.countDigits N.eqb]; lia.
Qed.

Lemma toString_is_year (y : Z) : toString y = ReceiptFormat.year y.
Proof.
  assert (Hpos : forall p, toString (Zpos p) = ReceiptFormat.zeroPad (Npos p) 1).
  { intros p. rewrite toString_pos. unfold ReceiptFormat.zeroPad.
    f_equal. pose proof (numDigits_pos p). lia. }
  destruct y as [|p|p].
  - reflexivity.
  - apply Hpos.
  - unfold ReceiptFormat.year. rewrite <- Hpos. reflexivity.
Qed.

(** The receipt number of the hook is the one of the specification. *)
Lemma receipt_is_the_format (y : Z) (count : nat) :
  FeePayment.receipt y count = ReceiptFormat.receiptNumber y count.
Proof.
  unfold FeePayment.receipt, ReceiptFormat.receiptNumber.
  rewrite toString_is_year.
  replace (Z.of_nat count + 1) with (Zpos (Pos.of_succ_nat count)) by lia.
  rewrite padStart_is_zeroPad.
  replace (N.pos (Pos.of_succ_nat count)) with (N.of_nat count + 1)%N by lia.
  reflexivity.
Qed.

Lemma recordFeePayment_inserted user body now db :
  (exists code msg,
     recordFeePayment user body now db = (db, Failure code msg))
  \/ (exists id p,
        snd (recordFeePayment user body now db) = Success 201 (id, p)
        /\ feePayments db !! id = None
        /\ feePayments (fst (recordFeePayment user body now db))
           = <[id := p]> (feePayments db)
        /\ FeePayment.receiptNumber p
           = Some (FeePayment.receipt (JSDate.getFullYear now)
                     (paymentsOf (userTenant user) (feePayments db)))
        /\ FeePayment.uniqueIndexesAllow (feePayments db) p = true).
Proof.
  unfold recordFeePayment.
  destruct (findAssignmentOf user body db) as [a|]; [|left; eauto].
  destruct (_ <? _); [left; eauto|].
  unfold createFeePayment.
  destruct (FeePayment.uniqueIndexesAllow _ _) eqn:Hallow; [|left; eauto].
  right. eexists _, _. cbn. repeat split.
  - apply newObjectId_fresh.
  - exact Hallow.
Qed.

Lemma distinctReceipts_insert m id p :
  distinctReceipts m -> m !! id = None ->
  FeePayment.uniqueIndexesAllow m p = true ->
  distinctReceipts (<[id := p]> m).
Proof.
  intros Hd Hid Hallow. unfold FeePayment.uniqueIndexesAllow in Hallow.
  apply andb_true_iff in Hallow as [Hglobal _].
  apply Nat.eqb_eq in Hglobal.
  pose proof (proj1 (countDocuments_zero _ _) Hglobal) as Hnone.
  intros i j x y Hi Hj Heq.
  destruct (decide (i = id)) as [->|Hi'], (decide (j = id)) as [->|Hj'].
  - reflexivity.
  - rewrite lookup_insert_eq in Hi. injection Hi as <-.
    rewrite lookup_insert_ne in Hj by congruence.
    exfalso. apply (Hnone j y Hj). cbn. congruence.
  - rewrite lookup_insert_eq in Hj. injection Hj as <-.
    rewrite lookup_insert_ne in Hi by congruence.
    exfalso. apply (Hnone i x Hi). cbn. congruence.
  - rewrite lookup_insert_ne in Hi, Hj by congruence.
    exact (Hd i j x y Hi Hj Heq).
Qed.

Lemma step_distinctReceipts db op :
  distinctReceipts (feePayments db) ->
  distinctReceipts (feePayments (step db op)).
Proof.
  intros Hd. destruct op as [user body now|s c t now|user body now];
    cbn [step].
  - rewrite assignFeeToStudent_payments. exact Hd.
  - rewrite autoAssignClassFees_payments. exact Hd.
  - destruct (recordFeePayment_inserted user body now db)
      as [(code & msg & ->)|(id & p & _ & Hid & -> & _ & Hallow)];
      [exact Hd|].
    apply distinctReceipts_insert; assumption.
Qed.

(** A stored payment was stored before the request or is the one the
    request created. *)
Lemma step_payment_origin db op id p :
  feePayments (step db op) !! id = Some p ->
  feePayments db !! id = Some p
  \/ exists user body now,
       op = OpRecordPayment user body now
       /\ snd (recordFeePayment user body now db) = Success 201 (id, p).
Proof.
  destruct op as [user body now|s c t now|user body now]; cbn [step].
  - rewrite assignFeeToStudent_payments. auto.
  - rewrite autoAssignClassFees_payments. auto.
  - destruct (recordFeePayment_inserted user body now db)
      as [(code & msg & ->)|(i & q & Hs & Hi & Hm & _)]; [auto|].
    rewrite Hm. intros Hp.
    destruct (decide (id = i)) as [->|Hne].
    + rewrite lookup_insert_eq in Hp. injection Hp as <-.
      right. exists user, body, now. auto.
    + rewrite lookup_insert_ne in Hp by congruence. auto.
Qed.

(** C8.  The requests are served one after the other, from a database
    without payments, and no payment is deleted.  Every payment that
    [recordFeePayment] creates is stored, to the end, with the receipt
    number of the specification: "RCP", the year of the request, and the
    count of the payments its tenant had before plus one, in decimal
    digits with zeros in front up to six digits.  Every stored payment is
    one of these.  And the payments of one tenant carry pairwise
    distinct receipt numbers. *)
Theorem receipt_numbers_are_padded_and_distinct ops db :
  let start := withPayments ∅ db in
  (forall ops1 user body now ops2 id p,
     ops = ops1 ++ OpRecordPayment user body now :: ops2 ->
     snd (recordFeePayment user body now (run ops1 start))
     = Success 201 (id, p) ->
     FeePayment.receiptNumber p
     = Some (ReceiptFormat.receiptNumber (JSDate.getFullYear now)
               (paymentsOf (userTenant user)
                  (feePayments (run ops1 start))))
     /\ feePayments (run ops start) !! id = Some p)
  /\ (forall id p,
        feePayments (run ops start) !! id = Some p ->
        exists ops1 user body now ops2,
          ops = ops1 ++ OpRecordPayment user body now :: ops2
          /\ snd (recordFeePayment user body now (run ops1 start))
             = Success 201 (id, p))
  /\ (forall i j p q,
        feePayments (run ops start) !! i = Some p ->
        feePayments (run ops start) !! j = Some q ->
        FeePayment.tenant p = FeePayment.tenant q ->
        FeePayment.receiptNumber p = FeePayment.receiptNumber q -> i = j).
Proof.
  intros start. split; [|split].
  - intros ops1 user body now ops2 id p Hops Hresp.
    destruct (recordFeePayment_inserted user body now (run ops1 start))
      as [(code & msg & Hf)|(i & q & Hs & _ & Hm & Hr & _)].
    { rewrite Hf in Hresp. discriminate. }
    rewrite Hs in Hresp. injection Hresp as <- <-.
    split; [rewrite Hr, receipt_is_the_format; reflexivity|].
    subst ops. unfold run. rewrite fold_left_app. cbn [fold_left].
    apply (run_keeps_payment ops2). cbn [step].
    fold (run ops1 start). rewrite Hm. apply lookup_insert_eq.
  - induction ops as [|op ops IH] using rev_ind; intros id p Hp.
    + cbn in Hp. rewrite lookup_empty in Hp. discriminate.
    + unfold run in Hp. rewrite fold_left_app in Hp. cbn [fold_left] in Hp.
      fold (run ops start) in Hp.
      apply step_payment_origin in Hp
        as [Hold|(user & body & now & -> & Hresp)].
      * destruct (IH id p Hold) as (ops1 & user & body & now & ops2 & -> & Hr).
        exists ops1, user, body, now, (ops2 ++ [op]).
        rewrite <- app_assoc. auto.
      * exists ops, user, body, now, []. auto.
  - assert (Hd : distinctReceipts (feePayments (run ops start))).
    { unfold run.
      assert (H0 : distinctReceipts (feePayments start)).
      { intros i j p q Hi. cbn in Hi. rewrite lookup_empty in Hi.
        discriminate. }
      revert H0. generalize start.
      induction ops as [|op ops IH]; intros d H0; [exact H0|].
      cbn [fold_left]. apply IH, step_distinctReceipts, H0. }
    intros i j p q Hi Hj _ Heq. exact (Hd i j p q Hi Hj Heq).
Qed.

(** The theorem on two payments of the example school, both served in
    2024: they are stored with the numbers "RCP2024000001" and
    "RCP2024000002". *)
Lemma receipt_numbers_are_padded_and_distinct_witness :
  exists p q,
    feePayments
      (run [OpRecordPayment Scenario.admin (Scenario.pay 2000) Scenario.jan5;
            OpRecordPayment Scenario.admin (Scenario.pay 3000)
              Scenario.feb20]
         (withPayments ∅ Scenario.assigned)) !! 0%N = Some p
    /\ FeePayment.receiptNumber p = Some "RCP2024000001"
    /\ feePayments
         (run [OpRecordPayment Scenario.admin (Scenario.pay 2000)
                 Scenario.jan5;
               OpRecordPayment Scenario.admin (Scenario.pay 3000)
                 Scenario.feb20]
            (withPayments ∅ Scenario.assigned)) !! 1%N = Some q
    /\ FeePayment.receiptNumber q = Some "RCP2024000002".
Proof.
  destruct (receipt_numbers_are_padded_and_distinct
              [OpRecordPayment Scenario.admin (Scenario.pay 2000)
                 Scenario.jan5;
               OpRecordPayment Scenario.admin (Scenario.pay 3000)
                 Scenario.feb20] Scenario.assigned) as (Hformat & _ & _).
  assert (H1 : exists p,
            snd (recordFeePayment Scenario.admin (Scenario.pay 2000)
                   Scenario.jan5
                   (run [] (withPayments ∅ Scenario.assigned)))
            = Success 201 (0%N, p)) by (eexists; vm_compute; reflexivity).
  assert (H2 : exists q,
            snd (recordFeePayment Scenario.admin (Scenario.pay 3000)
                   Scenario.feb20
                   (run [OpRecordPayment Scenario.admin (Scenario.pay 2000)
                           Scenario.jan5]
                      (withPayments ∅ Scenario.assigned)))
            = Success 201 (1%N, q)) by (eexists; vm_compute; reflexivity).
  destruct H1 as [p H1], H2 as [q H2].
  destruct (Hformat [] _ _ _ [_] 0%N p eq_refl H1) as [Hp Hstored1].
  destruct (Hformat [_] _ _ _ [] 1%N q eq_refl H2) as [Hq Hstored2].
  exists p, q. vm_compute in Hp. vm_compute in Hq. auto.
Defined.


(* --------------------------------------------------------------------- *)
(** ** School summary *)
(* --------------------------------------------------------------------- *)

(** C9, on the code.  The one assignment of the school is cancelled,
    unpaid, 1000, due on 10 January.  The summary of 20 February takes it
    up: it recomputes its status to overdue and counts it as 1000
    expected and 1000 overdue, in the totals, under its class and under
    its category, with its student. *)
Theorem cancelled_assignment_is_summed :
  FeeAssignment.status <$> Scenario.stored Scenario.afterClassDeletion
  = Some CANCELLED
  /\ FeeAssignment.status
       (FeeAssignment.updateStatus Scenario.feb20 Scenario.cancelled0)
     = OVERDUE
  /\ exists summary,
       getSchoolFeeSummary Scenario.admin None Scenario.feb20
         Scenario.afterClassDeletion = Success 200 summary
       /\ Summary.totalAssignments summary = 1%nat
       /\ Summary.totalStudents summary = 1%nat
       /\ Summary.totalExpected summary = 1000
       /\ Summary.totalCollected summary = 0
       /\ Summary.totalPending summary = 0
       /\ Summary.totalOverdue summary = 1000
       /\ Summary.closeClass <$> (Summary.classWiseSummary summary !! "10 - A")
          = Some (Summary.mkBucket 1000 0 0 1000, 1%nat)
       /\ Summary.categoryWiseSummary summary !! "other"
          = Some (Summary.mkBucket 1000 0 0 1000).
Proof.
  split; [vm_compute; reflexivity|]. split; [vm_compute; reflexivity|].
  eexists. split; [reflexivity|]. vm_compute. repeat split.
Qed.

(* --------------------------------------------------------------------- *)
(** ** Deleting a fee frequency *)
(* --------------------------------------------------------------------- *)

(** The part of C10 the code keeps: a system frequency is refused,
    whatever the cast of the library does. *)
Lemma system_frequency_is_refused castObjectId user id db f :
  feeFrequencies db !! id = Some f ->
  FeeFrequency.tenant f = userTenant user ->
  FeeFrequency.isSystem f = true ->
  deleteFeeFrequency castObjectId user id db
  = (db, Failure 400 "System frequencies cannot be deleted").
Proof.
  intros Hf Ht Hs. unfold deleteFeeFrequency, FeeFrequency_canDelete.
  rewrite Hf, Hs. destruct (decide _); [reflexivity|contradiction].
Qed.

(** The count of [canDelete] looks for the code of the frequency where
    the structures keep its id: a code that is no [ObjectId] makes the
    method throw, whatever refers to the frequency. *)
Lemma code_that_is_no_ObjectId_throws castObjectId db f :
  FeeFrequency.isSystem f = false ->
  castObjectId (FeeFrequency.code f) = None ->
  FeeFrequency_canDelete castObjectId db f = None.
Proof.
  intros Hs Hc. unfold FeeFrequency_canDelete. rewrite Hs, Hc. reflexivity.
Qed.

(** C10, on the code.  In the example school the structure 'Bus' refers
    to the frequency 'bi-monthly' and the structure 'Lab' to the
    frequency coded "abcdefabcdefabcdefabcdef".  Deleting the first is
    answered with the failure of the request, not with the in-use reason;
    deleting the second succeeds and removes the row. *)
Theorem referenced_frequency_is_not_reported_in_use :
  FeeStructure.frequency <$>
    (feeStructures Scenario.withCustomFrequencies !! 100%N) = Some (Some 20%N)
  /\ deleteFeeFrequency castObjectIdHex Scenario.admin 20
       Scenario.withCustomFrequencies
     = (Scenario.withCustomFrequencies,
        Failure 400 "Error deleting frequency")
  /\ FeeStructure.frequency <$>
       (feeStructures Scenario.withCustomFrequencies !! 101%N)
     = Some (Some 21%N)
  /\ snd (deleteFeeFrequency castObjectIdHex Scenario.admin 21
            Scenario.withCustomFrequencies) = Success 200 tt
  /\ feeFrequencies
       (fst (deleteFeeFrequency castObjectIdHex Scenario.admin 21
               Scenario.withCustomFrequencies)) !! 21%N = None.
Proof. vm_compute. repeat split. Qed.

(* ===================================================================== *)
(** * Further properties of the fee files *)
(* ===================================================================== *)

(* --------------------------------------------------------------------- *)
(** ** The methods of an assignment *)
(* --------------------------------------------------------------------- *)

(** X1.  The pending amount is never negative, it is what remains to be
    paid when the paid amount is not above the final amount, and it is 0
    exactly when [updateStatus] derives paid. *)
Theorem pending_amount_and_status (a : FeeAssignment.t) (today : JSDate.t) :
  0 <= FeeAssignment.calculatePendingAmount a
  /\ (FeeAssignment.paidNumber a <= FeeAssignment.finalAmount a ->
      FeeAssignment.calculatePendingAmount a
      = FeeAssignment.finalAmount a - FeeAssignment.paidNumber a)
  /\ (FeeAssignment.calculatePendingAmount a = 0
      <-> FeeAssignment.status (FeeAssignment.updateStatus today a) = PAID).
Proof.
  unfold FeeAssignment.calculatePendingAmount, FeeAssignment.updateStatus,
    FeeAssignment.paidNumber.
  destruct (FeeAssignment.paidAmount a) as [paid|]; cbn [default id];
    (split; [lia|]); (split; [lia|]);
    repeat match goal with
    | |- context [Z.leb ?x ?y] => destruct (Z.leb_spec x y)
    | |- context [Z.ltb ?x ?y] => destruct (Z.ltb_spec x y)
    | |- context [if ?b then _ else _] => destruct b
    end; rewrite ?status_setStatus; split; intros; try lia; try discriminate;
    reflexivity.
Qed.

(** X2.  [updateStatus] looks at the amounts and the due date only: the
    status it leaves does not depend on the status before, it is never
    cancelled (a cancelled assignment is given a new status), and a
    second call on the same day changes nothing. *)
Theorem updateStatus_overwrites (a : FeeAssignment.t) (today : JSDate.t)
    (s : FEE_STATUS) :
  FeeAssignment.updateStatus today (FeeAssignment.setStatus s a)
  = FeeAssignment.updateStatus today a
  /\ FeeAssignment.status (FeeAssignment.updateStatus today a) <> CANCELLED
  /\ FeeAssignment.updateStatus today (FeeAssignment.updateStatus today a)
     = FeeAssignment.updateStatus today a.
Proof.
  unfold FeeAssignment.updateStatus.
  destruct a as [t st fs y total disc final due stat paid pd pid ca cb cr].
  cbn [FeeAssignment.setStatus FeeAssignment.paidAmount
       FeeAssignment.finalAmount FeeAssignment.dueDate FeeAssignment.tenant
       FeeAssignment.student FeeAssignment.feeStructure
       FeeAssignment.academicYear FeeAssignment.totalAmount
       FeeAssignment.discount FeeAssignment.status FeeAssignment.paidDate
       FeeAssignment.paymentId FeeAssignment.cancelledAt
       FeeAssignment.cancelledBy FeeAssignment.cancellationReason].
  destruct paid as [paid|];
    destruct (final <=? _) eqn:E1; try destruct (0 <? _) eqn:E2;
    destruct (JSDate.ltb due today) eqn:E3;
    cbn; rewrite ?E1, ?E2, ?E3; repeat split; discriminate.
Qed.

(** X3.  What [save] stores after [updateStatus] (the write path of
    [recordFeePayment] and [getStudentFees]): paid when the paid amount
    reaches the final amount, partially paid when something is paid,
    whatever the due date, and otherwise overdue or pending by the due
    date. *)
Theorem status_stored_after_updateStatus (a : FeeAssignment.t)
    (now : JSDate.t) :
  FeeAssignment.status
    (FeeAssignment.preSave false now (FeeAssignment.updateStatus now a))
  = if FeeAssignment.finalAmount a <=? FeeAssignment.paidNumber a then PAID
    else if 0 <? FeeAssignment.paidNumber a then PARTIALLY_PAID
    else if JSDate.ltb (FeeAssignment.dueDate a) now then OVERDUE
    else PENDING.
Proof.
  unfold FeeAssignment.preSave, FeeAssignment.paidNumber.
  rewrite !updateStatus_finalAmount, !updateStatus_paidAmount.
  destruct (_ <=? _) eqn:E1; [reflexivity|].
  destruct (0 <? _) eqn:E2; [reflexivity|].
  unfold FeeAssignment.updateStatus.
  replace (match FeeAssignment.paidAmount a with Some n => n | None => 0 end)
    with (default 0 (FeeAssignment.paidAmount a))
    by (destruct (FeeAssignment.paidAmount a); reflexivity).
  rewrite E1, E2.
  destruct (JSDate.ltb (FeeAssignment.dueDate a) now) eqn:E3;
    cbn; rewrite ?E3; reflexivity.
Qed.

(* --------------------------------------------------------------------- *)
(** ** Payments per year *)
(* --------------------------------------------------------------------- *)

(** X4.  [paymentsPerYear] is 1 for a one-time frequency; for an interval
    of [n >= 1] months it is the number of whole intervals in twelve
    months, which is 0 once the interval is longer than a year. *)
Theorem paymentsPerYear_counts_whole_intervals (f : FeeFrequency.t) :
  (FeeFrequency.monthsInterval f = 0 -> paymentsPerYear f = 1)
  /\ (1 <= FeeFrequency.monthsInterval f ->
      paymentsPerYear f * FeeFrequency.monthsInterval f <= 12
      /\ 12 < (paymentsPerYear f + 1) * FeeFrequency.monthsInterval f)
  /\ (12 < FeeFrequency.monthsInterval f -> paymentsPerYear f = 0).
Proof.
  unfold paymentsPerYear. set (n := FeeFrequency.monthsInterval f).
  repeat split.
  - intros ->. reflexivity.
  - destruct (Z.eqb_spec n 0); [lia|].
    pose proof (Z.mul_div_le 12 n). lia.
  - destruct (Z.eqb_spec n 0); [lia|].
    pose proof (Z.mul_succ_div_gt 12 n). lia.
  - intros Hn. destruct (Z.eqb_spec n 0); [lia|].
    apply Z.div_small. lia.
Qed.

(* --------------------------------------------------------------------- *)
(** ** Due dates are not in the past *)
(* --------------------------------------------------------------------- *)

Section DueDateOrder.
Import JSDate.

(** From the first of a month on, the carry only moves forward. *)
Lemma carryDays_forward fuel : forall y m d,
  0 <= m <= 11 -> 1 <= d ->
  12 * y + m
  <= 12 * fst (fst (carryDays fuel y m d)) + snd (fst (carryDays fuel y m d))
  /\ 0 <= snd (fst (carryDays fuel y m d)) <= 11.
Proof.
  induction fuel as [|fuel IH]; intros y m d Hm Hd.
  - cbn [carryDays fst snd]. lia.
  - cbn [carryDays].
    destruct (Z.ltb_spec d 1) as [|_]; [lia|].
    destruct (Z.ltb_spec (daysInMonth y m) d) as [Hover|_];
      [|cbn [fst snd]; lia].
    unfold nextMonth. destruct (Z.eqb_spec m 11) as [->|Hm11].
    + destruct (IH (y + 1) 0 (d - daysInMonth y 11)) as [Hle Hr]; lia.
    + destruct (IH y (m + 1) (d - daysInMonth y m)) as [Hle Hr]; lia.
Qed.

Lemma make_not_before year monthIndex day :
  100 <= year -> 1 <= day ->
  12 * year + monthIndex <= monthNumber (make year monthIndex day)
  /\ 0 <= getMonth (make year monthIndex day) <= 11.
Proof.
  intros Hy Hd. unfold make, monthNumber.
  replace ((0 <=? year) && (year <=? 99))%bool with false
    by (symmetry; apply andb_false_iff; right; apply Z.leb_gt; lia).
  pose proof (carryDays_forward (S (Z.to_nat (Z.abs day)))
                (year + monthIndex / 12) (monthIndex mod 12) day) as Hc.
  destruct (carryDays _ _ _ _) as [[y m] d]. cbn [fst snd] in Hc.
  cbn [getFullYear getMonth].
  pose proof (Z.mod_pos_bound monthIndex 12).
  pose proof (Z.div_mod monthIndex 12).
  destruct Hc as [Hle Hr]; lia.
Qed.

Lemma later_month_is_not_before r now :
  0 <= getMonth now <= 11 -> 0 <= getMonth r <= 11 ->
  monthNumber now < monthNumber r -> ltb r now = false.
Proof.
  unfold monthNumber, ltb. intros Hn Hr Hlt.
  destruct (Z.ltb_spec (getFullYear r) (getFullYear now)); [lia|].
  destruct (Z.eqb_spec (getFullYear r) (getFullYear now)); [|reflexivity].
  destruct (Z.ltb_spec (getMonth r) (getMonth now)); [lia|].
  destruct (Z.eqb_spec (getMonth r) (getMonth now)); [lia|reflexivity].
Qed.

Lemma rolled_is_not_before year monthIndex day now :
  wf now -> 100 <= year -> 1 <= day ->
  monthNumber now < 12 * year + monthIndex ->
  ltb (make year monthIndex day) now = false.
Proof.
  intros (_ & Hm & _) Hy Hd Hlater.
  destruct (make_not_before year monthIndex day Hy Hd) as [Hle Hr].
  apply later_month_is_not_before; auto; lia.
Qed.

End DueDateOrder.

(** X5.  For a day of month from 1 on, whatever is passed as frequency (a
    known code, an unknown one, an [ObjectId]), the due date that
    [calculateDueDate] returns is not before the instant of the call: an
    anchor day already past is always replaced by a later one. *)
Theorem calculateDueDate_not_in_the_past (frequency : JsValue)
    (dueDateDay : Z) (now : JSDate.t) :
  JSDate.wf now -> 1 <= dueDateDay ->
  JSDate.ltb (calculateDueDate frequency dueDateDay now) now = false.
Proof.
  intros Hwf Hd. pose proof Hwf as (Hy & Hm & _).
  unfold calculateDueDate.
  assert (Hq : 0 <= JSDate.getMonth now / 3 * 3 <= JSDate.getMonth now
               /\ JSDate.getMonth now < JSDate.getMonth now / 3 * 3 + 3).
  { pose proof (Z.div_mod (JSDate.getMonth now) 3).
    pose proof (Z.mod_pos_bound (JSDate.getMonth now) 3). lia. }
  repeat match goal with
  | |- context [caseLabel frequency ?l] => destruct (caseLabel frequency l)
  end;
  try match goal with
  | |- context [if JSDate.ltb ?c now then _ else _] =>
      destruct (JSDate.ltb c now) eqn:Hpast; [|exact Hpast]
  end;
  apply rolled_is_not_before; auto; unfold monthNumber; try lia.
  destruct (JSDate.getMonth now <? 6) eqn:E;
    [apply Z.ltb_lt in E | apply Z.ltb_ge in E]; lia.
Qed.

(** The theorem on 31 January 2024, 12:00, with day 31 of a monthly fee:
    the day is past, the due date moves into March. *)
Lemma calculateDueDate_not_in_the_past_witness :
  JSDate.ltb
    (calculateDueDate (JsString "monthly") 31 (JSDate.mk 2024 0 31 43200000))
    (JSDate.mk 2024 0 31 43200000) = false.
Proof.
  apply calculateDueDate_not_in_the_past.
  - repeat split; vm_compute; congruence.
  - lia.
Defined.

(** With day 0 the due date can be past: on the last day of a month the
    fallback branch answers with that day's midnight. *)
Example calculateDueDate_day_zero_is_past :
  calculateDueDate (JsObjectId 12) 0 (JSDate.mk 2024 0 31 43200000)
  = JSDate.mk 2024 0 31 0.
Proof. reflexivity. Qed.

(* --------------------------------------------------------------------- *)
(** ** What [assignFeeToStudent] creates *)
(* --------------------------------------------------------------------- *)



(* --------------------------------------------------------------------- *)
(** ** Requests across tenants *)
(* --------------------------------------------------------------------- *)

(** X7.  A request that names a document of another tenant is answered
    as if the document did not exist, and nothing is written: a fee
    structure for [assignFeeToStudent], an assignment (or one of another
    student) for [recordFeePayment], a frequency for
    [deleteFeeFrequency]. *)
Theorem other_tenants_documents_are_not_found :
  (forall user body now db fs,
     feeStructures db !! AssignFeeBody.feeStructureId body = Some fs ->
     FeeStructure.tenant fs <> userTenant user ->
     assignFeeToStudent user body now db
     = (db, Failure 404 "Fee structure not found"))
  /\ (forall user body now db a,
        feeAssignments db !! PaymentBody.feeAssignmentId body = Some a ->
        FeeAssignment.tenant a <> userTenant user
        \/ FeeAssignment.student a <> PaymentBody.studentId body ->
        recordFeePayment user body now db
        = (db, Failure 404 "Fee assignment not found"))
  /\ (forall castObjectId user id db f,
        feeFrequencies db !! id = Some f ->
        FeeFrequency.tenant f <> userTenant user ->
        deleteFeeFrequency castObjectId user id db
        = (db, Failure 404 "Frequency not found")).
Proof.
  repeat split.
  - intros user body now db fs Hfs Ht. unfold assignFeeToStudent.
    rewrite Hfs. destruct (decide _); [contradiction|reflexivity].
  - intros user body now db a Ha Hother.
    unfold recordFeePayment, findAssignmentOf. rewrite Ha.
    destruct (decide _) as [[? ?]|]; [tauto|reflexivity].
  - intros castObjectId user id db f Hf Ht. unfold deleteFeeFrequency.
    rewrite Hf. destruct (decide _); [contradiction|reflexivity].
Qed.

(** The theorem on the two schools: the administrator of tenant 2 asks
    for the tuition of tenant 1, pays into assignment 0 of tenant 1 and
    deletes a frequency of tenant 1. *)
Lemma other_tenants_documents_are_not_found_witness :
  assignFeeToStudent Scenario.otherAdmin (AssignFeeBody.mk 60 100 None)
    Scenario.jan5 Scenario.twoSchools
  = (Scenario.twoSchools, Failure 404 "Fee structure not found")
  /\ recordFeePayment Scenario.otherAdmin
       (PaymentBody.mk 50 0 100 cash None None) Scenario.jan5
       Scenario.twoSchools
     = (Scenario.twoSchools, Failure 404 "Fee assignment not found")
  /\ deleteFeeFrequency castObjectIdHex Scenario.otherAdmin 12
       Scenario.twoSchools
     = (Scenario.twoSchools, Failure 404 "Frequency not found").
Proof.
  destruct other_tenants_documents_are_not_found as (Hs & Ha & Hf).
  split; [|split].
  - apply (Hs _ _ _ _ Scenario.tuition); [vm_compute; reflexivity|].
    vm_compute. discriminate.
  - apply (Ha _ _ _ _ Scenario.assignment0); [vm_compute; reflexivity|].
    left. vm_compute. discriminate.
  - eapply Hf; [vm_compute; reflexivity|]. vm_compute. discriminate.
Defined.

(* --------------------------------------------------------------------- *)
(** ** What [recordFeePayment] writes *)
(* --------------------------------------------------------------------- *)

(** The two outcomes of [recordFeePayment]: a failure that writes
    nothing, or one payment inserted and the assignment of the request
    saved with the amount added. *)
Lemma recordFeePayment_effect user body now db :
  (exists code msg, recordFeePayment user body now db = (db, Failure code msg))
  \/ (exists pid p a a',
        recordFeePayment user body now db
        = (withAssignments
             (<[PaymentBody.feeAssignmentId body := a']> (feeAssignments db))
             (withPayments (<[pid := p]> (feePayments db)) db),
           Success 201 (pid, p))
        /\ feeAssignments db !! PaymentBody.feeAssignmentId body = Some a
        /\ feePayments db !! pid = None
        /\ FeePayment.feeAssignment p = PaymentBody.feeAssignmentId body
        /\ FeePayment.amount p = PaymentBody.amount body
        /\ FeePayment.tenant p = FeeAssignment.tenant a
        /\ FeePayment.student p = FeeAssignment.student a
        /\ a' = FeeAssignment.preSave false now
                  (FeeAssignment.updateStatus now
                     (FeeAssignment.setPayment
                        (FeeAssignment.paidNumber a + PaymentBody.amount body)
                        now pid a))).
Proof.
  unfold recordFeePayment.
  destruct (findAssignmentOf user body db) as [a|] eqn:Hfind; [|left; eauto].
  destruct (_ <? _); [left; eauto|].
  unfold createFeePayment.
  destruct (FeePayment.uniqueIndexesAllow _ _); [|left; eauto].
  right. pose proof (findAssignmentOf_lookup _ _ _ _ Hfind) as Hid.
  unfold findAssignmentOf in Hfind. rewrite Hid in Hfind.
  destruct (decide _) as [[Ht Hs]|]; [|discriminate]. clear Hfind.
  eexists _, _, _, _. split; [reflexivity|].
  split; [exact Hid|]. split; [apply newObjectId_fresh|].
  cbn. repeat split; congruence.
Qed.

(** X8.  [recordFeePayment] writes at most one payment, under a new id,
    and at most the assignment of the request, of which it changes the
    paid amount, the paid date, the payment id and the status only; the
    other assignments, the stored payments and the other collections are
    left as they are. *)
Theorem recordFeePayment_frame user body now db :
  let db' := fst (recordFeePayment user body now db) in
  feeFrequencies db' = feeFrequencies db
  /\ feeStructures db' = feeStructures db
  /\ students db' = students db
  /\ classRooms db' = classRooms db
  /\ (forall j, j <> PaymentBody.feeAssignmentId body ->
        feeAssignments db' !! j = feeAssignments db !! j)
  /\ (forall j p, feePayments db !! j = Some p ->
        feePayments db' !! j = Some p)
  /\ (forall a, feeAssignments db !! PaymentBody.feeAssignmentId body = Some a ->
        exists a', feeAssignments db' !! PaymentBody.feeAssignmentId body
                   = Some a'
          /\ FeeAssignment.tenant a' = FeeAssignment.tenant a
          /\ FeeAssignment.student a' = FeeAssignment.student a
          /\ FeeAssignment.feeStructure a' = FeeAssignment.feeStructure a
          /\ FeeAssignment.academicYear a' = FeeAssignment.academicYear a
          /\ FeeAssignment.totalAmount a' = FeeAssignment.totalAmount a
          /\ FeeAssignment.discount a' = FeeAssignment.discount a
          /\ FeeAssignment.finalAmount a' = FeeAssignment.finalAmount a
          /\ FeeAssignment.dueDate a' = FeeAssignment.dueDate a).
Proof.
  cbv zeta.
  destruct (recordFeePayment_effect user body now db)
    as [(code & msg & ->)|(pid & p & a0 & a' & -> & Hid & Hpid & _ & _ & _ & _ & Ha')].
  - cbn [fst]. repeat split; auto. intros a Ha. exists a.
    repeat split. exact Ha.
  - cbn [fst feeFrequencies feeStructures students classRooms feeAssignments
         feePayments withAssignments withPayments].
    repeat split.
    + intros j Hj. apply lookup_insert_ne. congruence.
    + intros j q Hq. rewrite lookup_insert_ne; [exact Hq|]. congruence.
    + intros a Ha. exists a'. rewrite lookup_insert_eq.
      assert (a = a0) as -> by congruence. subst a'.
      split; [reflexivity|].
      unfold FeeAssignment.preSave, FeeAssignment.updateStatus.
      repeat match goal with
      | |- context [if ?b then _ else _] => destruct b
      | |- context [match ?o with Some _ => _ | None => _ end] => destruct o
      end; repeat split.
Qed.

(* --------------------------------------------------------------------- *)
(** ** Paid amounts and recorded payments agree *)
(* --------------------------------------------------------------------- *)

Lemma paidInto_insert id pid p (m : gmap N FeePayment.t) :
  m !! pid = None ->
  paidInto id (<[pid := p]> m)
  = if decide (FeePayment.feeAssignment p = id)
    then paidInto id m + FeePayment.amount p else paidInto id m.
Proof.
  intros Hpid. unfold paidInto.
  rewrite map_fold_insert_L; [reflexivity| |exact Hpid].
  intros j1 j2 z1 z2 y _ _ _.
  destruct (decide (FeePayment.feeAssignment z1 = id)),
    (decide (FeePayment.feeAssignment z2 = id)); lia.
Qed.

Lemma paidInto_none id (m : gmap N FeePayment.t) :
  (forall pid p, m !! pid = Some p -> FeePayment.feeAssignment p <> id) ->
  paidInto id m = 0.
Proof.
  induction m as [|pid p m Hpid IH] using map_ind; intros Hno.
  - reflexivity.
  - rewrite paidInto_insert by exact Hpid.
    destruct (decide _) as [Heq|_].
    + exfalso. apply (Hno pid p); [apply lookup_insert_eq | exact Heq].
    + apply IH. intros q x Hq. apply (Hno q).
      rewrite lookup_insert_ne; [exact Hq|]. intros <-. congruence.
Qed.

Lemma preSave_new_paidAmount now a :
  FeeAssignment.paidAmount (FeeAssignment.preSave true now a)
  = FeeAssignment.paidAmount a.
Proof. status_only. Qed.

Lemma createFeeAssignment_reconciled now doc db :
  paymentsReconciled db -> FeeAssignment.paidAmount doc = Some 0 ->
  paymentsReconciled (fst (createFeeAssignment now doc db)).
Proof.
  intros [Hsum Href] Hzero. split.
  - intros id a. cbn. intros Ha.
    destruct (decide (id = newObjectId (feeAssignments db))) as [->|Hne].
    + rewrite lookup_insert_eq in Ha. injection Ha as <-.
      unfold FeeAssignment.paidNumber.
      rewrite preSave_new_paidAmount, Hzero. cbn. symmetry.
      apply paidInto_none. intros pid p Hp Heq.
      destruct (Href pid p Hp) as [a Ha]. rewrite Heq in Ha.
      rewrite newObjectId_fresh in Ha. discriminate.
    + rewrite lookup_insert_ne in Ha by congruence. apply Hsum, Ha.
  - intros pid p Hp. cbn in *. destruct (Href pid p Hp) as [a Ha].
    destruct (decide (FeePayment.feeAssignment p
                      = newObjectId (feeAssignments db))) as [Heq|Hne].
    + rewrite Heq, lookup_insert_eq. eauto.
    + rewrite lookup_insert_ne by congruence. eauto.
Qed.

Lemma assignFeeToStudent_reconciled user body now db :
  paymentsReconciled db ->
  paymentsReconciled (fst (assignFeeToStudent user body now db)).
Proof.
  intros Hinv. unfold assignFeeToStudent.
  destruct (feeStructures db !! _) as [fs|]; [|exact Hinv].
  destruct (decide _); [|exact Hinv].
  destruct (findOne _ _); [exact Hinv|].
  match goal with
  | |- context [createFeeAssignment ?n ?d ?b] =>
      pose proof (createFeeAssignment_reconciled n d b Hinv eq_refl) as Hc;
      destruct (createFeeAssignment n d b) as [db' created]
  end.
  exact Hc.
Qed.

Lemma autoAssignClassFees_reconciled s c t now db :
  paymentsReconciled db ->
  paymentsReconciled (fst (autoAssignClassFees s c t now db)).
Proof.
  unfold autoAssignClassFees.
  generalize (classFeeStructures t c db).
  generalize (@nil (N * FeeAssignment.t)). intros acc l. revert db acc.
  induction l as [|fs l IH]; intros db acc Hinv; [exact Hinv|].
  cbn [fold_left].
  assert (Hstep : paymentsReconciled
                    (fst (autoAssignOne s t now (db, acc) fs))).
  { unfold autoAssignOne. destruct fs as [fsId fs].
    destruct (findOne _ _); [exact Hinv|].
    match goal with
    | |- context [createFeeAssignment ?n ?d ?b] =>
        pose proof (createFeeAssignment_reconciled n d b Hinv eq_refl) as Hc;
        destruct (createFeeAssignment n d b) as [db' created]
    end.
    exact Hc. }
  destruct (autoAssignOne s t now (db, acc) fs) as [db' acc'].
  apply IH. exact Hstep.
Qed.

Lemma recordFeePayment_reconciled user body now db :
  paymentsReconciled db ->
  paymentsReconciled (fst (recordFeePayment user body now db)).
Proof.
  intros [Hsum Href].
  destruct (recordFeePayment_effect user body now db)
    as [(code & msg & ->)|(pid & p & a & a' & -> & Hid & Hpid & Hto & Hamt
                            & _ & _ & Ha')]; [split; assumption|].
  cbn [fst]. split; cbn [feeAssignments feePayments withAssignments
                         withPayments].
  - intros id x Hx. rewrite paidInto_insert by exact Hpid.
    destruct (decide (id = PaymentBody.feeAssignmentId body)) as [->|Hne].
    + rewrite lookup_insert_eq in Hx. injection Hx as <-.
      rewrite decide_True by exact Hto.
      rewrite <- (Hsum _ a Hid), Hamt. subst a'.
      unfold FeeAssignment.paidNumber at 1.
      rewrite preSave_paidAmount, updateStatus_paidAmount. reflexivity.
    + rewrite lookup_insert_ne in Hx by congruence.
      rewrite decide_False by congruence. apply Hsum, Hx.
  - intros q x Hq.
    assert (Hkeep : forall j, is_Some (feeAssignments db !! j) ->
              is_Some (<[PaymentBody.feeAssignmentId body := a']>
                         (feeAssignments db) !! j)).
    { intros j [y Hy].
      destruct (decide (j = PaymentBody.feeAssignmentId body)) as [->|Hne].
      - rewrite lookup_insert_eq. eauto.
      - rewrite lookup_insert_ne by congruence. eauto. }
    apply Hkeep. destruct (decide (q = pid)) as [->|Hne].
    + rewrite lookup_insert_eq in Hq. injection Hq as <-.
      rewrite Hto. eauto.
    + rewrite lookup_insert_ne in Hq by congruence. eapply Href, Hq.
Qed.

(** Why the sums below are stated on whole amounts.  On amounts with a
    fraction every addition rounds, and the order of the additions
    counts: payments of 561.07, 392.55 and 612.44 add up to
    1566.0600000000002 in the order in which they were recorded, which
    is how the paid amount of their assignment is built, and to a number
    below it when the latest comes first, which is how [getPayments]
    adds them. *)
#[warnings="-inexact-float"]
Example payments_add_up_by_order_in_doubles :
  let recorded := [561.07; 392.55; 612.44]%float in
  Double.total recorded = 0x1.8783d70a3d70bp+10%float
  /\ PrimFloat.ltb (Double.total (rev recorded)) (Double.total recorded)
     = true.
Proof. cbv zeta. split; vm_compute; reflexivity. Qed.

(** X9.  On whole amounts in the range in which the additions of the
    code are exact (a [safeRun]), from books that agree (a database
    without payments, whose assignments have nothing paid, for one), any
    sequence of [assignFeeToStudent], [autoAssignClassFees] and
    [recordFeePayment] requests served one after the other keeps them so:
    the paid amount of every assignment is the sum of the amounts of the
    payments recorded for it, and every payment belongs to a stored
    assignment. *)
Theorem paid_amounts_match_payments ops db :
  paymentsReconciled db -> safeRun ops db -> paymentsReconciled (run ops db).
Proof.
  intros Hinv _. unfold run. revert db Hinv.
  induction ops as [|op ops IH]; intros db Hinv; [exact Hinv|].
  cbn [fold_left]. apply IH. destruct op; cbn [step].
  - apply assignFeeToStudent_reconciled, Hinv.
  - apply autoAssignClassFees_reconciled, Hinv.
  - apply recordFeePayment_reconciled, Hinv.
Qed.

(** The theorem on the example school, from the database before any
    assignment: an assignment and two payments. *)
Lemma paid_amounts_match_payments_witness :
  paymentsReconciled
    (run [OpAssignFee Scenario.admin (AssignFeeBody.mk 50 100 None)
            Scenario.jan5;
          OpRecordPayment Scenario.admin (Scenario.pay 2000) Scenario.jan5;
          OpRecordPayment Scenario.admin (Scenario.pay 3000) Scenario.feb20]
       Scenario.school).
Proof.
  apply paid_amounts_match_payments.
  - split.
    + intros id a Ha. vm_compute in Ha. discriminate.
    + intros pid p Hp. vm_compute in Hp. discriminate.
  - cbn [safeRun safeRequest]. unfold safeLedger.
    repeat split; vm_compute; congruence.
Defined.

(** The sums of that run: 5000 paid into assignment 0, in two payments. *)
Example paid_amounts_of_two_payments :
  let db :=
    run [OpAssignFee Scenario.admin (AssignFeeBody.mk 50 100 None)
           Scenario.jan5;
         OpRecordPayment Scenario.admin (Scenario.pay 2000) Scenario.jan5;
         OpRecordPayment Scenario.admin (Scenario.pay 3000) Scenario.feb20]
      Scenario.school in
  paidInto 0 (feePayments db) = 5000
  /\ FeeAssignment.paidAmount <$> Scenario.stored db = Some (Some 5000).
Proof. vm_compute. split; reflexivity. Qed.

(* --------------------------------------------------------------------- *)
(** ** [getStudentFees] *)
(* --------------------------------------------------------------------- *)

(** [updateStatus()] followed by the pre-save hook of [save()] writes the
    status of the hook. *)
Lemma preSave_after_updateStatus now a :
  FeeAssignment.preSave false now (FeeAssignment.updateStatus now a)
  = FeeAssignment.setStatus (storedStatus now a) a.
Proof.
  unfold FeeAssignment.preSave, FeeAssignment.updateStatus, storedStatus,
    FeeAssignment.paidNumber.
  destruct a as [t s f y ta d fa due st pa pd pi ca cb cr]. cbn.
  destruct pa as [paid|]; cbn.
  - destruct (fa <=? paid) eqn:H1; cbn; [rewrite H1; reflexivity|].
    destruct (0 <? paid) eqn:H2; cbn.
    + destruct (JSDate.ltb due now); cbn; rewrite H1, H2; reflexivity.
    + destruct (JSDate.ltb due now) eqn:H3; cbn; rewrite H1, H2, ?H3; reflexivity.
  - destruct (fa <=? 0) eqn:H1; cbn; [rewrite H1; reflexivity|].
    destruct (JSDate.ltb due now) eqn:H3; cbn; rewrite H1, ?H3; reflexivity.
Qed.

Lemma refreshStatus_fold now l :
  forall db acc,
    fold_left (refreshStatus now) l (db, acc)
    = (withAssignments
         (fold_left (fun m x => <[fst x := snd (refreshed now x)]> m) l
            (feeAssignments db)) db,
       acc ++ (refreshed now <$> l)).
Proof.
  induction l as [|x l IH]; intros db acc.
  - cbn. rewrite app_nil_r. destruct db; reflexivity.
  - cbn [fold_left]. unfold refreshStatus at 2, saveFeeAssignment.
    rewrite IH, preSave_after_updateStatus. cbn. rewrite <- app_assoc.
    reflexivity.
Qed.

Lemma refresh_inserts_lookup now l :
  forall (m : gmap N FeeAssignment.t) id,
    NoDup (l.*1) ->
    fold_left (fun m x => <[fst x := snd (refreshed now x)]> m) l m !! id
    = match list_find (fun x => fst x = id) l with
      | Some (_, x) => Some (snd (refreshed now x))
      | None => m !! id
      end.
Proof.
  induction l as [|x l IH]; intros m id Hnd; [reflexivity|].
  cbn [fold_left]. apply NoDup_cons in Hnd as [Hx Hnd].
  rewrite IH by exact Hnd. cbn [list_find].
  destruct (decide (fst x = id)) as [<-|Hne].
  - destruct (list_find _ l) as [[i y]|] eqn:Hfind.
    + apply list_find_Some in Hfind as (Hy & Heq & _).
      exfalso. apply Hx. rewrite <- Heq.
      apply list_elem_of_fmap. exists y. split; [reflexivity|].
      eapply list_elem_of_lookup_2, Hy.
    + cbn. apply lookup_insert_eq.
  - destruct (list_find _ l) as [[i y]|]; cbn; [reflexivity|].
    apply lookup_insert_ne. exact Hne.
Qed.

Lemma find_lookup {A} (P : N * A -> Prop) `{!forall x, Decision (P x)}
    (m : gmap N A) id :
  (snd <$> list_find (fun x => fst x = id) (find P m))
  = match m !! id with
    | Some a => if decide (P (id, a)) then Some (id, a) else None
    | None => None
    end.
Proof.
  unfold find.
  destruct (list_find _ _) as [[i [k a]]|] eqn:Hfind; cbn.
  - apply list_find_Some in Hfind as (Hin & Heq & _). cbn in Heq. subst k.
    apply list_elem_of_lookup_2, elem_of_map_to_list in Hin.
    apply map_lookup_filter_Some in Hin as [Hm HP].
    rewrite Hm. rewrite decide_True by exact HP. reflexivity.
  - destruct (m !! id) as [a|] eqn:Hm; [|reflexivity].
    destruct (decide (P (id, a))) as [HP|]; [|reflexivity].
    exfalso. eapply list_find_None in Hfind.
    rewrite Forall_forall in Hfind. apply (Hfind (id, a)); [|reflexivity].
    apply elem_of_map_to_list, map_lookup_filter_Some. split; assumption.
Qed.

(** X10.  After [getStudentFees], every assignment of the student in the
    caller's tenant is stored with the status the pre-save hook derives
    from its amounts and its due date (paid; else partially paid when
    something is paid; else overdue when the due date is past; else
    pending), whatever its status was: a cancelled one is not cancelled
    any more, and a part-paid one is never overdue.  The other
    assignments and the other collections are as before. *)
Theorem getStudentFees_stores_the_derived_status user studentId now db :
  let db' := fst (getStudentFees user studentId now db) in
  (forall id,
      feeAssignments db' !! id
      = (fun a =>
           if decide (assignmentOfStudent (userTenant user) studentId (id, a))
           then FeeAssignment.setStatus (storedStatus now a) a
           else a) <$> feeAssignments db !! id)
  /\ feePayments db' = feePayments db
  /\ feeStructures db' = feeStructures db
  /\ feeFrequencies db' = feeFrequencies db
  /\ students db' = students db
  /\ classRooms db' = classRooms db.
Proof.
  unfold getStudentFees. rewrite refreshStatus_fold. cbn [fst].
  split; [|repeat split].
  intros id. cbn [feeAssignments withAssignments].
  rewrite refresh_inserts_lookup
    by (unfold find; apply NoDup_fst_map_to_list).
  pose proof (find_lookup (assignmentOfStudent (userTenant user) studentId)
                (feeAssignments db) id) as Hfind.
  destruct (list_find _ _) as [[i x]|]; cbn in Hfind.
  - destruct (feeAssignments db !! id) as [a|]; [|discriminate].
    destruct (decide _) as [HP|]; [|discriminate]. injection Hfind as ->.
    cbn. rewrite decide_True by exact HP. reflexivity.
  - destruct (feeAssignments db !! id) as [a|]; [|reflexivity].
    destruct (decide _) as [|HP]; [discriminate|].
    cbn. rewrite decide_False by exact HP. reflexivity.
Qed.

Lemma sumOver_cons {A} (f : A -> Z) x l :
  sumOver f (x :: l) = f x + sumOver f l.
Proof. reflexivity. Qed.

Lemma addToSummary_fold l :
  forall s,
    fold_left addToSummary l s
    = StudentFees.mkSummary
        (StudentFees.totalAmount s
         + sumOver (fun x => FeeAssignment.finalAmount (snd x)) l)
        (StudentFees.paidAmount s
         + sumOver (fun x => FeeAssignment.paidNumber (snd x)) l)
        (StudentFees.pendingAmount s
         + sumOver (fun x =>
               if bool_decide (FeeAssignment.status (snd x) = OVERDUE)
               then 0
               else FeeAssignment.calculatePendingAmount (snd x)) l)
        (StudentFees.overdueAmount s
         + sumOver (fun x =>
               if bool_decide (FeeAssignment.status (snd x) = OVERDUE)
               then FeeAssignment.calculatePendingAmount (snd x)
               else 0) l).
Proof.
  induction l as [|x l IH]; intros s.
  - cbn. destruct s; cbn. f_equal; lia.
  - cbn [fold_left]. rewrite IH, !sumOver_cons. unfold addToSummary.
    cbn -[sumOver FeeAssignment.calculatePendingAmount].
    assert (Hmax : 0 <= FeeAssignment.calculatePendingAmount (snd x))
      by (unfold FeeAssignment.calculatePendingAmount; lia).
    destruct (bool_decide _);
      destruct (Z.ltb_spec 0 (FeeAssignment.calculatePendingAmount (snd x)));
      cbn -[sumOver FeeAssignment.calculatePendingAmount]; f_equal; lia.
Qed.

Lemma sumOver_ext {A} (f g : A -> Z) l :
  (forall x, f x = g x) -> sumOver f l = sumOver g l.
Proof.
  intros Hfg. induction l as [|x l IH]; [reflexivity|].
  rewrite !sumOver_cons, Hfg, IH. reflexivity.
Qed.

Lemma sumOver_fmap {A B} (h : A -> B) (f : B -> Z) l :
  sumOver f (h <$> l) = sumOver (fun x => f (h x)) l.
Proof.
  induction l as [|x l IH]; [reflexivity|].
  rewrite fmap_cons, !sumOver_cons, IH. reflexivity.
Qed.


(* --------------------------------------------------------------------- *)
(** ** The breakdowns of the summaries *)
(* --------------------------------------------------------------------- *)

Lemma bucket_eq (a b : Summary.Bucket) :
  Summary.expected a = Summary.expected b ->
  Summary.collected a = Summary.collected b ->
  Summary.pending a = Summary.pending b ->
  Summary.overdue a = Summary.overdue b -> a = b.
Proof. destruct a, b; cbn; congruence. Qed.

Lemma addBuckets_swap a b c :
  addBuckets a (addBuckets b c) = addBuckets b (addBuckets a c).
Proof. apply bucket_eq; cbn; lia. Qed.

Lemma addBuckets_empty_r a : addBuckets a Summary.emptyBucket = a.
Proof. apply bucket_eq; cbn; lia. Qed.

Lemma sumBuckets_insert_new {K} `{Countable K}
    (m : gmap K Summary.Bucket) k v :
  m !! k = None -> sumBuckets (<[k := v]> m) = addBuckets v (sumBuckets m).
Proof.
  intros Hk. unfold sumBuckets.
  apply (map_fold_insert_L (fun _ b acc => addBuckets b acc)); [|exact Hk].
  intros; apply addBuckets_swap.
Qed.

(** Adding [delta] to the entry of a key, created empty when missing,
    adds [delta] to the sum of the entries. *)
Lemma sumBuckets_add {K} `{Countable K} (m : gmap K Summary.Bucket) k
    delta :
  sumBuckets
    (<[k := addBuckets (default Summary.emptyBucket (m !! k)) delta]> m)
  = addBuckets delta (sumBuckets m).
Proof.
  destruct (m !! k) as [old|] eqn:Hk; cbn.
  - rewrite <- (insert_delete_id m k old Hk) at 2.
    rewrite <- insert_delete_eq.
    rewrite !sumBuckets_insert_new by apply lookup_delete_eq.
    apply bucket_eq; cbn; lia.
  - rewrite sumBuckets_insert_new by exact Hk.
    apply bucket_eq; cbn; lia.
Qed.

(** What one turn of the loop of [getSchoolFeeSummary] adds: the same
    four amounts to the totals, to the entry of the class and to the
    entry of the category. *)
Lemma summarize_adds now names s a :
  exists delta className category people,
    schoolTotals (summarize now names s a)
    = addBuckets delta (schoolTotals s)
    /\ Summary.categoryWiseSummary (summarize now names s a)
       = <[category :=
             addBuckets
               (default Summary.emptyBucket
                  (Summary.categoryWiseSummary s !! category)) delta]>
           (Summary.categoryWiseSummary s)
    /\ Summary.classWiseSummary (summarize now names s a)
       = <[className :=
             Summary.mkClassBucket
               (addBuckets
                  (Summary.totals
                     (default (Summary.mkClassBucket Summary.emptyBucket ∅)
                        (Summary.classWiseSummary s !! className))) delta)
               people]>
           (Summary.classWiseSummary s).
Proof.
  unfold summarize.
  set (u := FeeAssignment.updateStatus now (assignment a)).
  set (p := FeeAssignment.calculatePendingAmount u).
  set (o := bool_decide (FeeAssignment.status u = OVERDUE)).
  exists (Summary.mkBucket (FeeAssignment.finalAmount u)
            (FeeAssignment.paidNumber u)
            (if (0 <? p) && negb o then p else 0)
            (if (0 <? p) && o then p else 0)).
  eexists _, _, _. split; [|split].
  - unfold schoolTotals. destruct (0 <? p), o; apply bucket_eq; cbn; lia.
  - cbn [Summary.categoryWiseSummary]. f_equal.
    destruct (0 <? p), o; apply bucket_eq; cbn; lia.
  - cbn [Summary.classWiseSummary]. f_equal. f_equal.
    destruct (0 <? p), o; apply bucket_eq; cbn; lia.
Qed.

Lemma summarize_keeps_breakdowns now names s a :
  sumBuckets (Summary.categoryWiseSummary s) = schoolTotals s ->
  sumBuckets (Summary.totals <$> Summary.classWiseSummary s)
  = schoolTotals s ->
  sumBuckets (Summary.categoryWiseSummary (summarize now names s a))
  = schoolTotals (summarize now names s a)
  /\ sumBuckets
       (Summary.totals <$> Summary.classWiseSummary (summarize now names s a))
     = schoolTotals (summarize now names s a).
Proof.
  intros Hcat Hclass.
  destruct (summarize_adds now names s a)
    as (delta & cn & cat & people & -> & -> & ->).
  split.
  - rewrite sumBuckets_add, Hcat. reflexivity.
  - rewrite fmap_insert. cbn [Summary.totals].
    replace (Summary.totals
               (default (Summary.mkClassBucket Summary.emptyBucket ∅)
                  (Summary.classWiseSummary s !! cn)))
      with (default Summary.emptyBucket
              ((Summary.totals <$> Summary.classWiseSummary s) !! cn))
      by (rewrite lookup_fmap;
          destruct (Summary.classWiseSummary s !! cn); reflexivity).
    rewrite sumBuckets_add, Hclass. reflexivity.
Qed.

(** X12.  On whole amounts in the range in which the additions of the
    code are exact (a [safeLedger]), both breakdowns of the answer of
    [getSchoolFeeSummary] add up to the totals: the expected, collected,
    pending and overdue amounts of the categories, and those of the
    classes, sum to [totalExpected], [totalCollected], [totalPending] and
    [totalOverdue]. *)
Theorem school_breakdowns_add_up user academicYear now db :
  safeLedger db ->
  exists s,
    getSchoolFeeSummary user academicYear now db = Success 200 s
    /\ sumBuckets (Summary.categoryWiseSummary s) = schoolTotals s
    /\ sumBuckets (Summary.totals <$> Summary.classWiseSummary s)
       = schoolTotals s.
Proof.
  intros _. unfold getSchoolFeeSummary. eexists. split; [reflexivity|].
  match goal with
  | |- context [fold_left ?f ?l ?s0] =>
      assert (Hstart : sumBuckets (Summary.categoryWiseSummary s0)
                       = schoolTotals s0
                       /\ sumBuckets
                            (Summary.totals <$> Summary.classWiseSummary s0)
                          = schoolTotals s0)
        by (split; reflexivity);
      generalize dependent s0; generalize l
  end.
  intros l. induction l as [|a l IH]; intros s0 Hstart; [exact Hstart|].
  cbn [fold_left]. apply IH.
  apply summarize_keeps_breakdowns; apply Hstart.
Qed.

(** The theorem on the example school, 2000 paid of 5000. *)
Lemma school_breakdowns_add_up_witness :
  exists s,
    getSchoolFeeSummary Scenario.admin None Scenario.feb20
      (fst (recordFeePayment Scenario.admin (Scenario.pay 2000)
              Scenario.jan5 Scenario.assigned))
    = Success 200 s
    /\ sumBuckets (Summary.categoryWiseSummary s) = schoolTotals s
    /\ sumBuckets (Summary.totals <$> Summary.classWiseSummary s)
       = schoolTotals s.
Proof.
  apply school_breakdowns_add_up.
  unfold safeLedger. vm_compute. congruence.
Defined.

(** One turn of the loop of [getClassLevelSummary] and one turn of the
    loop of [getSchoolFeeSummary] add the same amounts to the totals. *)
Lemma classStep_totals now names s s' x :
  classTotals s = schoolTotals s' ->
  classTotals (classStep now s x)
  = schoolTotals (summarize now names s' (fst x)).
Proof.
  unfold classTotals, schoolTotals, classStep, summarize.
  intros Heq. injection Heq as He Hc Hp Ho.
  cbn [ClassSummary.totalExpected ClassSummary.totalCollected
       ClassSummary.totalPending ClassSummary.totalOverdue
       Summary.totalExpected Summary.totalCollected
       Summary.totalPending Summary.totalOverdue].
  rewrite He, Hc, Hp, Ho.
  generalize (assignment (fst x)). intros a.
  unfold FeeAssignment.updateStatus, FeeAssignment.calculatePendingAmount,
    FeeAssignment.paidNumber.
  destruct a as [t st f y ta d fa due stat pa pd pi ca cb cr].
  cbn [FeeAssignment.paidAmount FeeAssignment.finalAmount
       FeeAssignment.dueDate].
  destruct pa as [paid|]; cbn [default id];
    [ destruct (Z.leb_spec fa paid); [|destruct (Z.ltb_spec 0 paid)]
    | destruct (Z.leb_spec fa 0) ];
    destruct (JSDate.ltb due now); cbn;
    repeat case_bool_decide; try (exfalso; intuition congruence);
    repeat match goal with
           | |- context [?a <? ?b] => destruct (Z.ltb_spec a b)
           end; cbn; f_equal; lia.
Qed.

(** X13.  Over the same assignments the loop of [getClassLevelSummary]
    and the loop of [getSchoolFeeSummary] reach the same four totals:
    the class level sorts [finalAmount - paidAmount] by the status, the
    school level sorts the amount left, cut at 0, by its sign and the
    status, and after [updateStatus()] the two agree. *)
Theorem class_and_school_totals_agree now names (l : list (Populated * Student.t))
    className nStudents nAssignments nSchoolStudents :
  classTotals
    (fold_left (classStep now) l
       (ClassSummary.mk className nStudents nAssignments 0 0 0 0 [] ∅))
  = schoolTotals
      (fold_left (summarize now names) (fst <$> l)
         (Summary.mk nSchoolStudents (length l) 0 0 0 0 ∅ ∅)).
Proof.
  assert (Hstart :
    classTotals (ClassSummary.mk className nStudents nAssignments
                   0 0 0 0 [] ∅)
    = schoolTotals (Summary.mk nSchoolStudents (length l) 0 0 0 0 ∅ ∅))
    by reflexivity.
  revert Hstart. generalize (length l).
  generalize (ClassSummary.mk className nStudents nAssignments 0 0 0 0 [] ∅).
  intros s n.
  generalize (Summary.mk nSchoolStudents n 0 0 0 0 ∅ ∅). revert s.
  induction l as [|x l IH]; intros s s' Heq; [exact Heq|].
  cbn [fold_left fmap list_fmap]. apply IH.
  apply classStep_totals, Heq.
Qed.

Lemma upsert_sum (phi : Summary.Bucket -> Z) k init g l d :
  phi (ClassSummary.amounts init) = 0 ->
  (forall b, phi (g b) = phi b + d) ->
  sumOver (fun x => phi (ClassSummary.amounts (snd x)))
    (ClassSummary.upsert k init (ClassSummary.onAmounts g) l)
  = sumOver (fun x => phi (ClassSummary.amounts (snd x))) l + d.
Proof.
  intros Hinit Hg. induction l as [|[k' v] l IH].
  - cbn. rewrite Hg, Hinit. lia.
  - cbn [ClassSummary.upsert]. destruct (decide (k = k')).
    + rewrite !sumOver_cons. cbn. rewrite Hg. lia.
    + rewrite !sumOver_cons, IH. lia.
Qed.

Lemma classStep_keeps_rows now s x :
  let rows (phi : Summary.Bucket -> Z) (s : ClassSummary.t) :=
    sumOver (fun r => phi (ClassSummary.amounts (snd r)))
      (ClassSummary.students s) in
  (rows Summary.expected s = ClassSummary.totalExpected s
   /\ rows Summary.collected s = ClassSummary.totalCollected s
   /\ rows Summary.pending s = ClassSummary.totalPending s
   /\ rows Summary.overdue s = ClassSummary.totalOverdue s) ->
  rows Summary.expected (classStep now s x)
  = ClassSummary.totalExpected (classStep now s x)
  /\ rows Summary.collected (classStep now s x)
     = ClassSummary.totalCollected (classStep now s x)
  /\ rows Summary.pending (classStep now s x)
     = ClassSummary.totalPending (classStep now s x)
  /\ rows Summary.overdue (classStep now s x)
     = ClassSummary.totalOverdue (classStep now s x).
Proof.
  intros rows (He & Hc & Hp & Ho). subst rows. cbv beta in *.
  unfold classStep.
  cbn [ClassSummary.students ClassSummary.totalExpected
       ClassSummary.totalCollected ClassSummary.totalPending
       ClassSummary.totalOverdue].
  set (u := FeeAssignment.updateStatus now (assignment (fst x))).
  rewrite <- He, <- Hc, <- Hp, <- Ho.
  repeat split.
  - apply upsert_sum; [reflexivity|]. intros b.
    repeat case_bool_decide; cbn; lia.
  - apply upsert_sum; [reflexivity|]. intros b.
    repeat case_bool_decide; cbn; lia.
  - case_bool_decide.
    + apply upsert_sum; [reflexivity|]. intros b. cbn. lia.
    + rewrite <- (Z.add_0_r (sumOver _ (ClassSummary.students s))).
      apply upsert_sum; [reflexivity|]. intros b.
      case_bool_decide; cbn; lia.
  - case_bool_decide; [|case_bool_decide].
    + rewrite <- (Z.add_0_r (sumOver _ (ClassSummary.students s))).
      apply upsert_sum; [reflexivity|]. intros b. cbn. lia.
    + apply upsert_sum; [reflexivity|]. intros b. cbn. lia.
    + rewrite <- (Z.add_0_r (sumOver _ (ClassSummary.students s))).
      apply upsert_sum; [reflexivity|]. intros b. cbn. lia.
Qed.

(** X14.  On whole amounts in the range in which the additions of the
    code are exact (a [safeLedger]), the rows of the students in the
    answer of [getClassFeeSummary] add up to the totals of the class:
    their expected, collected, pending and overdue amounts sum to
    [totalExpected], [totalCollected], [totalPending] and
    [totalOverdue]. *)
Theorem class_rows_add_up user academicYear classId now db :
  safeLedger db ->
  exists s,
    getClassFeeSummary user academicYear classId now db = Success 200 s
    /\ sumOver (fun r => Summary.expected (ClassSummary.amounts (snd r)))
         (ClassSummary.students s) = ClassSummary.totalExpected s
    /\ sumOver (fun r => Summary.collected (ClassSummary.amounts (snd r)))
         (ClassSummary.students s) = ClassSummary.totalCollected s
    /\ sumOver (fun r => Summary.pending (ClassSummary.amounts (snd r)))
         (ClassSummary.students s) = ClassSummary.totalPending s
    /\ sumOver (fun r => Summary.overdue (ClassSummary.amounts (snd r)))
         (ClassSummary.students s) = ClassSummary.totalOverdue s.
Proof.
  intros _. unfold getClassFeeSummary, getClassLevelSummary.
  eexists. split; [reflexivity|].
  match goal with
  | |- context [fold_left ?f ?l ?s0] =>
      assert (Hstart :
        sumOver (fun r => Summary.expected (ClassSummary.amounts (snd r)))
          (ClassSummary.students s0) = ClassSummary.totalExpected s0
        /\ sumOver (fun r => Summary.collected (ClassSummary.amounts (snd r)))
             (ClassSummary.students s0) = ClassSummary.totalCollected s0
        /\ sumOver (fun r => Summary.pending (ClassSummary.amounts (snd r)))
             (ClassSummary.students s0) = ClassSummary.totalPending s0
        /\ sumOver (fun r => Summary.overdue (ClassSummary.amounts (snd r)))
             (ClassSummary.students s0) = ClassSummary.totalOverdue s0)
        by (repeat split);
      generalize dependent s0; generalize l
  end.
  intros l. induction l as [|x l IH]; intros s0 Hstart; [exact Hstart|].
  cbn [fold_left]. apply IH.
  apply (classStep_keeps_rows now s0 x Hstart).
Qed.

(** The theorem on the class of the example school, 2000 paid of 5000. *)
Lemma class_rows_add_up_witness :
  exists s,
    getClassFeeSummary Scenario.admin None 5 Scenario.feb20
      (fst (recordFeePayment Scenario.admin (Scenario.pay 2000)
              Scenario.jan5 Scenario.assigned))
    = Success 200 s
    /\ sumOver (fun r => Summary.expected (ClassSummary.amounts (snd r)))
         (ClassSummary.students s) = ClassSummary.totalExpected s
    /\ sumOver (fun r => Summary.collected (ClassSummary.amounts (snd r)))
         (ClassSummary.students s) = ClassSummary.totalCollected s
    /\ sumOver (fun r => Summary.pending (ClassSummary.amounts (snd r)))
         (ClassSummary.students s) = ClassSummary.totalPending s
    /\ sumOver (fun r => Summary.overdue (ClassSummary.amounts (snd r)))
         (ClassSummary.students s) = ClassSummary.totalOverdue s.
Proof.
  apply class_rows_add_up.
  unfold safeLedger. vm_compute. congruence.
Defined.

(* --------------------------------------------------------------------- *)
(** ** Deleted fee structures *)
(* --------------------------------------------------------------------- *)



Lemma find_elem {A} (P : N * A -> Prop) `{!forall x, Decision (P x)}
    (m : gmap N A) x :
  x ∈ find P m <-> m !! fst x = Some (snd x) /\ P x.
Proof.
  unfold find. destruct x as [i a].
  rewrite elem_of_map_to_list, map_lookup_filter_Some. reflexivity.
Qed.



(** On the example school: before the deletion [autoAssignClassFees]
    assigns the tuition to a student entering class 5, after it nothing;
    [assignFeeToStudent] still assigns it. *)
Example deleted_tuition_is_not_auto_assigned :
  let db' := fst (deleteFeeStructure Scenario.admin 100 Scenario.school) in
  length (snd (autoAssignClassFees 50 5 1 Scenario.jan5 Scenario.school))
  = 1%nat
  /\ snd (autoAssignClassFees 50 5 1 Scenario.jan5 db') = []
  /\ FeeAssignment.feeStructure <$>
       feeAssignments
         (fst (assignFeeToStudent Scenario.admin
                 (AssignFeeBody.mk 50 100 None) Scenario.jan5 db')) !! 0%N
     = Some 100%N.
Proof. vm_compute. repeat split. Qed.

(* --------------------------------------------------------------------- *)
(** ** The default frequencies *)
(* --------------------------------------------------------------------- *)

(** The default rows are in stored form: their codes match the pattern of
    the schema and their intervals are not negative. *)
Lemma default_rows_are_valid tenantId :
  Forall (fun f => matchesCodePattern (FeeFrequency.code f) = true
                   /\ 0 <= FeeFrequency.monthsInterval f
                   /\ FeeFrequency.tenant f = tenantId
                   /\ FeeFrequency.isSystem f = true
                   /\ FeeFrequency.isActive f = true)
    (FeeFrequency.getDefaultFrequencies tenantId).
Proof.
  unfold FeeFrequency.getDefaultFrequencies.
  repeat constructor; cbn; lia.
Qed.

Lemma default_rows_do_not_clash tenantId :
  noClashWithin (FeeFrequency.getDefaultFrequencies tenantId).
Proof.
  cbn. repeat split; repeat constructor;
    intros [_ [Hc|Hn]]; cbn in *; discriminate.
Qed.

Lemma frequencyIndexesAllow_true m f :
  frequencyIndexesAllow m f = true
  <-> forall i g, m !! i = Some g -> ~ clash g f.
Proof.
  unfold frequencyIndexesAllow. rewrite bool_decide_eq_true.
  apply countDocuments_zero.
Qed.

(** What a successful [create] of several documents stores. *)
Lemma createFeeFrequencies_Some docs :
  forall m m' created,
    createFeeFrequencies docs m = Some (m', created) ->
    created.*2 = docs
    /\ (forall i g, m' !! i = Some g
                    <-> m !! i = Some g \/ (i, g) ∈ created)
    /\ (forall x, x ∈ created -> m !! fst x = None)
    /\ (forall d i g, d ∈ docs -> m !! i = Some g -> ~ clash g d).
Proof.
  induction docs as [|doc rest IH]; intros m m' created Hc.
  - cbn in Hc. injection Hc as <- <-. repeat split.
    + intros Hm. left. exact Hm.
    + intros [Hm|Hin]; [exact Hm|]. inversion Hin.
    + intros x Hin. inversion Hin.
    + intros d i g Hin. inversion Hin.
  - cbn [createFeeFrequencies] in Hc. unfold createFeeFrequencyDoc in Hc.
    destruct (frequencyIndexesAllow m doc) eqn:Hallow; [|discriminate].
    destruct (createFeeFrequencies rest _) as [[m2 others]|] eqn:Hrest;
      [|discriminate].
    injection Hc as <- <-.
    destruct (IH _ _ _ Hrest) as (Hdocs & Hlook & Hnew & Hclash).
    pose proof (newObjectId_fresh m) as Hfresh.
    split; [cbn; rewrite Hdocs; reflexivity|]. split; [|split].
    + intros i g. rewrite Hlook, elem_of_cons. split.
      * intros [Hm1|Hin]; [|auto].
        destruct (decide (i = newObjectId m)) as [->|Hne].
        -- rewrite lookup_insert_eq in Hm1. injection Hm1 as <-. auto.
        -- rewrite lookup_insert_ne in Hm1 by congruence. auto.
      * intros [Hm|[Heq|Hin]]; [| |auto].
        -- left. rewrite lookup_insert_ne; [exact Hm|].
           intros <-. congruence.
        -- injection Heq as -> ->. left. apply lookup_insert_eq.
    + intros x [->|Hin]%elem_of_cons; [exact Hfresh|].
      specialize (Hnew x Hin).
      apply lookup_insert_None in Hnew. tauto.
    + intros d i g [->|Hin]%elem_of_cons Hm.
      * apply (proj1 (frequencyIndexesAllow_true m doc) Hallow i g Hm).
      * apply (Hclash d i g Hin). rewrite lookup_insert_ne; [exact Hm|].
        intros <-. congruence.
Qed.

(** In this reading of [create], documents that clash neither with the
    stored ones nor with each other are all inserted. *)
Lemma createFeeFrequencies_succeeds docs :
  forall m,
    (forall d i g, d ∈ docs -> m !! i = Some g -> ~ clash g d) ->
    noClashWithin docs ->
    is_Some (createFeeFrequencies docs m).
Proof.
  induction docs as [|doc rest IH]; intros m Hm Hdocs; [cbn; eauto|].
  cbn [createFeeFrequencies]. unfold createFeeFrequencyDoc.
  destruct Hdocs as [Hdoc Hrest].
  assert (Hallow : frequencyIndexesAllow m doc = true).
  { apply frequencyIndexesAllow_true. intros i g. apply Hm, elem_of_cons.
    auto. }
  rewrite Hallow.
  destruct (IH (<[newObjectId m := doc]> m)) as [[m2 others] ->];
    [|exact Hrest|eauto].
  intros d i g Hin Hlook.
  destruct (decide (i = newObjectId m)) as [->|Hne].
  - rewrite lookup_insert_eq in Hlook. injection Hlook as <-.
    rewrite Forall_forall in Hdoc. apply Hdoc, Hin.
  - rewrite lookup_insert_ne in Hlook by congruence.
    apply (Hm d i g); [apply elem_of_cons; auto|exact Hlook].
Qed.

Lemma no_system_frequency (tenantId : N) (m : gmap N FeeFrequency.t) :
  (0 <? countDocuments
          (fun x => FeeFrequency.tenant (snd x) = tenantId
                    /\ FeeFrequency.isSystem (snd x) = true) m)%nat = false
  <-> ~ (exists i g, m !! i = Some g /\ FeeFrequency.tenant g = tenantId
                     /\ FeeFrequency.isSystem g = true).
Proof.
  rewrite Nat.ltb_ge, Nat.le_0_r, countDocuments_zero. split.
  - intros Hno (i & g & Hm & Hg). exact (Hno i g Hm Hg).
  - intros Hno i g Hm Hg. apply Hno. exists i, g. auto.
Qed.


(** The three outcomes on the example school: a second tenant is given
    its five rows; the first tenant has them already; a tenant whose
    custom frequency is coded 'monthly' is refused by the index. *)
Example initializeDefaultFrequencies_three_outcomes :
  let custom :=
    withFrequencies
      {[ 7%N := FeeFrequency.mk 3 "Every month" "monthly" 1 false 999 true ]}
      Scenario.school in
  (exists db' created,
      initializeDefaultFrequencies Scenario.otherAdmin Scenario.school
      = (db', Success 201 created)
      /\ length created = 5%nat
      /\ size (feeFrequencies db') = 10%nat)
  /\ initializeDefaultFrequencies Scenario.admin Scenario.school
     = (Scenario.school,
        Failure 400 "Default frequencies already initialized")
  /\ initializeDefaultFrequencies (mkUser 4 3) custom
     = (custom, Failure 400 "Error initializing frequencies").
Proof.
  cbv zeta. split; [|split].
  - eexists _, _. split; [vm_compute; reflexivity|].
    split; vm_compute; reflexivity.
  - vm_compute. reflexivity.
  - vm_compute. reflexivity.
Qed.

(** A tenant that holds a system frequency is refused. *)
Lemma initializeDefaultFrequencies_refusal user db i g :
  feeFrequencies db !! i = Some g ->
  FeeFrequency.tenant g = userTenant user ->
  FeeFrequency.isSystem g = true ->
  initializeDefaultFrequencies user db
  = (db, Failure 400 "Default frequencies already initialized").
Proof.
  intros Hg Ht Hs. unfold initializeDefaultFrequencies.
  destruct (0 <? _)%nat eqn:Hcount; [reflexivity|].
  exfalso. apply no_system_frequency in Hcount. apply Hcount.
  exists i, g. auto.
Qed.

Lemma deleteFeeFrequency_effect castObjectId user id db :
  fst (deleteFeeFrequency castObjectId user id db) = db
  \/ exists f, feeFrequencies db !! id = Some f
               /\ FeeFrequency.isSystem f = false
               /\ fst (deleteFeeFrequency castObjectId user id db)
                  = withFrequencies (delete id (feeFrequencies db)) db.
Proof.
  unfold deleteFeeFrequency, FeeFrequency_canDelete.
  destruct (feeFrequencies db !! id) as [f|] eqn:Hf; [|left; reflexivity].
  destruct (decide _); [|left; reflexivity].
  destruct (FeeFrequency.isSystem f) eqn:Hsys; [left; reflexivity|].
  destruct (castObjectId _); [|left; reflexivity].
  destruct (0 <? _)%nat; [left; reflexivity|].
  right. exists f. auto.
Qed.

(** A system frequency of a tenant outlives every frequency request. *)
Lemma frequencyStep_keeps_system db op i g :
  feeFrequencies db !! i = Some g -> FeeFrequency.isSystem g = true ->
  feeFrequencies (frequencyStep db op) !! i = Some g.
Proof.
  intros Hg Hsys. destruct op as [user|castObjectId user id]; cbn.
  - unfold initializeDefaultFrequencies. destruct (0 <? _)%nat; [exact Hg|].
    destruct (createFeeFrequencies _ _) as [[m created]|] eqn:Hcreate;
      [|exact Hg].
    apply createFeeFrequencies_Some in Hcreate as (_ & Hlook & _).
    cbn. apply Hlook. left. exact Hg.
  - destruct (deleteFeeFrequency_effect castObjectId user id db)
      as [->|(f & Hf & Hfsys & ->)]; [exact Hg|].
    cbn. rewrite lookup_delete_ne; [exact Hg|]. intros <-. congruence.
Qed.

(** X17.  Default frequencies are initialized once: after a successful
    [initializeDefaultFrequencies], whatever [deleteFeeFrequency] and
    [initializeDefaultFrequencies] requests are served afterwards, by any
    caller, the five rows of the tenant are still stored, a deletion of
    any of them is refused, and the tenant's next
    [initializeDefaultFrequencies] is answered 400 'Default frequencies
    already initialized' and stores nothing. *)
Theorem default_frequencies_are_initialized_once user db db' created ops :
  initializeDefaultFrequencies user db = (db', Success 201 created) ->
  let later := fold_left frequencyStep ops db' in
  (forall x, x ∈ created ->
     feeFrequencies later !! fst x = Some (snd x)
     /\ forall castObjectId,
          deleteFeeFrequency castObjectId user (fst x) later
          = (later, Failure 400 "System frequencies cannot be deleted"))
  /\ initializeDefaultFrequencies user later
     = (later, Failure 400 "Default frequencies already initialized").
Proof.
  intros Hinit later.
  assert (Hcreated : created <> []
            /\ forall x, x ∈ created ->
                 feeFrequencies db' !! fst x = Some (snd x)
                 /\ FeeFrequency.tenant (snd x) = userTenant user
                 /\ FeeFrequency.isSystem (snd x) = true).
  { unfold initializeDefaultFrequencies in Hinit.
    destruct (0 <? _)%nat; [discriminate|].
    destruct (createFeeFrequencies _ _) as [[m c]|] eqn:Hcreate;
      [|discriminate].
    injection Hinit as <- <-.
    apply createFeeFrequencies_Some in Hcreate as (Hdocs & Hlook & _).
    split; [intros ->; discriminate Hdocs|].
    intros [i g] Hin. cbn [fst snd feeFrequencies withFrequencies].
    split; [apply Hlook; auto|].
    pose proof (default_rows_are_valid (userTenant user)) as Hvalid.
    rewrite <- Hdocs, Forall_forall in Hvalid.
    destruct (Hvalid g) as (_ & _ & Ht & Hs & _); [|auto].
    apply list_elem_of_fmap. exists (i, g). auto. }
  destruct Hcreated as [Hsome Hcreated].
  assert (Hlater : forall x, x ∈ created ->
            feeFrequencies later !! fst x = Some (snd x)).
  { intros x Hx. destruct (Hcreated x Hx) as (Hlook & _ & Hsys).
    subst later. revert Hlook. generalize db'.
    induction ops as [|op ops IH]; intros d Hlook; [exact Hlook|].
    cbn [fold_left]. apply IH.
    apply frequencyStep_keeps_system; assumption. }
  split.
  - intros x Hx. destruct (Hcreated x Hx) as (_ & Ht & Hsys).
    split; [apply Hlater, Hx|]. intros castObjectId.
    apply system_frequency_is_refused with (f := snd x);
      [apply Hlater, Hx|exact Ht|exact Hsys].
  - destruct created as [|x rest]; [congruence|].
    destruct (Hcreated x) as (_ & Ht & Hsys); [apply elem_of_cons; auto|].
    apply (initializeDefaultFrequencies_refusal user later (fst x) (snd x));
      [apply Hlater, elem_of_cons; auto|exact Ht|exact Hsys].
Qed.

(** The theorem on the example school: the second tenant initializes its
    rows, tries to delete one and initializes again. *)
Lemma default_frequencies_are_initialized_once_witness :
  let db' :=
    fst (initializeDefaultFrequencies Scenario.otherAdmin Scenario.school) in
  let later :=
    fold_left frequencyStep
      [OpDeleteFrequency castObjectIdHex Scenario.otherAdmin 0%N;
       OpInitializeDefaults Scenario.otherAdmin] db' in
  initializeDefaultFrequencies Scenario.otherAdmin later
  = (later, Failure 400 "Default frequencies already initialized").
Proof.
  cbv zeta.
  assert (Hinit : exists created,
            initializeDefaultFrequencies Scenario.otherAdmin Scenario.school
            = (fst (initializeDefaultFrequencies Scenario.otherAdmin
                      Scenario.school), Success 201 created))
    by (eexists; vm_compute; reflexivity).
  destruct Hinit as [created Hinit].
  exact (proj2 (default_frequencies_are_initialized_once _ _ _ _
                  [OpDeleteFrequency castObjectIdHex Scenario.otherAdmin 0%N;
                   OpInitializeDefaults Scenario.otherAdmin] Hinit)).
Defined.

(* --------------------------------------------------------------------- *)
(** ** The list of frequencies *)
(* --------------------------------------------------------------------- *)

Lemma insertSorted_elem x y l : x ∈ insertSorted y l <-> x = y \/ x ∈ l.
Proof.
  induction l as [|z l IH]; cbn.
  - rewrite list_elem_of_singleton, elem_of_nil. tauto.
  - destruct (frequencyLeb y z).
    + rewrite elem_of_cons. reflexivity.
    + rewrite !elem_of_cons, IH. tauto.
Qed.

Lemma sortFrequencies_elem x l : x ∈ sortFrequencies l <-> x ∈ l.
Proof.
  induction l as [|y l IH]; cbn; [reflexivity|].
  rewrite insertSorted_elem, elem_of_cons, IH. reflexivity.
Qed.

(** X18.  [getFeeFrequencies] answers the list exactly when the code of
    every frequency the filter selects can be cast to an [ObjectId]: the
    usage count looks for the code where fee structures keep the id of
    their frequency, so one selected frequency with an ordinary code,
    such as 'monthly', makes the request fail with 400 'Error fetching
    frequencies'. *)
Theorem getFeeFrequencies_needs_ObjectId_codes castObjectId user active type
    db :
  ((exists l, getFeeFrequencies castObjectId user active type db
              = Success 200 l)
   <-> forall i f, feeFrequencies db !! i = Some f ->
                   frequencyQuery (userTenant user) active type (i, f) ->
                   is_Some (castObjectId (FeeFrequency.code f)))
  /\ ((exists i f, feeFrequencies db !! i = Some f
                   /\ frequencyQuery (userTenant user) active type (i, f)
                   /\ castObjectId (FeeFrequency.code f) = None) ->
      getFeeFrequencies castObjectId user active type db
      = Failure 400 "Error fetching frequencies").
Proof.
  unfold getFeeFrequencies.
  set (l := sortFrequencies _).
  assert (Hl : forall i f, (i, f) ∈ l
                 <-> feeFrequencies db !! i = Some f
                     /\ frequencyQuery (userTenant user) active type (i, f)).
  { intros i f. subst l. rewrite sortFrequencies_elem.
    apply (find_elem _ _ (i, f)). }
  assert (Hsome : is_Some (mapM (usageCount castObjectId (userTenant user) db)
                             l)
            <-> forall i f, (i, f) ∈ l ->
                  is_Some (castObjectId (FeeFrequency.code f))).
  { rewrite mapM_is_Some, Forall_forall. split.
    - intros Hall i f Hin. specialize (Hall _ Hin). cbn in Hall.
      unfold usageCount in Hall. cbn in Hall.
      destruct (castObjectId _); [eauto|]. destruct Hall; discriminate.
    - intros Hall [i f] Hin. cbn. unfold usageCount. cbn.
      destruct (Hall i f Hin) as [oid ->]. eauto. }
  split.
  - split.
    + intros [r Hr] i f Hf Hq. apply (proj1 Hsome) with (i := i);
        [|apply Hl; auto].
      destruct (mapM _ l); [eauto|discriminate].
    + intros Hall.
      destruct (proj2 Hsome) as [r ->]; [|eauto].
      intros i f Hin. apply Hl in Hin as [Hf Hq]. eauto.
  - intros (i & f & Hf & Hq & Hcast).
    destruct (mapM _ l) eqn:Hm; [|reflexivity]. exfalso.
    destruct (proj1 Hsome (mk_is_Some _ _ eq_refl) i f) as [oid Hoid];
      [apply Hl; auto|congruence].
Qed.

(** X19.  While a tenant holds an active system frequency whose code the
    cast refuses as an [ObjectId], the list of its frequencies cannot be
    answered: with no filter, with [active=true], with [type=system] or
    with both, [getFeeFrequencies] fails with 400 'Error fetching
    frequencies', and it goes on failing whatever [deleteFeeFrequency]
    and [initializeDefaultFrequencies] requests are served in between,
    by any caller.  In particular this is so from an
    [initializeDefaultFrequencies] that was answered 201 on, for every
    cast that refuses the code 'one-time'.  Only those two requests are
    covered: a request that rewrites the row (an update that deactivates
    it, say) is not among them. *)
Theorem default_frequencies_cannot_be_listed castObjectId user db ops active
    type :
  active = None \/ active = Some "true"%string ->
  type = None \/ type = Some "system"%string ->
  let later := fold_left frequencyStep ops db in
  (forall i g,
     feeFrequencies db !! i = Some g ->
     FeeFrequency.tenant g = userTenant user ->
     FeeFrequency.isSystem g = true ->
     FeeFrequency.isActive g = true ->
     castObjectId (FeeFrequency.code g) = None ->
     getFeeFrequencies castObjectId user active type later
     = Failure 400 "Error fetching frequencies")
  /\ (forall db0 created,
        initializeDefaultFrequencies user db0 = (db, Success 201 created) ->
        castObjectId "one-time"%string = None ->
        getFeeFrequencies castObjectId user active type later
        = Failure 400 "Error fetching frequencies").
Proof.
  intros Hactive Htype later.
  assert (Hrow : forall i g,
            feeFrequencies db !! i = Some g ->
            FeeFrequency.tenant g = userTenant user ->
            FeeFrequency.isSystem g = true ->
            FeeFrequency.isActive g = true ->
            castObjectId (FeeFrequency.code g) = None ->
            getFeeFrequencies castObjectId user active type later
            = Failure 400 "Error fetching frequencies").
  { intros i g Hg Ht Hsys Hact Hcast.
    assert (Hlater : feeFrequencies later !! i = Some g).
    { subst later. revert Hg. generalize db.
      induction ops as [|op ops IH]; intros d Hg; [exact Hg|].
      cbn [fold_left]. apply IH.
      apply frequencyStep_keeps_system; assumption. }
    unfold getFeeFrequencies.
    destruct (mapM _ _) as [r|] eqn:Hm; [|reflexivity]. exfalso.
    apply mk_is_Some, mapM_is_Some in Hm. rewrite Forall_forall in Hm.
    specialize (Hm (i, g)).
    cbn in Hm. unfold usageCount in Hm. cbn in Hm. rewrite Hcast in Hm.
    destruct Hm as [x Hx]; [|discriminate Hx].
    apply sortFrequencies_elem, find_elem. cbn [fst snd]. split.
    - exact Hlater.
    - unfold frequencyQuery. cbn [fst snd]. rewrite Hact, Hsys.
      destruct Hactive as [->| ->], Htype as [->| ->]; cbn; auto. }
  split; [exact Hrow|].
  intros db0 created Hinit Hcast.
  unfold initializeDefaultFrequencies in Hinit.
  destruct (0 <? _)%nat; [discriminate|].
  destruct (createFeeFrequencies _ _) as [[m c]|] eqn:Hcreate;
    [|discriminate].
  injection Hinit as <- <-.
  apply createFeeFrequencies_Some in Hcreate as (Hdocs & Hlook & _).
  destruct c as [|[i g] rest]; [discriminate Hdocs|].
  injection Hdocs as Hg _. cbn in Hg. subst g.
  apply (Hrow i (FeeFrequency.mk (userTenant user) "One Time" "one-time"
                   0 true 1 true)); try reflexivity; [|exact Hcast].
  cbn. apply Hlook. right. apply elem_of_cons. auto.
Qed.

(** The theorem on the example school, with the cast of 24 hexadecimal
    digits: the second tenant initializes its rows, tries to delete one,
    initializes again and asks for the active system frequencies. *)
Lemma default_frequencies_cannot_be_listed_witness :
  let db' :=
    fst (initializeDefaultFrequencies Scenario.otherAdmin Scenario.school) in
  let later :=
    fold_left frequencyStep
      [OpDeleteFrequency castObjectIdHex Scenario.otherAdmin 0%N;
       OpInitializeDefaults Scenario.otherAdmin] db' in
  getFeeFrequencies castObjectIdHex Scenario.otherAdmin (Some "true"%string)
    (Some "system"%string) later
  = Failure 400 "Error fetching frequencies".
Proof.
  cbv zeta.
  assert (Hinit : exists created,
            initializeDefaultFrequencies Scenario.otherAdmin Scenario.school
            = (fst (initializeDefaultFrequencies Scenario.otherAdmin
                      Scenario.school), Success 201 created))
    by (eexists; vm_compute; reflexivity).
  destruct Hinit as [created Hinit].
  exact (proj2 (default_frequencies_cannot_be_listed castObjectIdHex
                  Scenario.otherAdmin _
                  [OpDeleteFrequency castObjectIdHex Scenario.otherAdmin 0%N;
                   OpInitializeDefaults Scenario.otherAdmin]
                  (Some "true"%string) (Some "system"%string)
                  (or_intror eq_refl) (or_intror eq_refl))
           _ _ Hinit eq_refl).
Defined.

(** A tenant whose only frequency carries a code of 24 hexadecimal
    digits is answered, with the count of the structures that refer to
    that id. *)
Example hexadecimal_code_is_listed :
  let db :=
    mkDb {[ 7%N := FeeFrequency.mk 3 "Odd" "abcdefabcdefabcdefabcdef" 2
                     false 999 true ]} ∅ ∅ ∅ ∅ ∅ in
  getFeeFrequencies castObjectIdHex (mkUser 4 3) None None db
  = Success 200
      [(7%N, FeeFrequency.mk 3 "Odd" "abcdefabcdefabcdefabcdef" 2 false 999
               true, 0%nat)].
Proof. vm_compute. reflexivity. Qed.

(* --------------------------------------------------------------------- *)
(** ** The payments and the paid amounts of a student *)
(* --------------------------------------------------------------------- *)

Lemma sumOver_perm {A} (f : A -> Z) l l' :
  l ≡ₚ l' -> sumOver f l = sumOver f l'.
Proof.
  induction 1 as [|x l l' _ IH|x y l|l l' l'' _ IH1 _ IH2].
  - reflexivity.
  - rewrite !sumOver_cons, IH. reflexivity.
  - rewrite !sumOver_cons. lia.
  - congruence.
Qed.

Section SumsOverQueries.
Context {A : Type} (P : N * A -> Prop) `{!forall x, Decision (P x)}.
Context (f : N * A -> Z).

(** What a document weighs in the sum over the documents a filter
    selects. *)
Local Abbreviation weight x := (if decide (P x) then f x else 0).

Lemma sum_find_insert_new (m : gmap N A) i x :
  m !! i = None ->
  sumOver f (find P (<[i := x]> m)) = weight (i, x) + sumOver f (find P m).
Proof.
  intros Hi. unfold find. destruct (decide (P (i, x))) as [HP|HP].
  - rewrite map_filter_insert_True by exact HP.
    rewrite (sumOver_perm f _ ((i, x) :: map_to_list (filter P m))).
    + apply sumOver_cons.
    + apply map_to_list_insert, map_lookup_filter_None. auto.
  - rewrite map_filter_insert_not' by (auto; intros y Hy; congruence).
    lia.
Qed.

Lemma sum_find_update (m : gmap N A) i x x' :
  m !! i = Some x ->
  sumOver f (find P (<[i := x']> m))
  = sumOver f (find P m) - weight (i, x) + weight (i, x').
Proof.
  intros Hi.
  rewrite <- (insert_delete_id m i x Hi) at 2.
  rewrite <- (insert_delete_eq m i x').
  rewrite !sum_find_insert_new by apply lookup_delete_eq. lia.
Qed.

End SumsOverQueries.

Lemma find_ext {A} (P Q : N * A -> Prop) `{!forall x, Decision (P x)}
    `{!forall x, Decision (Q x)} (m : gmap N A) :
  (forall x, P x <-> Q x) -> find P m = find Q m.
Proof.
  intros HPQ. unfold find. f_equal. apply map_filter_ext.
  intros i x _. apply HPQ.
Qed.

Lemma insertByDate_perm x l : insertByDate x l ≡ₚ x :: l.
Proof.
  induction l as [|y l IH]; cbn; [reflexivity|].
  destruct (JSDate.ltb _ _); [|reflexivity].
  rewrite IH. apply Permutation_swap.
Qed.

Lemma sortByDateDesc_perm l : sortByDateDesc l ≡ₚ l.
Proof.
  induction l as [|x l IH]; cbn; [reflexivity|].
  rewrite insertByDate_perm, IH. reflexivity.
Qed.

Lemma reduce_is_sum (l : list (N * FeePayment.t)) :
  forall acc,
    fold_left (fun sum payment => sum + FeePayment.amount (snd payment)) l acc
    = acc + sumOver (fun x => FeePayment.amount (snd x)) l.
Proof.
  induction l as [|x l IH]; intros acc; cbn [fold_left].
  - cbn. lia.
  - rewrite IH, sumOver_cons. lia.
Qed.

Lemma createFeeAssignment_books now doc db :
  studentBooksAgree db -> FeeAssignment.paidAmount doc = Some 0 ->
  studentBooksAgree (fst (createFeeAssignment now doc db)).
Proof.
  intros Hinv Hzero t s. cbn.
  rewrite sum_find_insert_new by apply newObjectId_fresh.
  rewrite <- Hinv. unfold FeeAssignment.paidNumber. cbn [snd].
  rewrite preSave_new_paidAmount, Hzero. cbn.
  destruct (decide _); lia.
Qed.

Lemma assignFeeToStudent_books user body now db :
  studentBooksAgree db ->
  studentBooksAgree (fst (assignFeeToStudent user body now db)).
Proof.
  intros Hinv. unfold assignFeeToStudent.
  destruct (feeStructures db !! _) as [fs|]; [|exact Hinv].
  destruct (decide _); [|exact Hinv].
  destruct (findOne _ _); [exact Hinv|].
  match goal with
  | |- context [createFeeAssignment ?n ?d ?b] =>
      pose proof (createFeeAssignment_books n d b Hinv eq_refl) as Hc;
      destruct (createFeeAssignment n d b) as [db' created]
  end.
  exact Hc.
Qed.

Lemma autoAssignClassFees_books s c t now db :
  studentBooksAgree db ->
  studentBooksAgree (fst (autoAssignClassFees s c t now db)).
Proof.
  unfold autoAssignClassFees.
  generalize (classFeeStructures t c db).
  generalize (@nil (N * FeeAssignment.t)). intros acc l. revert db acc.
  induction l as [|fs l IH]; intros db acc Hinv; [exact Hinv|].
  cbn [fold_left].
  assert (Hstep : studentBooksAgree
                    (fst (autoAssignOne s t now (db, acc) fs))).
  { unfold autoAssignOne. destruct fs as [fsId fs].
    destruct (findOne _ _); [exact Hinv|].
    match goal with
    | |- context [createFeeAssignment ?n ?d ?b] =>
        pose proof (createFeeAssignment_books n d b Hinv eq_refl) as Hc;
        destruct (createFeeAssignment n d b) as [db' created]
    end.
    exact Hc. }
  destruct (autoAssignOne s t now (db, acc) fs) as [db' acc'].
  apply IH. exact Hstep.
Qed.

Lemma saved_payment_fields now paid pid a :
  let a' :=
    FeeAssignment.preSave false now
      (FeeAssignment.updateStatus now
         (FeeAssignment.setPayment paid now pid a)) in
  FeeAssignment.tenant a' = FeeAssignment.tenant a
  /\ FeeAssignment.student a' = FeeAssignment.student a
  /\ FeeAssignment.paidNumber a' = paid.
Proof.
  cbv zeta. rewrite preSave_after_updateStatus.
  destruct a; cbn. auto.
Qed.

Lemma recordFeePayment_books user body now db :
  studentBooksAgree db ->
  studentBooksAgree (fst (recordFeePayment user body now db)).
Proof.
  intros Hinv.
  destruct (recordFeePayment_effect user body now db)
    as [(code & msg & ->)|(pid & p & a & a' & -> & Hid & Hpid & Hto & Hamt
                            & Htenant & Hstudent & Ha')]; [exact Hinv|].
  intros t s. cbn [fst feeAssignments feePayments withAssignments
                   withPayments].
  rewrite (sum_find_insert_new _ _ _ pid p Hpid).
  rewrite (sum_find_update _ _ _ _ a a' Hid).
  rewrite (Hinv t s). cbn [snd].
  destruct (saved_payment_fields now
              (FeeAssignment.paidNumber a + PaymentBody.amount body) pid a)
    as (Ht' & Hs' & Hpaid).
  rewrite <- Ha' in Ht', Hs', Hpaid.
  rewrite Hpaid, Hamt.
  destruct (decide _) as [Hp|Hp], (decide _) as [Hb|Hb],
    (decide _) as [Hc|Hc];
    unfold assignmentOfStudent in *; cbn [snd] in *;
    rewrite ?Ht', ?Hs' in *; rewrite ?Htenant, ?Hstudent in *;
    try tauto; lia.
Qed.

(** X20.  On whole amounts in the range in which the additions of the
    code are exact (a [safeRun]), in every sequential run of
    [assignFeeToStudent], [autoAssignClassFees] and [recordFeePayment]
    from books that agree (no payment and nothing paid yet, for one),
    the two reports of a student agree: the [totalAmount] of
    [getPayments] asked for the student is the [paidAmount] of the
    summary of [getStudentFees]. *)
Theorem payments_total_is_paid_amount ops db user studentId now :
  studentBooksAgree db -> safeRun ops db ->
  exists payments docs summary,
    getPayments user (Some studentId) None None (run ops db)
    = Success 200 payments
    /\ snd (getStudentFees user studentId now (run ops db))
       = Success 200 (docs, summary)
    /\ Payments.totalAmount payments = StudentFees.paidAmount summary.
Proof.
  intros Hinv _.
  assert (Hrun : studentBooksAgree (run ops db)).
  { unfold run. revert db Hinv.
    induction ops as [|op ops IH]; intros db Hinv; [exact Hinv|].
    cbn [fold_left]. apply IH. destruct op; cbn [step].
    - apply assignFeeToStudent_books, Hinv.
    - apply autoAssignClassFees_books, Hinv.
    - apply recordFeePayment_books, Hinv. }
  generalize dependent (run ops db). intros db' Hrun.
  unfold getPayments, getStudentFees.
  rewrite refreshStatus_fold. cbn [snd app].
  eexists _, _, _. split; [reflexivity|]. split; [reflexivity|].
  cbn [Payments.totalAmount]. rewrite addToSummary_fold.
  cbn [StudentFees.paidAmount]. rewrite reduce_is_sum, !Z.add_0_l.
  rewrite (sumOver_perm _ _ _ (sortByDateDesc_perm _)).
  rewrite sumOver_fmap.
  rewrite (find_ext _ (fun x => FeePayment.tenant (snd x) = userTenant user
                               /\ FeePayment.student (snd x) = studentId))
    by (intros x; unfold paymentQuery; tauto).
  rewrite (Hrun (userTenant user) studentId).
  apply sumOver_ext. intros [i a]. destruct a; reflexivity.
Qed.

(** The theorem on the example school: an assignment and two payments,
    from the database without assignments and payments. *)
Lemma payments_total_is_paid_amount_witness :
  exists payments docs summary,
    getPayments Scenario.admin (Some 50%N) None None
      (run [OpAssignFee Scenario.admin (AssignFeeBody.mk 50 100 None)
              Scenario.jan5;
            OpRecordPayment Scenario.admin (Scenario.pay 2000) Scenario.jan5;
            OpRecordPayment Scenario.admin (Scenario.pay 3000)
              Scenario.feb20]
         Scenario.school)
    = Success 200 payments
    /\ snd (getStudentFees Scenario.admin 50 Scenario.jun15
              (run [OpAssignFee Scenario.admin (AssignFeeBody.mk 50 100 None)
                      Scenario.jan5;
                    OpRecordPayment Scenario.admin (Scenario.pay 2000)
                      Scenario.jan5;
                    OpRecordPayment Scenario.admin (Scenario.pay 3000)
                      Scenario.feb20]
                 Scenario.school))
       = Success 200 (docs, summary)
    /\ Payments.totalAmount payments = StudentFees.paidAmount summary.
Proof.
  apply payments_total_is_paid_amount.
  - intros t s. vm_compute. reflexivity.
  - cbn [safeRun safeRequest]. unfold safeLedger.
    repeat split; vm_compute; congruence.
Defined.

(** The two reports of that run: 5000 in two payments, the later first,
    and 5000 paid of 5000. *)
Example two_payments_in_both_reports :
  let db :=
    run [OpAssignFee Scenario.admin (AssignFeeBody.mk 50 100 None)
           Scenario.jan5;
         OpRecordPayment Scenario.admin (Scenario.pay 2000) Scenario.jan5;
         OpRecordPayment Scenario.admin (Scenario.pay 3000) Scenario.feb20]
      Scenario.school in
  (exists p, getPayments Scenario.admin (Some 50%N) None None db
             = Success 200 p
             /\ Payments.count p = 2%nat
             /\ Payments.totalAmount p = 5000
             /\ (fun x => FeePayment.amount (snd x)) <$> Payments.data p
                = [3000; 2000])
  /\ (exists docs s, snd (getStudentFees Scenario.admin 50 Scenario.jun15 db)
                     = Success 200 (docs, s)
                     /\ s = StudentFees.mkSummary 5000 5000 0 0).
Proof.
  cbv zeta. split.
  - eexists. split; [vm_compute; reflexivity|]. vm_compute. auto.
  - eexists _, _. split; vm_compute; reflexivity.
Qed.

(* --------------------------------------------------------------------- *)
(** ** The two reports on a student *)
(* --------------------------------------------------------------------- *)

(** The totals of the loop of [getStudentLevelSummary], in terms of the
    assignments as they are stored. *)
Lemma studentStep_fold now db l :
  forall s,
    let r := fold_left (studentStep now) (populate db <$> l) s in
    let late (x : N * FeeAssignment.t) :=
      JSDate.ltb (FeeAssignment.dueDate (snd x)) now in
    let left (x : N * FeeAssignment.t) :=
      FeeAssignment.calculatePendingAmount (snd x) in
    StudentSummary.totalExpected r
    = StudentSummary.totalExpected s
      + sumOver (fun x => FeeAssignment.finalAmount (snd x)) l
    /\ StudentSummary.totalCollected r
       = StudentSummary.totalCollected s
         + sumOver (fun x => FeeAssignment.paidNumber (snd x)) l
    /\ StudentSummary.totalPending r
       = StudentSummary.totalPending s
         + sumOver (fun x => if late x then 0 else left x) l
    /\ StudentSummary.totalOverdue r
       = StudentSummary.totalOverdue s
         + sumOver (fun x => if late x then left x else 0) l.
Proof.
  induction l as [|x l IH]; intros s; cbv zeta.
  - cbn. repeat split; lia.
  - rewrite fmap_cons. cbn [fold_left]. rewrite !sumOver_cons.
    destruct (IH (studentStep now s (populate db x)))
      as (He & Hc & Hp & Ho).
    rewrite He, Hc, Hp, Ho. clear He Hc Hp Ho IH.
    unfold studentStep, populate. cbn [assignment snd fst].
    cbn [StudentSummary.totalExpected StudentSummary.totalCollected
         StudentSummary.totalPending StudentSummary.totalOverdue].
    generalize (sumOver (fun x => FeeAssignment.finalAmount (snd x)) l).
    generalize (sumOver (fun x => FeeAssignment.paidNumber (snd x)) l).
    generalize (sumOver
                  (fun x => if JSDate.ltb (FeeAssignment.dueDate (snd x)) now
                            then 0
                            else FeeAssignment.calculatePendingAmount (snd x))
                  l).
    generalize (sumOver
                  (fun x => if JSDate.ltb (FeeAssignment.dueDate (snd x)) now
                            then FeeAssignment.calculatePendingAmount (snd x)
                            else 0)
                  l).
    intros so sp sc se.
    unfold FeeAssignment.updateStatus, FeeAssignment.calculatePendingAmount,
      FeeAssignment.paidNumber.
    destruct x as [i [t st f y ta d fa due stat pa pd pi ca cb cr]].
    cbn [snd FeeAssignment.paidAmount FeeAssignment.finalAmount
         FeeAssignment.dueDate].
    (destruct pa as [paid|]; cbn [default id];
     [ destruct (Z.leb_spec fa paid); [|destruct (Z.ltb_spec 0 paid)]
     | destruct (Z.leb_spec fa 0) ]);
      destruct (JSDate.ltb due now); cbn;
      repeat case_bool_decide; try (exfalso; intuition congruence);
      repeat split; lia.
Qed.

Lemma fold_left_sumOver {A} (f : A -> Z) l :
  forall a, fold_left (fun acc x => acc + f x) l a = a + sumOver f l.
Proof.
  induction l as [|x l IH]; intros a; cbn [fold_left].
  - cbn. lia.
  - rewrite IH, sumOver_cons. lia.
Qed.

(** X21.  The two reports on a student, [getStudentFeeSummary] (no
    academic year asked) and [getStudentFees], read the same assignments
    in the same order.  Without an assignment the summary answers 'No
    fee assignments found for this student', with assignments of a
    student that is not stored 'Student not found'.  Otherwise both add
    up the same expected and the same collected total, one assignment
    after the other, and the summary adds what is left of an assignment
    to [totalOverdue] when its due date is past and to [totalPending]
    when it is not, whether or not a part of it is paid
    ([getStudentFees] counts a part-paid assignment as pending). *)
Theorem student_reports_compared user studentId now db :
  let l :=
    find (assignmentOfStudent (userTenant user) studentId)
         (feeAssignments db) in
  let late (x : N * FeeAssignment.t) :=
    JSDate.ltb (FeeAssignment.dueDate (snd x)) now in
  let left (x : N * FeeAssignment.t) :=
    FeeAssignment.calculatePendingAmount (snd x) in
  (l = [] ->
   getStudentFeeSummary user None studentId now db
   = Success 200 StudentSummary.NoAssignments)
  /\ (l <> [] -> students db !! studentId = None ->
      getStudentFeeSummary user None studentId now db
      = Success 200 StudentSummary.StudentNotFound)
  /\ (l <> [] -> is_Some (students db !! studentId) ->
      exists s docs fees,
        getStudentFeeSummary user None studentId now db
        = Success 200 (StudentSummary.Summary s)
        /\ snd (getStudentFees user studentId now db)
           = Success 200 (docs, fees)
        /\ StudentSummary.totalExpected s = StudentFees.totalAmount fees
        /\ StudentSummary.totalCollected s = StudentFees.paidAmount fees
        /\ StudentSummary.totalPending s
           = fold_left (fun acc x => acc + (if late x then 0 else left x))
               l 0
        /\ StudentSummary.totalOverdue s
           = fold_left (fun acc x => acc + (if late x then left x else 0))
               l 0).
Proof.
  intros l late left.
  assert (Hmem : forall x, x ∈ l -> FeeAssignment.student (snd x) = studentId).
  { intros x Hx. apply find_elem in Hx as [_ [_ Hs]]. exact Hs. }
  assert (Hfees :
    snd (getStudentFees user studentId now db)
    = Success 200
        (refreshed now <$> l,
         fold_left addToSummary (refreshed now <$> l)
           (StudentFees.mkSummary 0 0 0 0))).
  { unfold getStudentFees. fold l. rewrite refreshStatus_fold. reflexivity. }
  rewrite Hfees. clear Hfees.
  unfold getStudentFeeSummary, getStudentLevelSummary.
  rewrite (find_ext _ (assignmentOfStudent (userTenant user) studentId))
    by (intros x; unfold studentQuery, summaryQuery, assignmentOfStudent;
        tauto).
  fold l. clearbody l.
  replace (List.map (populate db) l) with (populate db <$> l) by reflexivity.
  destruct l as [|x l']; (split; [|split]); try congruence.
  - reflexivity.
  - intros _ Hnone. rewrite fmap_cons. unfold populate at 1.
    cbn [populatedStudent]. rewrite (Hmem x), Hnone by (apply elem_of_cons; auto).
    reflexivity.
  - intros _ [st Hst]. rewrite fmap_cons. unfold populate at 1.
    cbn [populatedStudent]. rewrite (Hmem x), Hst by (apply elem_of_cons; auto).
    rewrite <- fmap_cons. clear Hmem.
    generalize (x :: l'). clear x l'. intros l.
    eexists _, _, _. split; [reflexivity|]. split; [reflexivity|].
    match goal with
    | |- context [fold_left (studentStep now) _ ?s0] =>
        destruct (studentStep_fold now db l s0) as (He & Hc & Hp & Ho)
    end.
    rewrite He, Hc, Hp, Ho. clear He Hc Hp Ho.
    rewrite addToSummary_fold, !fold_left_sumOver.
    cbn [StudentSummary.totalExpected StudentSummary.totalCollected
         StudentSummary.totalPending StudentSummary.totalOverdue
         StudentFees.totalAmount StudentFees.paidAmount
         StudentFees.pendingAmount StudentFees.overdueAmount].
    rewrite !sumOver_fmap.
    split; [|split; [|split; reflexivity]]; f_equal; apply sumOver_ext;
      intros [i a]; unfold refreshed, storedStatus, FeeAssignment.paidNumber;
      destruct a; reflexivity.
Qed.

(** The theorem on the example school: 2000 paid of 5000 on 5 January,
    the reports asked on 20 February, ten days after the due date. *)
Lemma student_reports_compared_witness :
  exists s docs fees,
    getStudentFeeSummary Scenario.admin None 50 Scenario.feb20
      (fst (recordFeePayment Scenario.admin (Scenario.pay 2000)
              Scenario.jan5 Scenario.assigned))
    = Success 200 (StudentSummary.Summary s)
    /\ snd (getStudentFees Scenario.admin 50 Scenario.feb20
              (fst (recordFeePayment Scenario.admin (Scenario.pay 2000)
                      Scenario.jan5 Scenario.assigned)))
       = Success 200 (docs, fees)
    /\ StudentSummary.totalExpected s = StudentFees.totalAmount fees
    /\ StudentSummary.totalCollected s = StudentFees.paidAmount fees.
Proof.
  destruct (student_reports_compared Scenario.admin 50 Scenario.feb20
              (fst (recordFeePayment Scenario.admin (Scenario.pay 2000)
                      Scenario.jan5 Scenario.assigned)))
    as (_ & _ & Hboth).
  destruct Hboth as (s & docs & fees & Hs & Hf & He & Hc & _).
  - vm_compute. discriminate.
  - vm_compute. eauto.
  - exists s, docs, fees. auto.
Defined.

(** The two reports of that day: 3000 left, overdue for the summary,
    pending for [getStudentFees]. *)
Example part_paid_late_in_both_reports :
  let db :=
    fst (recordFeePayment Scenario.admin (Scenario.pay 2000) Scenario.jan5
           Scenario.assigned) in
  (exists s, getStudentFeeSummary Scenario.admin None 50 Scenario.feb20 db
             = Success 200 (StudentSummary.Summary s)
             /\ StudentSummary.totalPending s = 0
             /\ StudentSummary.totalOverdue s = 3000)
  /\ (exists docs fees,
         snd (getStudentFees Scenario.admin 50 Scenario.feb20 db)
         = Success 200 (docs, fees)
         /\ StudentFees.pendingAmount fees = 3000
         /\ StudentFees.overdueAmount fees = 0).
Proof.
  cbv zeta. split.
  - eexists. split; [vm_compute; reflexivity|]. vm_compute. auto.
  - eexists _, _. split; [vm_compute; reflexivity|]. vm_compute. auto.
Qed.

(* --------------------------------------------------------------------- *)
(** ** The frequency theorems on the example school *)
(* --------------------------------------------------------------------- *)


(** X18 on the example school: the first tenant holds the row 'monthly',
    and its list is refused. *)
Lemma getFeeFrequencies_needs_ObjectId_codes_witness :
  getFeeFrequencies castObjectIdHex Scenario.admin None None Scenario.school
  = Failure 400 "Error fetching frequencies".
Proof.
  apply (proj2 (getFeeFrequencies_needs_ObjectId_codes castObjectIdHex
                  Scenario.admin None None Scenario.school)).
  exists 12%N, (FeeFrequency.mk 1 "Monthly" "monthly" 1 true 2 true).
  split; [vm_compute; reflexivity|].
  split; [|vm_compute; reflexivity].
  unfold frequencyQuery. cbn. auto.
Defined.
